(** * Derivative-cache request pipeline: image optimization and video thumbnails

    A shallow embedding of the Lambda handlers of the repository and the
    properties of its specification.

    Source files embedded here:
    - [functions/image-optimization/index.ts]            (module [ImageOptimization])
    - the path-operations image handler                  (module [ImageTransform])
    - the query-parameter image handler                  (module [ImageRouter])
    - [functions/video-thumbnail/index.ts], first part   (module [VideoThumbnail])
    - [functions/video-thumbnail/index.ts], second part  (module [VideoRedirect])
    - [config/projects.ts]                               (module [Config])

    The object store and the codecs are outside the program: module [S3] is
    a reference environment used to run the handlers on sample requests
    (module [Samples]); module [Spec] holds the notions of the
    specification the handlers are compared with.

    Conventions.
    - A JavaScript string is a [string] (a sequence of 8-bit characters): the
      characters below 128 as they are, the others as the bytes of their
      UTF-8 encoding.  The requests of interest are ASCII.
    - A JavaScript number that holds an integer is a [Z]; [NaN] is a value of
      its own ([Js.number]).  Integers are exact up to 2^53 in the source.
    - Every call that leaves the process (the object store, the image codec
      from its constructor on, the video decoder, the console) is an event
      of [Lambda.Ev]; a handler
      is a finite tree of such events ([Lambda.Prog]) and is run against an
      arbitrary environment ([Lambda.run]). *)

From Stdlib Require Import ZArith List String Ascii Bool Lia.
From stdpp Require Import base option strings gmap.
Import ListNotations.
Open Scope string_scope.
Open Scope Z_scope.

(* ===================================================================== *)
(** * JavaScript primitives used by the handlers *)
(* ===================================================================== *)

Module Js.

(** ** Strings *)

(** [!s] is false exactly for the empty string. *)
Definition truthy (s : string) : bool :=
  match s with
  | EmptyString => false
  | String _ _ => true
  end.

(** [o || d] on an optional string. *)
Definition or_default (o : option string) (d : string) : string :=
  match o with
  | Some s => if truthy s then s else d
  | None => d
  end.

(** [s.split(sep)] for a one-character separator: never the empty list,
    [''.split('/')] is [['']]. *)
Fixpoint split (sep : ascii) (s : string) : list string :=
  match s with
  | EmptyString => [EmptyString]
  | String c s' =>
      if Ascii.eqb c sep then EmptyString :: split sep s'
      else match split sep s' with
           | [] => [String c EmptyString]
           | h :: t => String c h :: t
           end
  end.

(** [parts.join(sep)]. *)
Definition join (sep : string) (parts : list string) : string :=
  String.concat sep parts.

(** [parts.slice(1)]. *)
Definition slice1 {A : Type} (parts : list A) : list A := tl parts.

(** [s.substring(1)] and [s.slice(1)]: the string without its first
    character. *)
Definition substring1 (s : string) : string :=
  match s with
  | EmptyString => EmptyString
  | String _ s' => s'
  end.

(** [s.includes(c)] for a one-character needle. *)
Fixpoint includes (c : ascii) (s : string) : bool :=
  match s with
  | EmptyString => false
  | String d s' => Ascii.eqb d c || includes c s'
  end.

(** [s.toLowerCase()] on ASCII letters. *)
Definition lower_char (c : ascii) : ascii :=
  let n := nat_of_ascii c in
  if (Nat.leb 65 n && Nat.leb n 90)%bool then ascii_of_nat (n + 32) else c.

Fixpoint toLowerCase (s : string) : string :=
  match s with
  | EmptyString => EmptyString
  | String c s' => String (lower_char c) (toLowerCase s')
  end.

(** ** Numbers *)

Inductive number : Type :=
| Num (z : Z)
| NaN.

(** Truthiness of a number: [0] and [NaN] are falsy. *)
Definition truthy_num (n : number) : bool :=
  match n with
  | Num z => negb (z =? 0)
  | NaN => false
  end.

(** Truthiness of an optional number ([undefined] is falsy). *)
Definition truthy_opt (o : option number) : bool :=
  match o with
  | Some n => truthy_num n
  | None => false
  end.

(** [a < b] and [a > b]: every comparison with [NaN] is false. *)
Definition lt (a b : number) : bool :=
  match a, b with
  | Num x, Num y => x <? y
  | _, _ => false
  end.

Definition gt (a b : number) : bool := lt b a.

(** White space skipped by [parseInt] ([StrWhiteSpaceChar]: the white
    space and the line terminators of the language).  In one character:
    tab, line feed, vertical tab, form feed, carriage return, space, and
    the no-break space of an 8-bit string (160). *)
Definition is_space (c : ascii) : bool :=
  let n := nat_of_ascii c in
  (Nat.eqb n 32 || (Nat.leb 9 n && Nat.leb n 13) || Nat.eqb n 160)%bool.

(** The white space outside ASCII, in UTF-8.  In two bytes: U+00A0. *)
Definition is_space2 (c1 c2 : ascii) : bool :=
  (Nat.eqb (nat_of_ascii c1) 194 && Nat.eqb (nat_of_ascii c2) 160)%bool.

(** In three bytes: U+1680; U+2000 to U+200A, U+2028, U+2029, U+202F;
    U+205F; U+3000; U+FEFF. *)
Definition is_space3 (c1 c2 c3 : ascii) : bool :=
  let x := nat_of_ascii c1 in
  let y := nat_of_ascii c2 in
  let z := nat_of_ascii c3 in
  ((Nat.eqb x 225 && Nat.eqb y 154 && Nat.eqb z 128)
   || (Nat.eqb x 226 && Nat.eqb y 128
       && ((Nat.leb 128 z && Nat.leb z 138)
           || Nat.eqb z 168 || Nat.eqb z 169 || Nat.eqb z 175))
   || (Nat.eqb x 226 && Nat.eqb y 129 && Nat.eqb z 159)
   || (Nat.eqb x 227 && Nat.eqb y 128 && Nat.eqb z 128)
   || (Nat.eqb x 239 && Nat.eqb y 187 && Nat.eqb z 191))%bool.

Fixpoint trim_start (s : string) : string :=
  match s with
  | EmptyString => EmptyString
  | String c1 s1 =>
      if is_space c1 then trim_start s1
      else if Nat.ltb (nat_of_ascii c1) 128 then s
      else
        match s1 with
        | String c2 s2 =>
            if is_space2 c1 c2 then trim_start s2
            else match s2 with
                 | String c3 s3 =>
                     if is_space3 c1 c2 c3 then trim_start s3 else s
                 | EmptyString => s
                 end
        | EmptyString => s
        end
  end.

(** Value of a character as a digit, in any radix up to 36. *)
Definition digit_val (c : ascii) : option Z :=
  let n := nat_of_ascii c in
  if (Nat.leb 48 n && Nat.leb n 57)%bool then Some (Z.of_nat (n - 48))
  else if (Nat.leb 97 n && Nat.leb n 122)%bool then Some (Z.of_nat (n - 87))
  else if (Nat.leb 65 n && Nat.leb n 90)%bool then Some (Z.of_nat (n - 55))
  else None.

(** The longest prefix of radix-[R] digits, read as a number; [None] when
    the prefix is empty. *)
Fixpoint parse_digits (R : Z) (s : string) (acc : option Z) : option Z :=
  match s with
  | EmptyString => acc
  | String c s' =>
      match digit_val c with
      | Some d =>
          if d <? R
          then parse_digits R s' (Some (match acc with
                                        | Some a => a * R + d
                                        | None => d
                                        end))
          else acc
      | None => acc
      end
  end.

(** An optional sign. *)
Definition strip_sign (s : string) : Z * string :=
  match s with
  | String "-"%char s' => (-1, s')
  | String "+"%char s' => (1, s')
  | _ => (1, s)
  end.

(** A [0x] or [0X] prefix selects radix 16 when no radix is given. *)
Definition strip_hex (s : string) : Z * string :=
  match s with
  | String "0"%char (String "x"%char s') => (16, s')
  | String "0"%char (String "X"%char s') => (16, s')
  | _ => (10, s)
  end.

Definition to_number (sign : Z) (o : option Z) : number :=
  match o with
  | Some v => Num (sign * v)
  | None => NaN
  end.

(** [parseInt(s)]. *)
Definition parseInt (s : string) : number :=
  let '(sign, s1) := strip_sign (trim_start s) in
  let '(R, s2) := strip_hex s1 in
  to_number sign (parse_digits R s2 None).

(** [parseInt(s, 10)]. *)
Definition parseInt10 (s : string) : number :=
  let '(sign, s1) := strip_sign (trim_start s) in
  to_number sign (parse_digits 10 s1 None).

(** ** Objects with ordered own properties

    The own string-keyed properties of an object, in insertion order.  A
    value is a string or [undefined] ([None]). *)
Definition object : Type := list (string * option string).

Fixpoint assoc (k : string) (o : object) : option (option string) :=
  match o with
  | [] => None
  | (k', v) :: o' => if String.eqb k' k then Some v else assoc k o'
  end.

(** [o[k] = v]: an existing property keeps its place, a new one goes last. *)
Fixpoint set_prop (k : string) (v : option string) (o : object) : object :=
  match o with
  | [] => [(k, v)]
  | (k', v') :: o' =>
      if String.eqb k' k then (k', v) :: o' else (k', v') :: set_prop k v o'
  end.

(** [o[k]] as the handlers test it: the value when it is a non-empty
    string. *)
Definition get_truthy (k : string) (o : object) : option string :=
  match assoc k o with
  | Some (Some v) => if truthy v then Some v else None
  | _ => None
  end.

(** A canonical array index is the decimal numeral of an integer below
    2^32 - 1 without leading zeros. *)
Fixpoint all_digits (s : string) : bool :=
  match s with
  | EmptyString => true
  | String c s' =>
      let n := nat_of_ascii c in
      (Nat.leb 48 n && Nat.leb n 57 && all_digits s')%bool
  end.

Definition array_index (s : string) : option Z :=
  match s with
  | EmptyString => None
  | String "0"%char EmptyString => Some 0
  | String "0"%char _ => None
  | _ =>
      if all_digits s
      then match parse_digits 10 s None with
           | Some v => if v <? 4294967295 then Some v else None
           | None => None
           end
      else None
  end.

Definition is_array_index (s : string) : bool :=
  match array_index s with Some _ => true | None => false end.

(** Insertion of an index-keyed entry into the ascending run of index
    keys. *)
Fixpoint insert_index (i : Z) (e : string * option string)
                      (l : list (Z * (string * option string)))
  : list (Z * (string * option string)) :=
  match l with
  | [] => [(i, e)]
  | (j, e') :: l' =>
      if i <? j then (i, e) :: l else (j, e') :: insert_index i e l'
  end.

Fixpoint index_entries (o : object) : list (Z * (string * option string)) :=
  match o with
  | [] => []
  | (k, v) :: o' =>
      match array_index k with
      | Some i => insert_index i (k, v) (index_entries o')
      | None => index_entries o'
      end
  end.

Definition name_entries (o : object) : object :=
  List.filter (fun e => negb (is_array_index (fst e))) o.

(** [Object.entries(o)]: array-index keys first, in ascending numeric
    order, then the other keys in insertion order. *)
Definition entries (o : object) : list (string * option string) :=
  List.map snd (index_entries o) ++ name_entries o.

(** [Object.fromEntries(pairs)] where each pair is the array produced by
    [split('=')]: element 0 is the key, element 1 the value ([undefined]
    when the array has one element); later elements are ignored. *)
Definition entry_of (parts : list string) : string * option string :=
  match parts with
  | [] => ("undefined", None)
  | [k] => (k, None)
  | k :: v :: _ => (k, Some v)
  end.

(** The object obtained by setting the given properties, in order, on an
    object. *)
Definition set_all (props : list (string * option string)) (o : object) : object :=
  List.fold_left (fun o e => set_prop (fst e) (snd e) o) props o.

Definition fromEntries (pairs : list (list string)) : object :=
  set_all (List.map entry_of pairs) [].

(** Template-literal rendering of a value: [`${v}`]. *)
Definition show (v : option string) : string :=
  match v with
  | Some s => s
  | None => "undefined"
  end.

End Js.

(* ===================================================================== *)
(** * The Lambda runtime: requests, responses, external calls *)
(* ===================================================================== *)

Module Lambda.

(** A [Buffer] is a sequence of bytes. *)
Definition Buffer : Type := list Byte.byte.

Definition byteLength (b : Buffer) : Js.number := Js.Num (Z.of_nat (length b)).

(** A Buffer is an object, hence truthy. *)
Definition truthy_buffer (b : Buffer) : bool := true.

(** An exception value: the [name] and [message] of an [Error]. *)
Record JsError : Type := { name : string; message : string }.

(** [new Error(msg)]. *)
Definition Error (msg : string) : JsError := {| name := "Error"; message := msg |}.

Definition TypeError (msg : string) : JsError :=
  {| name := "TypeError"; message := msg |}.

(** ** The inbound event *)

Record Http : Type := { method : option string; path : option string }.

Record RequestContext : Type := { http : option Http }.

Record Event : Type := {
  headers : option (gmap string string);
  pathParameters : option (gmap string string);
  queryStringParameters : option (gmap string string);
  requestContext : option RequestContext;
  rawPath : option string;
  rawQueryString : option string
}.

(** The same event with other headers. *)
Definition with_headers (h : option (gmap string string)) (ev : Event) : Event :=
  {| headers := h;
     pathParameters := pathParameters ev;
     queryStringParameters := queryStringParameters ev;
     requestContext := requestContext ev;
     rawPath := rawPath ev;
     rawQueryString := rawQueryString ev |}.

(** [process.env]: the variables the handlers read. *)
Record ProcessEnv : Type := {
  originalImageBucketName : option string;
  transformedImageBucketName : option string;
  transformedImageCacheTTL : option string;
  maxImageSize : option string;
  thumbnailBucketName : option string;
  thumbnailCacheTTL : option string
}.

(** ** The response *)

(** A header value: a string, [undefined], or the server-timing log (the
    phases that were timed; the measured durations are left out). *)
Inductive header_value : Type :=
| HString (s : string)
| HUndefined
| HTiming (phases : list string).

Definition of_option (o : option string) : header_value :=
  match o with
  | Some s => HString s
  | None => HUndefined
  end.

(** The third argument of [sendError]. *)
Inductive err_arg : Type :=
| ArgError (e : JsError)
| ArgString (s : string)
| ArgNull
| ArgEvent (ev : Event).

Inductive json : Type :=
| JString (s : string)
| JValue (a : err_arg).

(** A response body: [JSON.stringify] of an object with the given fields,
    or [buffer.toString('base64')]. *)
Inductive body : Type :=
| JsonBody (fields : list (string * json))
| Base64Body (b : Buffer).

Record Response : Type := {
  statusCode : Z;
  resp_headers : list (string * header_value);
  resp_body : option body;
  isBase64Encoded : bool
}.

(** [{ statusCode, body: JSON.stringify({ error: msg }) }]. *)
Definition error_response (status : Z) (msg : string) : Response :=
  {| statusCode := status;
     resp_headers := [];
     resp_body := Some (JsonBody [("error", JString msg)]);
     isBase64Encoded := false |}.

Fixpoint header (h : string) (l : list (string * header_value)) : option header_value :=
  match l with
  | [] => None
  | (k, v) :: l' => if String.eqb k h then Some v else header h l'
  end.

(** ** External calls *)

(** The [Bucket] argument of a store command: a bucket name, [undefined]
    (an unset environment variable), or a member inherited from
    [Object.prototype] when the project table is indexed with its name. *)
Inductive bucket : Type :=
| BucketName (s : string)
| BucketUndefined
| BucketInherited (member : string).

(** A bucket inside a template literal (an inherited member is shown by
    its name). *)
Definition show_bucket (b : bucket) : string :=
  match b with
  | BucketName s => s
  | BucketUndefined => "undefined"
  | BucketInherited m => m
  end.

(** The output of [GetObjectCommand]: the body, when present, is a stream
    whose reading ([transformToByteArray]) gives the bytes or fails. *)
Record GetObjectOutput : Type := {
  Body : option (JsError + Buffer);
  ContentType : option string
}.

(** What [sharp(...).metadata()] reports. *)
Record Metadata : Type := {
  format : option string;
  orientation : option Z
}.

Record ResizeOptions : Type := {
  width : option Js.number;
  height : option Js.number;
  fit_inside : bool;
  withoutEnlargement : bool
}.

Inductive Encoder : Type :=
| Jpeg (quality : Js.number)
| Png (quality : option Js.number)
| Webp (quality : Js.number)
| Avif (quality : Js.number)
| Gif
| ToFormat (fmt : string) (quality : option Js.number).

(** A sharp pipeline: the calls chained on the image before [toBuffer]. *)
Record Pipeline : Type := {
  input : Buffer;
  tolerant : bool;   (* { failOn: 'none', animated: true } *)
  resize : option ResizeOptions;
  rotate : bool;
  encoder : option Encoder
}.

Definition sharp (input : Buffer) (tolerant : bool) : Pipeline :=
  {| input := input; tolerant := tolerant; resize := None; rotate := false;
     encoder := None |}.

Definition with_resize (r : ResizeOptions) (p : Pipeline) : Pipeline :=
  {| input := input p; tolerant := tolerant p; resize := Some r;
     rotate := rotate p; encoder := encoder p |}.

Definition with_rotate (p : Pipeline) : Pipeline :=
  {| input := input p; tolerant := tolerant p; resize := resize p;
     rotate := true; encoder := encoder p |}.

Definition with_encoder (e : Encoder) (p : Pipeline) : Pipeline :=
  {| input := input p; tolerant := tolerant p; resize := resize p;
     rotate := rotate p; encoder := Some e |}.

(** The calls that leave the process, indexed by the type of their
    answer.  A store or codec call answers with its result or with the
    exception it raises; the constructor of the codec, [sharp(input,
    options)], is such a call: it validates its input (an empty one is
    rejected) and throws when it refuses it.  [console.error(label, x)] is
    recorded with the text of [x]; [console.log] is not recorded. *)
Inductive Ev : Type -> Type :=
| GetObject (b : bucket) (key : string) : Ev (JsError + GetObjectOutput)
| HeadObject (b : bucket) (key : string) : Ev (JsError + unit)
| PutObject (b : bucket) (key : string) (content : Buffer)
            (contentType : option string) (cacheControl : option string)
  : Ev (JsError + unit)
| SharpConstructor (input : Buffer) (tolerant : bool) : Ev (JsError + unit)
| SharpMetadata (p : Pipeline) : Ev (JsError + Metadata)
| SharpToBuffer (p : Pipeline) : Ev (JsError + Buffer)
| GenerateThumbnail (video : Buffer) : Ev (JsError + Buffer)
| ConsoleError (label text : string) : Ev unit.

(** ** Handlers as trees of external calls *)

Inductive Prog (A : Type) : Type :=
| Ret (a : A)
| Throw (e : JsError)
| Vis {X : Type} (ev : Ev X) (k : X -> Prog A).

Arguments Ret {A} a.
Arguments Throw {A} e.
Arguments Vis {A X} ev k.

Fixpoint bind {A B : Type} (p : Prog A) (f : A -> Prog B) : Prog B :=
  match p with
  | Ret a => f a
  | Throw e => Throw e
  | Vis ev k => Vis ev (fun x => bind (k x) f)
  end.

(** [try { p } catch (e) { h e }]. *)
Fixpoint try_catch {A : Type} (p : Prog A) (h : JsError -> Prog A) : Prog A :=
  match p with
  | Ret a => Ret a
  | Throw e => h e
  | Vis ev k => Vis ev (fun x => try_catch (k x) h)
  end.

(** A call whose answer is consumed as is. *)
Definition call {X : Type} (ev : Ev X) : Prog X := Vis ev Ret.

(** [await] of a call that may reject: the rejection is thrown. *)
Definition await {X : Type} (ev : Ev (JsError + X)) : Prog X :=
  Vis ev (fun r => match r with
                   | inl e => Throw e
                   | inr x => Ret x
                   end).

Declare Scope prog_scope.
Delimit Scope prog_scope with prog.
Notation "x <- p ;; q" := (bind p (fun x => q))
  (at level 100, p at next level, right associativity) : prog_scope.
Notation "p ;;; q" := (bind p (fun _ => q))
  (at level 100, right associativity) : prog_scope.

(** [sharp(input, options)]: the pipeline on the input, once the
    constructor has accepted it. *)
Definition new_sharp (input : Buffer) (tolerant : bool) : Prog Pipeline :=
  bind (await (SharpConstructor input tolerant))
       (fun _ => Ret (sharp input tolerant)).

(** ** Running a handler against an environment *)

(** An environment answers every call and moves to its next state. *)
Definition Oracle (W : Type) : Type := forall X : Type, Ev X -> W -> X * W.

Inductive Outcome (A : Type) : Type :=
| Returned (a : A)
| Uncaught (e : JsError).

Arguments Returned {A} a.
Arguments Uncaught {A} e.

(** A call together with the answer it got. *)
Inductive Step : Type :=
| step {X : Type} (ev : Ev X) (answer : X).

Fixpoint run {W A : Type} (o : Oracle W) (p : Prog A) (w : W)
  : Outcome A * list Step * W :=
  match p with
  | Ret a => (Returned a, [], w)
  | Throw e => (Uncaught e, [], w)
  | Vis ev k =>
      let '(x, w1) := o _ ev w in
      let '(r, t, w2) := run o (k x) w1 in
      (r, step ev x :: t, w2)
  end.

Definition outcome {W A : Type} (r : Outcome A * list Step * W) : Outcome A :=
  fst (fst r).

Definition trace {W A : Type} (r : Outcome A * list Step * W) : list Step :=
  snd (fst r).

Definition final {W A : Type} (r : Outcome A * list Step * W) : W := snd r.

(** The status code of the response of a run, when there is one. *)
Definition status {W : Type} (r : Outcome Response * list Step * W) : option Z :=
  match outcome r with
  | Returned resp => Some (statusCode resp)
  | Uncaught _ => None
  end.

(** Classification of the steps of a trace. *)
Definition is_store (s : Step) : bool :=
  match s with
  | step (GetObject _ _) _ => true
  | step (HeadObject _ _) _ => true
  | step (PutObject _ _ _ _ _) _ => true
  | _ => false
  end.

Definition is_transform (s : Step) : bool :=
  match s with
  | step (SharpConstructor _ _) _ => true
  | step (SharpMetadata _) _ => true
  | step (SharpToBuffer _) _ => true
  | step (GenerateThumbnail _) _ => true
  | _ => false
  end.

Definition is_fetch (s : Step) : bool :=
  match s with
  | step (GetObject _ _) _ => true
  | _ => false
  end.

Definition is_put (s : Step) : bool :=
  match s with
  | step (PutObject _ _ _ _ _) _ => true
  | _ => false
  end.

(** A step whose call was answered with an exception. *)
Definition failed (s : Step) : bool :=
  match s with
  | step (GetObject _ _) (inl _) => true
  | step (GetObject _ _) (inr out) =>
      match Body out with Some (inl _) => true | _ => false end
  | step (HeadObject _ _) (inl _) => true
  | step (PutObject _ _ _ _ _) (inl _) => true
  | step (SharpConstructor _ _) (inl _) => true
  | step (SharpMetadata _) (inl _) => true
  | step (SharpToBuffer _) (inl _) => true
  | step (GenerateThumbnail _) (inl _) => true
  | _ => false
  end.

(** [always P p]: whatever the environment answers, the trace and the
    outcome of [p] satisfy [P]. *)
Fixpoint always {A : Type} (P : list Step -> Outcome A -> Prop) (p : Prog A) : Prop :=
  match p with
  | Ret a => P [] (Returned a)
  | Throw e => P [] (Uncaught e)
  | Vis ev k => forall x, always (fun t r => P (step ev x :: t) r) (k x)
  end.

(** ** Observations on a trace *)

(** The artifact computed by the codec: the answer of the first successful
    [toBuffer]. *)
Fixpoint artifact (t : list Step) : option (Pipeline * Buffer) :=
  match t with
  | [] => None
  | step (SharpToBuffer p) (inr bytes) :: _ => Some (p, bytes)
  | _ :: t' => artifact t'
  end.

(** The pipeline handed to the encoder, whatever the encoder answers. *)
Fixpoint encode_requested (t : list Step) : option Pipeline :=
  match t with
  | [] => None
  | step (SharpToBuffer p) _ :: _ => Some p
  | _ :: t' => encode_requested t'
  end.

(** The key of the derivative write, whatever the store answers. *)
Fixpoint put_key (t : list Step) : option string :=
  match t with
  | [] => None
  | step (PutObject _ key _ _ _) _ :: _ => Some key
  | _ :: t' => put_key t'
  end.

(** The cache probe found the derivative: the first call is a
    [HeadObject] that succeeds. *)
Definition probe_hit (t : list Step) : bool :=
  match t with
  | step (HeadObject _ _) (inr _) :: _ => true
  | _ => false
  end.

(** The key the cache probe looks at. *)
Fixpoint probed_key (t : list Step) : option string :=
  match t with
  | [] => None
  | step (HeadObject _ key) _ :: _ => Some key
  | _ :: t' => probed_key t'
  end.

(** The source format reported by the codec. *)
Fixpoint reported_format (t : list Step) : option string :=
  match t with
  | [] => None
  | step (SharpMetadata _) (inr m) :: _ => format m
  | _ :: t' => reported_format t'
  end.

Definition write_succeeded (t : list Step) : bool :=
  existsb (fun s => is_put s && negb (failed s))%bool t.

Definition write_failed (t : list Step) : bool :=
  existsb (fun s => is_put s && failed s)%bool t.

(** The text logged under a given label. *)
Definition logged (label text : string) (t : list Step) : bool :=
  existsb (fun s => match s with
                    | step (ConsoleError l x) _ => (String.eqb l label && String.eqb x text)%bool
                    | _ => false
                    end) t.

(** The exception of the source fetch: the rejection of [GetObject] or
    the failure of the reading of its body. *)
Fixpoint fetch_fault (t : list Step) : option JsError :=
  match t with
  | [] => None
  | step (GetObject _ _) (inl e) :: _ => Some e
  | step (GetObject _ _) (inr out) :: t' =>
      match Body out with
      | Some (inl e) => Some e
      | _ => fetch_fault t'
      end
  | _ :: t' => fetch_fault t'
  end.

(** The encoder a pipeline ends with, by the name of its format. *)
Definition encoder_format (e : Encoder) : string :=
  match e with
  | Jpeg _ => "jpeg"
  | Png _ => "png"
  | Webp _ => "webp"
  | Avif _ => "avif"
  | Gif => "gif"
  | ToFormat fmt _ => fmt
  end.

End Lambda.

(* ===================================================================== *)
(** * config/projects.ts *)
(* ===================================================================== *)

Module Config.

(** The own properties of [PROJECT_BUCKETS]. *)
Definition PROJECT_BUCKETS : list (string * string) :=
  [ ("geerly", "geerly-cms-content");
    ("farmify", "files-farmify");
    ("sopilot", "files-sopilot") ].

(** The names every object inherits from [Object.prototype]; each of them
    holds a function or an object, that is a truthy value. *)
Definition prototype_members : list string :=
  [ "constructor"; "__proto__"; "hasOwnProperty"; "isPrototypeOf";
    "propertyIsEnumerable"; "toLocaleString"; "toString"; "valueOf";
    "__defineGetter__"; "__defineSetter__"; "__lookupGetter__";
    "__lookupSetter__" ].

Fixpoint own (k : string) (l : list (string * string)) : option string :=
  match l with
  | [] => None
  | (k', v) :: l' => if String.eqb k' k then Some v else own k l'
  end.

(** [PROJECT_BUCKETS[projectName]]: the own property, else an inherited
    member, else [undefined]. *)
Definition project_bucket (projectName : string) : option Lambda.bucket :=
  match own projectName PROJECT_BUCKETS with
  | Some b => Some (Lambda.BucketName b)
  | None =>
      if existsb (String.eqb projectName) prototype_members
      then Some (Lambda.BucketInherited projectName)
      else None
  end.

Definition CACHE_TTL : string := "public, max-age=31536000".
Definition MAX_IMAGE_SIZE : Z := 10000000.
Definition SUPPORTED_FORMATS : list string := ["jpeg"; "png"; "webp"; "avif"].
Definition DEFAULT_QUALITY : Z := 80.

End Config.

(* ===================================================================== *)
(** * functions/image-optimization/index.ts *)
(* ===================================================================== *)

Module ImageOptimization.
Import Lambda.
Local Open Scope prog_scope.

Record ParsedRequest : Type := {
  projectName : string;
  imagePath : string;
  width : option Js.number;
  height : option Js.number;
  quality : option Js.number
}.

(** [queryParams.k ? parseInt(queryParams.k) : undefined]. *)
Definition query_int (queryParams : gmap string string) (k : string)
  : option Js.number :=
  match queryParams !! k with
  | Some v => if Js.truthy v then Some (Js.parseInt v) else None
  | None => None
  end.

(** [event.pathParameters?.proxy || '']. *)
Definition proxy_path (event : Event) : string :=
  match pathParameters event with
  | Some pp => Js.or_default (pp !! "proxy") EmptyString
  | None => EmptyString
  end.

Definition parseRequest (event : Event) : option ParsedRequest :=
  let path := proxy_path event in
  if negb (Js.truthy path) then None
  else
    let parts := Js.split "/" path in
    if (Z.of_nat (length parts) <? 2) then None
    else
      let projectName := hd EmptyString parts in
      let imagePath := Js.join "/" (Js.slice1 parts) in
      if (negb (Js.truthy projectName) || negb (Js.truthy imagePath))%bool then None
      else
        let queryParams := default ∅ (queryStringParameters event) in
        let width := query_int queryParams "w" in
        let height := query_int queryParams "h" in
        let quality := query_int queryParams "q" in
        Some {| projectName := projectName; imagePath := imagePath;
                width := width; height := height; quality := quality |}.

Definition getImageFromS3 (bucket : bucket) (key : string) : Prog (option Buffer) :=
  try_catch
    (response <- await (GetObject bucket key) ;;
     match Body response with
     | None => Ret None
     | Some (inl e) => Throw e
     | Some (inr bytes) => Ret (Some bytes)
     end)
    (fun error =>
       if (String.eqb (name error) "NoSuchKey" || String.eqb (name error) "NotFound")%bool
       then Ret None
       else if String.eqb (name error) "NoSuchBucket"
       then (call (ConsoleError "Bucket not found:" (show_bucket bucket)) ;;;
             Throw (Error "STORAGE_CONFIG_ERROR"))
       else if String.eqb (name error) "AccessDenied"
       then (call (ConsoleError "Access denied to:"
                                (show_bucket bucket +:+ "/" +:+ key)) ;;;
             Throw (Error "ACCESS_DENIED"))
       else (call (ConsoleError "S3 error:" (message error)) ;;;
             Throw error)).

Definition supported_source_formats : list string := ["jpeg"; "png"; "webp"; "gif"].

(** [quality || 80]. *)
Definition output_quality (quality : option Js.number) : Js.number :=
  match quality with
  | Some q => if Js.truthy_num q then q else Js.Num 80
  | None => Js.Num 80
  end.

Definition optimizeImage (imageBuffer : Buffer)
                         (width height quality : option Js.number) : Prog Buffer :=
  try_catch
    (transform <- new_sharp imageBuffer false ;;
     metadata <- await (SharpMetadata transform) ;;
     match format metadata with
     | None => Throw (Error "UNSUPPORTED_FORMAT")
     | Some fmt =>
         if negb (Js.truthy fmt && existsb (String.eqb fmt) supported_source_formats)
         then Throw (Error "UNSUPPORTED_FORMAT")
         else
           let transform :=
             if (Js.truthy_opt width || Js.truthy_opt height)%bool
             then with_resize {| Lambda.width := width; Lambda.height := height;
                                 fit_inside := true; withoutEnlargement := true |}
                              transform
             else transform in
           let outputQuality := output_quality quality in
           if (Js.lt outputQuality (Js.Num 1) || Js.gt outputQuality (Js.Num 100))%bool
           then Throw (Error "INVALID_QUALITY")
           else if String.eqb fmt "jpeg"
           then await (SharpToBuffer (with_encoder (Jpeg outputQuality) transform))
           else if String.eqb fmt "png"
           then await (SharpToBuffer (with_encoder (Png (Some outputQuality)) transform))
           else if String.eqb fmt "webp"
           then await (SharpToBuffer (with_encoder (Webp outputQuality) transform))
           else if String.eqb fmt "gif"
           then await (SharpToBuffer (with_encoder Gif transform))
           else Throw (Error "UNSUPPORTED_FORMAT")
     end)
    (fun error =>
       if (String.eqb (message error) "UNSUPPORTED_FORMAT"
           || String.eqb (message error) "INVALID_QUALITY")%bool
       then Throw error
       else (call (ConsoleError "Image optimization error:" (message error)) ;;;
             Throw (Error "OPTIMIZATION_FAILED"))).

(** [headers['x-origin-verify'] !== 'cloudfront'] with
    [headers = event.headers || {}]. *)
Definition origin_rejected (event : Event) : bool :=
  match default ∅ (headers event) !! "x-origin-verify" with
  | Some v => negb (String.eqb v "cloudfront")
  | None => true
  end.

(** The [switch (error.message)] of the handler's [catch]. *)
Definition error_switch (error : JsError) : Response :=
  let m := message error in
  if String.eqb m "STORAGE_CONFIG_ERROR"
  then error_response 503 "Storage configuration error"
  else if String.eqb m "ACCESS_DENIED"
  then error_response 403 "Access denied to image storage"
  else if String.eqb m "UNSUPPORTED_FORMAT"
  then error_response 415 "Unsupported image format"
  else if String.eqb m "INVALID_QUALITY"
  then error_response 400 "Invalid quality parameter (must be between 1 and 100)"
  else if String.eqb m "OPTIMIZATION_FAILED"
  then error_response 500 "Failed to optimize image"
  else error_response 500 "Internal server error".

Section Handler.
Variable env : ProcessEnv.

Definition success_response (optimizedImage : Buffer) : Response :=
  {| statusCode := 200;
     resp_headers :=
       [ ("Content-Type", HString "image/jpeg");
         ("Cache-Control",
          HString (Js.or_default (transformedImageCacheTTL env)
                                 "public, max-age=31536000")) ];
     resp_body := Some (Base64Body optimizedImage);
     isBase64Encoded := true |}.

Definition handler (event : Event) : Prog Response :=
  try_catch
    (if origin_rejected event
     then Ret (error_response 403 "Access denied")
     else
       match parseRequest event with
       | None => Ret (error_response 400 "Invalid request format")
       | Some requestInfo =>
           match Config.project_bucket (projectName requestInfo) with
           | None => Ret (error_response 404 "Project not found")
           | Some bucket =>
               imageBuffer <- getImageFromS3 bucket (imagePath requestInfo) ;;
               match imageBuffer with
               | None => Ret (error_response 404 "Image not found")
               | Some imageBuffer =>
                   optimizedImage <- optimizeImage imageBuffer
                                       (width requestInfo) (height requestInfo)
                                       (quality requestInfo) ;;
                   Ret (success_response optimizedImage)
               end
           end
       end)
    (fun error =>
       call (ConsoleError "Error processing request:" (message error)) ;;;
       Ret (error_switch error)).
End Handler.

End ImageOptimization.

(* ===================================================================== *)
(** * The image handler with operations in the path

    Requests have the shape [/{objectPath...}/{op1}={v1},{op2}={v2},...];
    the transformed image is written back to the derivative bucket and
    delivered inline, or by redirection when it is too big. *)
(* ===================================================================== *)

Module ImageTransform.
Import Lambda.
Local Open Scope prog_scope.

Definition show_arg (a : err_arg) : string :=
  match a with
  | ArgError e => message e
  | ArgString s => s
  | ArgNull => "null"
  | ArgEvent _ => "[object Object]"
  end.

Definition logError (body : string) (error : err_arg) : Prog unit :=
  call (ConsoleError "APPLICATION ERROR:" body) ;;;
  call (ConsoleError "Error details:" (show_arg error)).

(** [error?.message || error || 'Unknown error']. *)
Definition error_field (error : err_arg) : json :=
  match error with
  | ArgError e => if Js.truthy (message e) then JString (message e) else JValue error
  | ArgString s => if Js.truthy s then JString s else JString "Unknown error"
  | ArgNull => JString "Unknown error"
  | ArgEvent _ => JValue error
  end.

Definition sendError (statusCode : Z) (body : string) (error : err_arg)
  : Prog Response :=
  logError body error ;;;
  Ret {| statusCode := statusCode;
         resp_headers := [];
         resp_body :=
           Some (JsonBody
                   [ ("message", JString (if Js.truthy body then body
                                          else "An error occurred"));
                     ("error", error_field error) ]);
         isBase64Encoded := false |}.

(** [Object.entries(operations).map(([k, v]) => `${k}=${v}`).join(',')]. *)
Definition serialize (operations : Js.object) : string :=
  Js.join ","
    (List.map (fun e => fst e +:+ "=" +:+ Js.show (snd e)) (Js.entries operations)).

(** The [Key] of the derivative: [imagePath + '/' + serialize(operations)]. *)
Definition derivativeKey (imagePath : string) (operations : Js.object) : string :=
  imagePath +:+ "/" +:+ serialize operations.

(** The [Location] of the redirection. *)
Definition location (imagePath : string) (operations : Js.object) : string :=
  "/" +:+ imagePath +:+ "?" +:+ serialize operations.

(** [Object.fromEntries(operationsString.split(',').map(o => o.split('=')))]. *)
Definition parseOperations (operationsString : string) : Js.object :=
  Js.fromEntries (List.map (Js.split "=") (Js.split "," operationsString)).

(** The [switch (operations['format'])]: content type and lossiness. *)
Definition format_info (fmt : string) : string * bool :=
  if String.eqb fmt "jpeg" then ("image/jpeg", true)
  else if String.eqb fmt "gif" then ("image/gif", false)
  else if String.eqb fmt "webp" then ("image/webp", true)
  else if String.eqb fmt "png" then ("image/png", false)
  else if String.eqb fmt "avif" then ("image/avif", true)
  else ("image/jpeg", true).

Definition truthy_orientation (o : option Z) : bool :=
  match o with
  | Some z => negb (z =? 0)
  | None => false
  end.

(** The pipeline built inside the transformation [try] block, with the
    content type it settles. *)
Definition build_pipeline (transformedImage : Pipeline) (imageMetadata : Metadata)
           (operations : Js.object) (contentType : option string)
  : Pipeline * option string :=
  let resizingOptions :=
    {| width := option_map Js.parseInt (Js.get_truthy "width" operations);
       height := option_map Js.parseInt (Js.get_truthy "height" operations);
       fit_inside := false; withoutEnlargement := false |} in
  let transformedImage := with_resize resizingOptions transformedImage in
  let transformedImage :=
    if truthy_orientation (orientation imageMetadata)
    then with_rotate transformedImage else transformedImage in
  match Js.get_truthy "format" operations with
  | Some fmt =>
      let '(contentType, isLossy) := format_info fmt in
      match Js.get_truthy "quality" operations with
      | Some q =>
          if isLossy
          then (with_encoder (ToFormat fmt (Some (Js.parseInt q))) transformedImage,
                Some contentType)
          else (with_encoder (ToFormat fmt None) transformedImage, Some contentType)
      | None => (with_encoder (ToFormat fmt None) transformedImage, Some contentType)
      end
  | None =>
      (transformedImage,
       match contentType with
       | Some ct => if String.eqb ct "image/svg+xml" then Some "image/png" else Some ct
       | None => None
       end)
  end.

Section Handler.
Variable env : ProcessEnv.

Definition S3_ORIGINAL_IMAGE_BUCKET : bucket :=
  match originalImageBucketName env with
  | Some b => BucketName b
  | None => BucketUndefined
  end.

Definition S3_TRANSFORMED_IMAGE_BUCKET : option string :=
  transformedImageBucketName env.

Definition TRANSFORMED_IMAGE_CACHE_TTL : option string :=
  transformedImageCacheTTL env.

(** [parseInt(process.env.maxImageSize)]; an unset variable reads as
    [undefined], which parses to [NaN]. *)
Definition MAX_IMAGE_SIZE : Js.number :=
  match maxImageSize env with
  | Some s => Js.parseInt s
  | None => Js.NaN
  end.

Definition inline_response (transformedImage : Buffer) (contentType : option string)
           (timingLog : list string) : Response :=
  {| statusCode := 200;
     resp_headers :=
       [ ("Content-Type", of_option contentType);
         ("Cache-Control", of_option TRANSFORMED_IMAGE_CACHE_TTL);
         ("Server-Timing", HTiming timingLog) ];
     resp_body := Some (Base64Body transformedImage);
     isBase64Encoded := true |}.

Definition redirect_response (imagePath : string) (operations : Js.object)
           (timingLog : list string) : Response :=
  {| statusCode := 302;
     resp_headers :=
       [ ("Location", HString (location imagePath operations));
         ("Cache-Control", HString "private,no-store");
         ("Server-Timing", HTiming timingLog) ];
     resp_body := None;
     isBase64Encoded := false |}.

(** The upload block: [Some r] when the block returns [r], [None] when
    control continues after it. *)
Definition upload (imagePath : string) (operations : Js.object)
           (contentType : option string) (transformedImage : Buffer)
           (imageTooBig : bool) (timingLog : list string)
  : Prog (option Response * list string) :=
  match S3_TRANSFORMED_IMAGE_BUCKET with
  | Some b =>
      if Js.truthy b
      then
        try_catch
          (await (PutObject (BucketName b) (derivativeKey imagePath operations)
                            transformedImage contentType
                            TRANSFORMED_IMAGE_CACHE_TTL) ;;;
           let timingLog := (timingLog ++ ["img-upload"])%list in
           if imageTooBig
           then Ret (Some (redirect_response imagePath operations timingLog),
                     timingLog)
           else Ret (None, timingLog))
          (fun error =>
             logError "Could not upload transformed image to S3" (ArgError error) ;;;
             Ret (None, timingLog))
      else Ret (None, timingLog)
  | None => Ret (None, timingLog)
  end.

(** From the size test to the response: the write-back and the delivery
    decision. *)
Definition deliver (imagePath : string) (operations : Js.object)
           (contentType : option string) (transformedImage : Buffer)
  : Prog Response :=
  let timingLog := ["img-download"] in
  let imageTooBig := Js.gt (byteLength transformedImage) MAX_IMAGE_SIZE in
  r <- upload imagePath operations contentType transformedImage imageTooBig
              timingLog ;;
  match fst r with
  | Some response => Ret response
  | None =>
      if imageTooBig
      then sendError 403 "Requested transformed image is too big" (ArgString EmptyString)
      else Ret (inline_response transformedImage contentType (snd r))
  end.

(** The download [try] block: the body stream and the content type, or
    the 404 response. *)
Definition download (imagePath : string)
  : Prog (Response + (JsError + Buffer) * option string) :=
  try_catch
    (output <- await (GetObject S3_ORIGINAL_IMAGE_BUCKET imagePath) ;;
     match Body output with
     | None => Throw (TypeError "Cannot read properties of undefined")
     | Some stream => Ret (inr (stream, ContentType output))
     end)
    (fun error =>
       r <- sendError 404 ("Image not found: " +:+ imagePath) (ArgError error) ;;
       Ret (inl r)).

(** The transformation [try] block. *)
Definition transform (transformedImage : Pipeline) (imageMetadata : Metadata)
           (operations : Js.object) (contentType : option string)
  : Prog (Response + Buffer * option string) :=
  try_catch
    (let '(pipeline, contentType) :=
       build_pipeline transformedImage imageMetadata operations contentType in
     bytes <- await (SharpToBuffer pipeline) ;;
     Ret (inr (bytes, contentType)))
    (fun error =>
       r <- sendError 500 "error transforming image" (ArgError error) ;;
       Ret (inl r)).

(** [event.requestContext.http.method === 'GET'] with the two guards
    before it. *)
Definition is_get (event : Event) : bool :=
  match requestContext event with
  | Some rc =>
      match http rc with
      | Some h =>
          match method h with
          | Some m => String.eqb m "GET"
          | None => false
          end
      | None => false
      end
  | None => false
  end.

(** [!event.headers || event.headers['x-origin-verify'] !== 'cloudfront']. *)
Definition origin_rejected (event : Event) : bool :=
  match headers event with
  | Some h =>
      match h !! "x-origin-verify" with
      | Some v => negb (String.eqb v "cloudfront")
      | None => true
      end
  | None => true
  end.

Definition request_path (event : Event) : option string :=
  match requestContext event with
  | Some rc => match http rc with
               | Some h => path h
               | None => None
               end
  | None => None
  end.

(** The split of the path into the image path and the operations.  The
    test [pathParts.length < 1] never holds ([split] gives at least one
    part) and [Object.fromEntries] does not throw on arrays, so the two
    400 answers guarded by them are unreachable. *)
Definition parse_path (path : string) : string * Js.object :=
  let pathParts := Js.split "/" (Js.substring1 path) in
  if Js.includes "=" (List.last pathParts EmptyString)
  then (Js.join "/" (List.removelast pathParts),
        parseOperations (List.last pathParts EmptyString))
  else (Js.join "/" pathParts, []).

Definition handler (event : Event) : Prog Response :=
  if negb (is_get event)
  then sendError 400 "Only GET method is supported" (ArgEvent event)
  else if origin_rejected event
  then sendError 403 "Unauthorized" (ArgString "Request not from CloudFront")
  else
    match request_path event with
    | None => sendError 400 "Invalid request: no image path provided" ArgNull
    | Some path =>
        if (negb (Js.truthy path) || String.eqb path "/")%bool
        then sendError 400 "Invalid request: no image path provided" ArgNull
        else
          let '(imagePath, operations) := parse_path path in
          if negb (Js.truthy imagePath)
          then sendError 400 "Invalid request: no image path after operations" ArgNull
          else
            d <- download imagePath ;;
            match d with
            | inl response => Ret response
            | inr (inl e, _) => Throw e
            | inr (inr originalImageBody, contentType) =>
                transformedImage <- new_sharp originalImageBody true ;;
                imageMetadata <- await (SharpMetadata transformedImage) ;;
                t <- transform transformedImage imageMetadata operations
                               contentType ;;
                match t with
                | inl response => Ret response
                | inr (transformedImage, contentType) =>
                    deliver imagePath operations contentType transformedImage
                end
            end
    end.
End Handler.

End ImageTransform.

(* ===================================================================== *)
(** * The image handler with operations in the query string

    Requests have the shape
    [/{project}/{objectPath...}?width=&height=&quality=&format=]. *)
(* ===================================================================== *)

Module ImageRouter.
Import Lambda.
Local Open Scope prog_scope.

Record ImageParams : Type := {
  width : option Js.number;
  height : option Js.number;
  quality : option Js.number;
  format : option string
}.

Record ImageRequest : Type := {
  path : string;
  params : ImageParams
}.

(** [if (v) params.k = parseInt(v, 10)]. *)
Definition query_int (q : gmap string string) (k : string) : option Js.number :=
  match q !! k with
  | Some v => if Js.truthy v then Some (Js.parseInt10 v) else None
  | None => None
  end.

Definition query_format (q : gmap string string) : option string :=
  match q !! "format" with
  | Some v => if Js.truthy v then Some (Js.toLowerCase v) else None
  | None => None
  end.

Definition parseRequest (event : Event) : option ImageRequest :=
  match rawPath event with
  | None => None
  | Some rawPath =>
      if negb (Js.truthy rawPath) then None
      else
        let params :=
          match queryStringParameters event with
          | Some q =>
              {| width := query_int q "width"; height := query_int q "height";
                 quality := query_int q "quality"; format := query_format q |}
          | None =>
              {| width := None; height := None; quality := None; format := None |}
          end in
        Some {| path := Js.substring1 rawPath; params := params |}
  end.

Definition extractProjectAndPath (path : string) : option string * option string :=
  let parts := Js.split "/" path in
  if (Z.of_nat (length parts) <? 2) then (None, None)
  else (Some (hd EmptyString parts), Some (Js.join "/" (Js.slice1 parts))).

Definition getImageFromS3 (bucket : bucket) (key : string) : Prog (option Buffer) :=
  try_catch
    (response <- await (GetObject bucket key) ;;
     match Body response with
     | None => Ret None
     | Some (inl e) => Throw e
     | Some (inr bytes) => Ret (Some bytes)
     end)
    (fun error =>
       call (ConsoleError "Error fetching image from S3:" (message error)) ;;;
       Ret None).

(** [params.quality || CONFIG.DEFAULT_QUALITY]. *)
Definition output_quality (quality : option Js.number) : Js.number :=
  match quality with
  | Some q => if Js.truthy_num q then q else Js.Num Config.DEFAULT_QUALITY
  | None => Js.Num Config.DEFAULT_QUALITY
  end.

(** [params.format && SUPPORTED_FORMATS.includes(params.format)
     ? params.format : 'jpeg']. *)
Definition output_format (format : option string) : string :=
  match format with
  | Some f =>
      if (Js.truthy f && existsb (String.eqb f) Config.SUPPORTED_FORMATS)%bool
      then f else "jpeg"
  | None => "jpeg"
  end.

Definition transformImage (buffer : Buffer) (params : ImageParams) : Prog Buffer :=
  image <- new_sharp buffer false ;;
  let image :=
    if (Js.truthy_opt (width params) || Js.truthy_opt (height params))%bool
    then with_resize {| Lambda.width := width params; Lambda.height := height params;
                        fit_inside := true; withoutEnlargement := true |} image
    else image in
  let format := output_format (format params) in
  let quality := output_quality (quality params) in
  let image :=
    if String.eqb format "jpeg" then with_encoder (Jpeg quality) image
    else if String.eqb format "webp" then with_encoder (Webp quality) image
    else if String.eqb format "avif" then with_encoder (Avif quality) image
    else if String.eqb format "png" then with_encoder (Png None) image
    else image in
  await (SharpToBuffer image).

Definition handler (event : Event) : Prog Response :=
  try_catch
    (match parseRequest event with
     | None => Ret (error_response 400 "Invalid request path or parameters")
     | Some request =>
         match extractProjectAndPath (path request) with
         | (Some projectName, Some imagePath) =>
             if (negb (Js.truthy projectName) || negb (Js.truthy imagePath))%bool
             then Ret (error_response 400
                         "Invalid path format. Expected: {project}/{path/to/image}")
             else
               match Config.project_bucket projectName with
               | None =>
                   Ret (error_response 404
                          ("Project '" +:+ projectName +:+ "' not found"))
               | Some bucketName =>
                   imageData <- getImageFromS3 bucketName imagePath ;;
                   match imageData with
                   | None =>
                       Ret (error_response 404 ("Image not found: " +:+ imagePath))
                   | Some imageData =>
                       transformedImage <- transformImage imageData (params request) ;;
                       Ret {| statusCode := 200;
                              resp_headers :=
                                [ ("Content-Type",
                                   HString ("image/" +:+
                                            Js.or_default (format (params request))
                                                          "jpeg"));
                                  ("Cache-Control", HString Config.CACHE_TTL) ];
                              resp_body := Some (Base64Body transformedImage);
                              isBase64Encoded := true |}
                   end
               end
         | _ =>
             Ret (error_response 400
                    "Invalid path format. Expected: {project}/{path/to/image}")
         end
     end)
    (fun error =>
       call (ConsoleError "Error processing image:" (message error)) ;;;
       Ret (error_response 500 "Error processing image")).

End ImageRouter.

(* ===================================================================== *)
(** * functions/video-thumbnail/index.ts: the inline variant

    [generateThumbnail] (a temporary file, the decoder subprocess, the
    clean-up) is one external call, [GenerateThumbnail]. *)
(* ===================================================================== *)

Module VideoThumbnail.
Import Lambda.
Local Open Scope prog_scope.

Record ParsedRequest : Type := {
  projectName : string;
  videoPath : string
}.

Definition getVideoFromS3 (bucket : bucket) (key : string) : Prog (option Buffer) :=
  try_catch
    (response <- await (GetObject bucket key) ;;
     match Body response with
     | None => Throw (TypeError "Cannot read properties of undefined")
     | Some (inl e) => Throw e
     | Some (inr bytes) => Ret (Some bytes)
     end)
    (fun error =>
       if (String.eqb (name error) "NoSuchKey" || String.eqb (name error) "NotFound")%bool
       then Ret None
       else if String.eqb (name error) "NoSuchBucket"
       then (call (ConsoleError "Bucket not found:" (show_bucket bucket)) ;;;
             Throw (Error "Storage configuration error"))
       else if String.eqb (name error) "AccessDenied"
       then (call (ConsoleError "Access denied to:"
                                (show_bucket bucket +:+ "/" +:+ key)) ;;;
             Throw (Error "Access denied to video storage"))
       else (call (ConsoleError "S3 error:" (message error)) ;;;
             Throw error)).

Definition generateThumbnail (videoBuffer : Buffer) : Prog Buffer :=
  await (GenerateThumbnail videoBuffer).

(** [event.pathParameters?.proxy || '']. *)
Definition proxy_path (event : Event) : string :=
  match pathParameters event with
  | Some pp => Js.or_default (pp !! "proxy") EmptyString
  | None => EmptyString
  end.

Definition parseRequest (event : Event) : option ParsedRequest :=
  let path := proxy_path event in
  if negb (Js.truthy path) then None
  else
    let parts := Js.split "/" path in
    if (Z.of_nat (length parts) <? 2) then None
    else
      let projectName := hd EmptyString parts in
      let videoPath := Js.join "/" (Js.slice1 parts) in
      if (negb (Js.truthy projectName) || negb (Js.truthy videoPath))%bool then None
      else Some {| projectName := projectName; videoPath := videoPath |}.

Definition handler (event : Event) : Prog Response :=
  try_catch
    (match parseRequest event with
     | None => Ret (error_response 404 "Invalid path format")
     | Some requestInfo =>
         match Config.project_bucket (projectName requestInfo) with
         | None => Ret (error_response 404 "Project not found")
         | Some bucket =>
             videoData <- getVideoFromS3 bucket (videoPath requestInfo) ;;
             match videoData with
             | None => Ret (error_response 404 "Video not found")
             | Some videoData =>
                 thumbnail <- generateThumbnail videoData ;;
                 if negb (truthy_buffer thumbnail)
                 then Ret (error_response 500 "Failed to generate thumbnail")
                 else
                   Ret {| statusCode := 200;
                          resp_headers :=
                            [ ("Content-Type", HString "image/jpeg");
                              ("Cache-Control", HString "public, max-age=31536000") ];
                          resp_body := Some (Base64Body thumbnail);
                          isBase64Encoded := false |}
             end
         end
     end)
    (fun error =>
       call (ConsoleError "Error processing request:" (message error)) ;;;
       if String.eqb (message error) "Storage configuration error"
       then Ret (error_response 503 "Service configuration error")
       else if String.eqb (message error) "Access denied to video storage"
       then Ret (error_response 403 "Access denied")
       else Ret (error_response 500 "Internal server error")).

End VideoThumbnail.

(* ===================================================================== *)
(** * functions/video-thumbnail/index.ts: the caching variant

    The thumbnail is stored under [thumbnails/] in the project's bucket and
    the client is redirected to it.  The file repeats the project table of
    [config/projects.ts] inline. *)
(* ===================================================================== *)

Module VideoRedirect.
Import Lambda.
Local Open Scope prog_scope.

Definition CACHE_TTL : string := "public, max-age=31536000".

Definition checkThumbnailExists (bucket : bucket) (key : string) : Prog bool :=
  try_catch
    (await (HeadObject bucket (key +:+ ".jpg")) ;;;
     Ret true)
    (fun error =>
       if String.eqb (name error) "NotFound" then Ret false else Throw error).

Definition getVideoFromS3 (bucket : bucket) (key : string) : Prog (option Buffer) :=
  try_catch
    (response <- await (GetObject bucket key) ;;
     match Body response with
     | None => Throw (TypeError "Cannot read properties of undefined")
     | Some (inl e) => Throw e
     | Some (inr bytes) => Ret (Some bytes)
     end)
    (fun error =>
       if String.eqb (name error) "NoSuchKey" then Ret None else Throw error).

Definition generateThumbnail (videoBuffer : Buffer) : Prog Buffer :=
  await (GenerateThumbnail videoBuffer).

(** [`thumbnails/${videoPath}.jpg`]. *)
Definition thumbnailKey (videoPath : string) : string :=
  "thumbnails/" +:+ videoPath +:+ ".jpg".

(** [`https://image.boilingkettle.co/${projectName}/${thumbnailKey}${queryString}`]. *)
Definition redirectUrl (event : Event) (projectName videoPath : string) : string :=
  let queryString :=
    match rawQueryString event with
    | Some q => if Js.truthy q then "?" +:+ q else EmptyString
    | None => EmptyString
    end in
  "https://image.boilingkettle.co/" +:+ projectName +:+ "/"
    +:+ thumbnailKey videoPath +:+ queryString.

Definition redirect_response (location : string) : Response :=
  {| statusCode := 302;
     resp_headers := [ ("Location", HString location);
                       ("Cache-Control", HString CACHE_TTL) ];
     resp_body := None;
     isBase64Encoded := false |}.

(** The test [parts.length < 1] never holds, so its 400 answer is
    unreachable; [event.rawPath.slice(1)] throws a [TypeError] when the
    event has no [rawPath]. *)
Definition handler (event : Event) : Prog Response :=
  try_catch
    (match rawPath event with
     | None => Throw (TypeError "Cannot read properties of undefined")
     | Some rawPath =>
         let path := Js.substring1 rawPath in
         let parts := Js.split "/" path in
         let projectName := hd EmptyString parts in
         let videoPath := Js.join "/" (Js.slice1 parts) in
         match Config.project_bucket projectName with
         | None =>
             Ret (error_response 404 ("Project '" +:+ projectName +:+ "' not found"))
         | Some bucketName =>
             thumbnailExists <- checkThumbnailExists bucketName (thumbnailKey videoPath) ;;
             if (thumbnailExists : bool)
             then Ret (redirect_response (redirectUrl event projectName videoPath))
             else
               videoData <- getVideoFromS3 bucketName videoPath ;;
               match videoData with
               | None => Ret (error_response 404 ("Video not found: " +:+ videoPath))
               | Some videoData =>
                   thumbnailBuffer <- generateThumbnail videoData ;;
                   if negb (truthy_buffer thumbnailBuffer)
                   then Ret (error_response 500 "Failed to generate thumbnail")
                   else
                     await (PutObject bucketName (thumbnailKey videoPath)
                                      thumbnailBuffer (Some "image/jpeg") None) ;;;
                     Ret (redirect_response (redirectUrl event projectName videoPath))
               end
         end
     end)
    (fun error =>
       call (ConsoleError "Error processing video:" (message error)) ;;;
       Ret (error_response 500 "Error processing video")).

End VideoRedirect.

(* ===================================================================== *)
(** * A reference environment: an object store and a codec

    The store keeps objects by bucket and key and answers the three
    commands as the blob service does: [GetObject] of a missing key fails
    with [NoSuchKey], [HeadObject] of a missing key with [NotFound],
    [PutObject] stores the object.  Faults can be injected. *)
(* ===================================================================== *)

Module S3.
Import Lambda.

Record StoredObject : Type := {
  content : Buffer;
  contentType : option string
}.

(** What the image codec and the video decoder answer. *)
Record Codec : Type := {
  metadata_of : Buffer -> JsError + Metadata;
  encode : Pipeline -> JsError + Buffer;
  thumbnail_of : Buffer -> JsError + Buffer
}.

Record Setup : Type := {
  codec : Codec;
  get_fault : option JsError;   (* every GetObject fails with it *)
  put_fault : option JsError    (* every PutObject fails with it *)
}.

Definition NoSuchKey : JsError :=
  {| name := "NoSuchKey"; message := "The specified key does not exist." |}.

Definition NotFound : JsError := {| name := "NotFound"; message := "UnknownError" |}.

Definition InvalidBucket : JsError :=
  {| name := "InvalidBucketName"; message := "The specified bucket is not valid." |}.

Definition get (s : Setup) (b : bucket) (key : string)
           (objects : gmap (string * string) StoredObject)
  : JsError + GetObjectOutput :=
  match get_fault s with
  | Some e => inl e
  | None =>
      match b with
      | BucketName bn =>
          match objects !! (bn, key) with
          | Some o => inr {| Body := Some (inr (content o));
                             ContentType := contentType o |}
          | None => inl NoSuchKey
          end
      | _ => inl InvalidBucket
      end
  end.

Definition head (b : bucket) (key : string)
           (objects : gmap (string * string) StoredObject) : JsError + unit :=
  match b with
  | BucketName bn =>
      match objects !! (bn, key) with
      | Some _ => inr tt
      | None => inl NotFound
      end
  | _ => inl InvalidBucket
  end.

Definition put (s : Setup) (b : bucket) (key : string) (bytes : Buffer)
           (ct : option string) (objects : gmap (string * string) StoredObject)
  : (JsError + unit) * gmap (string * string) StoredObject :=
  match put_fault s with
  | Some e => (inl e, objects)
  | None =>
      match b with
      | BucketName bn =>
          (inr tt, <[(bn, key) := {| content := bytes; contentType := ct |}]> objects)
      | _ => (inl InvalidBucket, objects)
      end
  end.

(** The constructor of the codec rejects an empty input. *)
Definition construct (input : Buffer) : JsError + unit :=
  match input with
  | [] => inl (Error "Input Buffer is empty")
  | _ :: _ => inr tt
  end.

Definition world (s : Setup) : Oracle (gmap (string * string) StoredObject) :=
  fun X ev =>
    match ev in Ev X
          return gmap (string * string) StoredObject
                 -> X * gmap (string * string) StoredObject with
    | GetObject b key => fun objects => (get s b key objects, objects)
    | HeadObject b key => fun objects => (head b key objects, objects)
    | PutObject b key bytes ct _ => fun objects => put s b key bytes ct objects
    | SharpConstructor input _ => fun objects => (construct input, objects)
    | SharpMetadata p => fun objects => (metadata_of (codec s) (input p), objects)
    | SharpToBuffer p => fun objects => (encode (codec s) p, objects)
    | GenerateThumbnail v => fun objects => (thumbnail_of (codec s) v, objects)
    | ConsoleError _ _ => fun objects => (tt, objects)
    end.

(** A codec that reports a fixed source format and encodes every image to
    its input followed by one byte naming the encoder. *)
Definition tag (e : option Encoder) : Byte.byte :=
  match e with
  | Some (Jpeg _) => Byte.x01
  | Some (Png _) => Byte.x02
  | Some (Webp _) => Byte.x03
  | Some (Avif _) => Byte.x04
  | Some Gif => Byte.x05
  | Some (ToFormat _ _) => Byte.x06
  | None => Byte.x00
  end.

Definition simple_codec (fmt : string) : Codec :=
  {| metadata_of := fun _ => inr {| format := Some fmt; orientation := None |};
     encode := fun p => inr (input p ++ [tag (encoder p)])%list;
     thumbnail_of := fun v => inr [Byte.xff; Byte.xd8; Byte.xff; Byte.xd9] |}.

Definition setup (fmt : string) : Setup :=
  {| codec := simple_codec fmt; get_fault := None; put_fault := None |}.

Definition with_get_fault (e : JsError) (s : Setup) : Setup :=
  {| codec := codec s; get_fault := Some e; put_fault := put_fault s |}.

Definition with_put_fault (e : JsError) (s : Setup) : Setup :=
  {| codec := codec s; get_fault := get_fault s; put_fault := Some e |}.

End S3.

(* ===================================================================== *)
(** * Sample requests *)
(* ===================================================================== *)

Module Samples.
Import Lambda.

Definition no_env : ProcessEnv :=
  {| originalImageBucketName := None; transformedImageBucketName := None;
     transformedImageCacheTTL := None; maxImageSize := None;
     thumbnailBucketName := None; thumbnailCacheTTL := None |}.

(** The environment of the deployed image function, with a small inline
    limit. *)
Definition image_env (limit : string) : ProcessEnv :=
  {| originalImageBucketName := Some "geerly-cms-content";
     transformedImageBucketName := Some "derivatives";
     transformedImageCacheTTL := Some "public, max-age=31536000";
     maxImageSize := Some limit;
     thumbnailBucketName := None; thumbnailCacheTTL := None |}.


Definition trusted : gmap string string := {[ "x-origin-verify" := "cloudfront" ]}.

(** A request through the API gateway: [proxy] path and query parameters. *)
Definition proxy_event (hdrs : option (gmap string string)) (proxy : string)
           (query : list (string * string)) : Event :=
  {| headers := hdrs;
     pathParameters := Some {[ "proxy" := proxy ]};
     queryStringParameters := Some (list_to_map query);
     requestContext := None; rawPath := None; rawQueryString := None |}.

(** A request through a function URL. *)
Definition url_event (hdrs : option (gmap string string)) (verb path : string)
           (query : list (string * string)) : Event :=
  {| headers := hdrs;
     pathParameters := None;
     queryStringParameters := Some (list_to_map query);
     requestContext := Some {| http := Some {| method := Some verb;
                                                path := Some path |} |};
     rawPath := Some path; rawQueryString := None |}.

Definition bytes3 : Buffer := [Byte.x0a; Byte.x0b; Byte.x0c].

(** A store holding one source object in the first project's bucket. *)
Definition store_with (key : string) : gmap (string * string) S3.StoredObject :=
  {[ ("geerly-cms-content", key) :=
       {| S3.content := bytes3; S3.contentType := Some "image/png" |} ]}.

(** A store holding one empty source object. *)
Definition store_with_empty (key : string) : gmap (string * string) S3.StoredObject :=
  {[ ("geerly-cms-content", key) :=
       {| S3.content := []; S3.contentType := Some "image/png" |} ]}.

(** A store fault of an unlisted kind whose message is the text of one of
    the handler's own error kinds. *)
Definition foreign_fault : JsError :=
  {| name := "InternalError"; message := "ACCESS_DENIED" |}.

(** A failure of the derivative write. *)
Definition write_fault : JsError :=
  {| name := "ServiceUnavailable"; message := "Please reduce your request rate." |}.


End Samples.

(* ===================================================================== *)
(** * Notions of the specification *)
(* ===================================================================== *)

Module Spec.

(** The cut of a path at its first [/]: the part before it and the part
    after it; [None] when the path has no [/]. *)
Fixpoint cut (s : string) : option (string * string) :=
  match s with
  | EmptyString => None
  | String c s' =>
      if Ascii.eqb c "/" then Some (EmptyString, s')
      else match cut s' with
           | Some (p, r) => Some (String c p, r)
           | None => None
           end
  end.

(** "The path must decompose into [{projectId}/{objectPath...}]; at least
    one segment must remain after projectId": a non-empty project
    identifier, a [/], and a non-empty remainder. *)
Definition decompose (path : string) : option (string * string) :=
  match cut path with
  | Some (p, r) => if (Js.truthy p && Js.truthy r)%bool then Some (p, r) else None
  | None => None
  end.

Definition is_digit (c : ascii) : bool :=
  let n := nat_of_ascii c in (Nat.leb 48 n && Nat.leb n 57)%bool.

(** A value that is plainly not a number: it starts with an ASCII
    character that is neither a digit, nor a sign, nor white space. *)
Definition non_numeric (v : string) : bool :=
  match v with
  | EmptyString => false
  | String c _ =>
      (Nat.ltb (nat_of_ascii c) 128
       && negb (is_digit c || Js.is_space c || Ascii.eqb c "+" || Ascii.eqb c "-"))%bool
  end.

Fixpoint distinct (l : list string) : bool :=
  match l with
  | [] => true
  | x :: l' => negb (existsb (String.eqb x) l') && distinct l'
  end.

(** An operations segment made of [name=value] pairs with distinct names,
    none of which is an array index. *)
Definition plain_operations (s : string) : bool :=
  let pairs := List.map (Js.split "=") (Js.split "," s) in
  (forallb (fun p => Nat.eqb (length p) 2) pairs
   && distinct (List.map (hd EmptyString) pairs)
   && forallb (fun p => negb (Js.is_array_index (hd EmptyString p))) pairs)%bool.

(** The messages the image handler uses as error kinds. *)
Definition sentinels : list string :=
  [ "STORAGE_CONFIG_ERROR"; "ACCESS_DENIED"; "UNSUPPORTED_FORMAT"; "INVALID_QUALITY" ].

(** The store error names the source fetcher tells apart. *)
Definition known_names : list string :=
  [ "NoSuchKey"; "NotFound"; "NoSuchBucket"; "AccessDenied" ].

(** The messages a client of the image handler can see. *)
Definition client_messages : list string :=
  [ "Access denied"; "Invalid request format"; "Project not found";
    "Image not found"; "Storage configuration error";
    "Access denied to image storage"; "Unsupported image format";
    "Invalid quality parameter (must be between 1 and 100)";
    "Failed to optimize image"; "Internal server error" ].

End Spec.

(* ===================================================================== *)
(** * Further observations and sample environments *)
(* ===================================================================== *)

Module Observe.
Import Lambda.

(** The bucket and key of the source fetch. *)
Fixpoint fetched (t : list Step) : option (bucket * string) :=
  match t with
  | [] => None
  | step (GetObject b key) _ :: _ => Some (b, key)
  | _ :: t' => fetched t'
  end.

(** The bucket and key of the cache probe. *)
Fixpoint probed (t : list Step) : option (bucket * string) :=
  match t with
  | [] => None
  | step (HeadObject b key) _ :: _ => Some (b, key)
  | _ :: t' => probed t'
  end.

(** The arguments of the derivative write. *)
Record Write : Type := {
  to_bucket : bucket;
  to_key : string;
  bytes : Buffer;
  as_type : option string;
  cache_control : option string
}.

Fixpoint written (t : list Step) : option Write :=
  match t with
  | [] => None
  | step (PutObject b key content ct cc) _ :: _ =>
      Some {| to_bucket := b; to_key := key; bytes := content;
              as_type := ct; cache_control := cc |}
  | _ :: t' => written t'
  end.

(** The number of store commands of a trace. *)
Definition store_calls (t : list Step) : nat := length (List.filter is_store t).

(** The number of codec and decoder calls of a trace. *)
Definition transform_calls (t : list Step) : nat := length (List.filter is_transform t).

(** The metadata the codec reported. *)
Fixpoint metadata_reported (t : list Step) : option Metadata :=
  match t with
  | [] => None
  | step (SharpMetadata _) (inr m) :: _ => Some m
  | _ :: t' => metadata_reported t'
  end.

(** The exception of the codec or of the decoder. *)
Fixpoint codec_fault (t : list Step) : option JsError :=
  match t with
  | [] => None
  | step (SharpMetadata _) (inl e) :: _ => Some e
  | step (SharpToBuffer _) (inl e) :: _ => Some e
  | step (GenerateThumbnail _) (inl e) :: _ => Some e
  | _ :: t' => codec_fault t'
  end.

(** The exception of the constructor of the codec. *)
Fixpoint constructor_fault (t : list Step) : option JsError :=
  match t with
  | [] => None
  | step (SharpConstructor _ _) (inl e) :: _ => Some e
  | _ :: t' => constructor_fault t'
  end.

(** The exception of [metadata()]. *)
Fixpoint metadata_fault (t : list Step) : option JsError :=
  match t with
  | [] => None
  | step (SharpMetadata _) (inl e) :: _ => Some e
  | _ :: t' => metadata_fault t'
  end.

(** The exception of [toBuffer()]. *)
Fixpoint encode_fault (t : list Step) : option JsError :=
  match t with
  | [] => None
  | step (SharpToBuffer _) (inl e) :: _ => Some e
  | _ :: t' => encode_fault t'
  end.

(** The rejection of [GetObject] itself. *)
Fixpoint get_rejection (t : list Step) : option JsError :=
  match t with
  | [] => None
  | step (GetObject _ _) (inl e) :: _ => Some e
  | _ :: t' => get_rejection t'
  end.

(** The failure of the reading of the body of a fetched object. *)
Fixpoint stream_fault (t : list Step) : option JsError :=
  match t with
  | [] => None
  | step (GetObject _ _) (inr out) :: t' =>
      match Body out with
      | Some (inl e) => Some e
      | _ => stream_fault t'
      end
  | _ :: t' => stream_fault t'
  end.

(** The output of a fetch the store accepted. *)
Fixpoint fetch_output (t : list Step) : option GetObjectOutput :=
  match t with
  | [] => None
  | step (GetObject _ _) (inr out) :: _ => Some out
  | _ :: t' => fetch_output t'
  end.

(** The exception of the cache probe. *)
Fixpoint probe_fault (t : list Step) : option JsError :=
  match t with
  | [] => None
  | step (HeadObject _ _) (inl e) :: _ => Some e
  | _ :: t' => probe_fault t'
  end.

(** The thumbnail the decoder produced. *)
Fixpoint thumbnail (t : list Step) : option Buffer :=
  match t with
  | [] => None
  | step (GenerateThumbnail _) (inr b) :: _ => Some b
  | _ :: t' => thumbnail t'
  end.

(** The video handed to the decoder. *)
Fixpoint decoded (t : list Step) : option Buffer :=
  match t with
  | [] => None
  | step (GenerateThumbnail v) _ :: _ => Some v
  | _ :: t' => decoded t'
  end.

(** No call of the trace was answered with an exception. *)
Definition clean (t : list Step) : bool := forallb (fun s => negb (failed s)) t.

(** The quality an encoder is given. *)
Definition encoder_quality (e : Encoder) : option Js.number :=
  match e with
  | Jpeg q => Some q
  | Png q => q
  | Webp q => Some q
  | Avif q => Some q
  | Gif => None
  | ToFormat _ q => q
  end.

(** Membership of an optional format in a list of formats. *)
Definition listed (f : option string) (l : list string) : bool :=
  match f with
  | Some s => existsb (String.eqb s) l
  | None => false
  end.

End Observe.

Module Faults.
Import Lambda.

(** A codec that fails with a given exception at [toBuffer]. *)
Definition failing_encoder (fmt : string) (e : JsError) : S3.Codec :=
  {| S3.metadata_of := fun _ => inr {| format := Some fmt; orientation := None |};
     S3.encode := fun _ => inl e;
     S3.thumbnail_of := fun _ => inl e |}.

Definition broken_codec (fmt : string) (e : JsError) : S3.Setup :=
  {| S3.codec := failing_encoder fmt e; S3.get_fault := None; S3.put_fault := None |}.

Definition decode_error : JsError :=
  {| name := "Error"; message := "Input buffer contains unsupported image format" |}.

Definition access_denied : JsError :=
  {| name := "AccessDenied"; message := "Access Denied" |}.

Definition no_such_bucket : JsError :=
  {| name := "NoSuchBucket"; message := "The specified bucket does not exist" |}.

Definition slow_down : JsError :=
  {| name := "SlowDown"; message := "Please reduce your request rate." |}.

(** A store whose cache probe fails with a given exception and that
    otherwise behaves as [S3.world]. *)
Definition probe_failing (e : JsError) (s : S3.Setup)
  : Oracle (gmap (string * string) S3.StoredObject) :=
  fun X ev =>
    match ev in Ev X
          return gmap (string * string) S3.StoredObject
                 -> X * gmap (string * string) S3.StoredObject with
    | HeadObject _ _ => fun objects => (inl e, objects)
    | other => S3.world s _ other
    end.

End Faults.

Module Routes.
Import Lambda.

(** The project and the object path of a raw path: the path without its
    first character, decomposed. *)
Definition raw_route (ev : Event) : option (string * string) :=
  match rawPath ev with
  | Some raw => if Js.truthy raw then Spec.decompose (Js.substring1 raw) else None
  | None => None
  end.

(** The project and the video path the caching video handler takes from
    a raw path: the path without its first character, cut at its first
    [/]; a path with no [/] is a project with an empty video path. *)
Definition video_route (ev : Event) : option (string * string) :=
  match rawPath ev with
  | Some raw =>
      match Spec.cut (Js.substring1 raw) with
      | Some (p, v) => Some (p, v)
      | None => Some (Js.substring1 raw, EmptyString)
      end
  | None => None
  end.

End Routes.

(* ===================================================================== *)
(** * Proof automation *)
(* ===================================================================== *)

(** Case analysis on every answer of the environment and every test of the
    handler. *)
Ltac explore :=
  repeat (cbn;
    match goal with
    | |- forall _, _ => intro
    | |- context [match ?x with inl _ => _ | inr _ => _ end] => destruct x
    | |- context [match ?x with Some _ => _ | None => _ end] => destruct x eqn:?
    | |- context [match ?x with pair _ _ => _ end] => destruct x
    | |- context [if ?b then _ else _] => destruct b eqn:?
    end).

(** String tests as equations. *)
Ltac eqb_facts :=
  repeat match goal with
    | H : (_ || _)%bool = true |- _ => apply orb_true_iff in H
    | H : (_ || _)%bool = false |- _ => apply orb_false_iff in H as [? ?]
    | H : (_ && _)%bool = true |- _ => apply andb_true_iff in H as [? ?]
    | H : String.eqb _ _ = true |- _ => apply String.eqb_eq in H
    | H : String.eqb _ _ = false |- _ => apply String.eqb_neq in H
    | H : negb _ = true |- _ => apply negb_true_iff in H
    | H : negb _ = false |- _ => apply negb_false_iff in H
    end.

(** Integer tests as (in)equalities. *)
Ltac z_facts :=
  repeat match goal with
    | H : (_ =? _)%Z = true |- _ => apply Z.eqb_eq in H
    | H : (_ =? _)%Z = false |- _ => apply Z.eqb_neq in H
    | H : (_ <? _)%Z = true |- _ => apply Z.ltb_lt in H
    | H : (_ <? _)%Z = false |- _ => apply Z.ltb_ge in H
    end.

(** Case analysis on the disjunctions among the hypotheses. *)
Ltac split_ors :=
  repeat (eqb_facts;
          match goal with
          | H : _ \/ _ |- _ => destruct H
          end);
  eqb_facts.

(* ===================================================================== *)
(** * Facts about the primitives *)
(* ===================================================================== *)

Section StringFacts.

Lemma split_not_nil (c : ascii) (s : string) : Js.split c s <> [].
Proof.
  destruct s as [|a s]; cbn; [discriminate|].
  destruct (Ascii.eqb a c); [discriminate|].
  destruct (Js.split c s); discriminate.
Qed.

Lemma concat_cons (sep x : string) (l : list string) :
  l <> [] -> String.concat sep (x :: l) = x +:+ sep +:+ String.concat sep l.
Proof. destruct l; [congruence | reflexivity]. Qed.

(** Joining the parts of a split with the separator gives the string back. *)
Lemma join_split (c : ascii) (s : string) :
  Js.join (String c EmptyString) (Js.split c s) = s.
Proof.
  unfold Js.join. induction s as [|a s IH]; [reflexivity|].
  cbn [Js.split]. destruct (Ascii.eqb a c) eqn:E.
  - apply Ascii.eqb_eq in E. subst a.
    rewrite concat_cons by apply split_not_nil. cbn. now rewrite IH.
  - pose proof (split_not_nil c s) as Hne.
    destruct (Js.split c s) as [|h t]; [congruence|].
    destruct t as [|h' t].
    + cbn in *. now rewrite IH.
    + rewrite concat_cons by discriminate.
      rewrite concat_cons in IH by discriminate.
      rewrite <- IH. reflexivity.
Qed.

Lemma split_cut_none (s : string) :
  Spec.cut s = None -> Js.split "/" s = [s].
Proof.
  induction s as [|a s IH]; [reflexivity|]. cbn.
  destruct (Ascii.eqb a "/"); [discriminate|].
  destruct (Spec.cut s) as [[p r]|]; [discriminate|].
  intros _. now rewrite IH.
Qed.

Lemma split_cut_some (s p r : string) :
  Spec.cut s = Some (p, r) -> Js.split "/" s = p :: Js.split "/" r.
Proof.
  revert p. induction s as [|a s IH]; intros p; [discriminate|]. cbn.
  destruct (Ascii.eqb a "/").
  - now intros [= <- <-].
  - destruct (Spec.cut s) as [[p' r']|]; [|discriminate].
    intros [= <- <-]. now rewrite (IH p' eq_refl).
Qed.

(** The cut is the decomposition of the path around its first [/]. *)
Lemma cut_spec (s p r : string) :
  Spec.cut s = Some (p, r) <->
  s = p +:+ "/" +:+ r /\ Js.includes "/" p = false.
Proof.
  split.
  - revert p. induction s as [|a s IH]; intros p; [discriminate|]. cbn.
    destruct (Ascii.eqb a "/") eqn:E.
    + apply Ascii.eqb_eq in E. subst a. now intros [= <- <-].
    + destruct (Spec.cut s) as [[p' r']|]; [|discriminate].
      intros [= <- <-]. destruct (IH p' eq_refl) as [-> Hp].
      simpl. now rewrite E, Hp.
  - intros [-> Hp]. induction p as [|a p IH]; [reflexivity|].
    cbn [Js.includes] in Hp. apply orb_false_iff in Hp as [Ha Hp].
    simpl. now rewrite Ha, (IH Hp).
Qed.

Lemma truthy_false (s : string) : Js.truthy s = false <-> s = EmptyString.
Proof. destruct s; cbn; split; congruence. Qed.

Lemma length_split_cut (s : string) :
  (Z.of_nat (length (Js.split "/" s)) <? 2) =
  match Spec.cut s with Some _ => false | None => true end.
Proof.
  destruct (Spec.cut s) as [[p r]|] eqn:E.
  - rewrite (split_cut_some _ _ _ E).
    pose proof (split_not_nil "/" r). destruct (Js.split "/" r); [congruence|].
    cbn [length]. apply Z.ltb_ge. lia.
  - now rewrite (split_cut_none _ E).
Qed.

(** A value that is plainly not a number parses to [NaN]. *)
Lemma parseInt_non_numeric (v : string) :
  Spec.non_numeric v = true -> Js.parseInt v = Js.NaN /\ Js.parseInt10 v = Js.NaN.
Proof.
  destruct v as [|c v]; [discriminate|].
  destruct c as [[] [] [] [] [] [] [] []]; cbn; intros H;
    solve [discriminate H | split; reflexivity].
Qed.

(** The primitives on sample values. *)
Example split_path :
  Js.split "/" "geerly/photos/a.png" = ["geerly"; "photos"; "a.png"].
Proof. reflexivity. Qed.

Example split_empty : Js.split "/" EmptyString = [EmptyString].
Proof. reflexivity. Qed.

Example parseInt_prefix : Js.parseInt "12abc" = Js.Num 12.
Proof. reflexivity. Qed.

Example parseInt_hex : Js.parseInt " -0x1F" = Js.Num (-31).
Proof. reflexivity. Qed.

Example parseInt10_hex : Js.parseInt10 "0x1F" = Js.Num 0.
Proof. reflexivity. Qed.

Example parseInt_letters : Js.parseInt "abc" = Js.NaN.
Proof. reflexivity. Qed.

(** White space outside ASCII is skipped: a no-break space (in UTF-8 and
    as one character), a line separator after a tab. *)
Example parseInt_no_break_space :
  Js.parseInt (String (ascii_of_nat 194) (String (ascii_of_nat 160) "50")) = Js.Num 50
  /\ Js.parseInt10 (String (ascii_of_nat 160) "50") = Js.Num 50.
Proof. split; reflexivity. Qed.

Example parseInt_line_separator :
  Js.parseInt
    (String (ascii_of_nat 9)
       (String (ascii_of_nat 226)
          (String (ascii_of_nat 128) (String (ascii_of_nat 168) "-7px"))))
  = Js.Num (-7).
Proof. reflexivity. Qed.

(** A letter outside ASCII is no white space. *)
Example parseInt_accent :
  Js.parseInt (String (ascii_of_nat 195) (String (ascii_of_nat 169) "50")) = Js.NaN.
Proof. reflexivity. Qed.

Example entries_order :
  Js.entries (Js.fromEntries [["b"; "1"]; ["10"; "x"]; ["a"; "2"]; ["2"; "y"]; ["b"; "3"]])
  = [("2", Some "y"); ("10", Some "x"); ("b", Some "3"); ("a", Some "2")].
Proof. reflexivity. Qed.

Example inherited_project :
  Config.project_bucket "constructor" = Some (Lambda.BucketInherited "constructor").
Proof. reflexivity. Qed.

End StringFacts.

(* ===================================================================== *)
(** * Facts about runs *)
(* ===================================================================== *)

Section RunFacts.
Import Lambda.

(** A property of all the answers holds of every run. *)
Lemma run_always {W A : Type} (o : Oracle W) (p : Prog A) :
  forall (P : list Step -> Outcome A -> Prop) (w : W),
    always P p -> P (trace (run o p w)) (outcome (run o p w)).
Proof.
  induction p as [a | e | X ev k IH]; intros P w HP; cbn in *; try exact HP.
  destruct (o X ev w) as [x w1].
  specialize (IH x (fun t r => P (step ev x :: t) r) w1 (HP x)).
  destruct (run o (k x) w1) as [[r t] w2]. exact IH.
Qed.

(** A handler that answers without any call leaves the world as it is. *)
Lemma run_ret {W A : Type} (o : Oracle W) (p : Prog A) (a : A) (w : W) :
  p = Ret a -> run o p w = (Returned a, [], w).
Proof. now intros ->. Qed.

End RunFacts.

(* ===================================================================== *)
(** * The request parser of the image handler *)
(* ===================================================================== *)

Section ParserFacts.
Import Lambda ImageOptimization.

(** The source parser accepts exactly the paths that decompose, and never
    looks at the values of the query parameters to decide. *)
Lemma parseRequest_decompose (ev : Event) :
  parseRequest ev =
  match Spec.decompose (proxy_path ev) with
  | Some (p, r) =>
      let q := default ∅ (queryStringParameters ev) in
      Some {| projectName := p; imagePath := r;
              width := query_int q "w"; height := query_int q "h";
              quality := query_int q "q" |}
  | None => None
  end.
Proof.
  unfold parseRequest, Spec.decompose.
  destruct (Js.truthy (proxy_path ev)) eqn:Hp; cbn [negb].
  - rewrite length_split_cut.
    destruct (Spec.cut (proxy_path ev)) as [[p r]|] eqn:E; [|reflexivity].
    rewrite (split_cut_some _ _ _ E). cbn [hd Js.slice1 tl].
    rewrite join_split.
    destruct (Js.truthy p), (Js.truthy r); reflexivity.
  - apply truthy_false in Hp. now rewrite Hp.
Qed.

End ParserFacts.

(* ===================================================================== *)
(** * The trust header *)
(* ===================================================================== *)

Section TrustHeader.
Import Lambda Samples.
Local Open Scope string_scope.

(** The image handler answers 403 to every request without the trusted
    marker, whatever its path, and makes no call at all. *)
Lemma image_handler_rejects_untrusted (env : ProcessEnv) (ev : Event) :
  ImageOptimization.origin_rejected ev = true ->
  forall (W : Type) (o : Oracle W) (w : W),
    run o (ImageOptimization.handler env ev) w =
    (Returned (error_response 403 "Access denied"), [], w).
Proof.
  intros H W o w. apply run_ret.
  unfold ImageOptimization.handler. now rewrite H.
Qed.

(** The video-thumbnail handler is the same program whatever the headers
    of the request are. *)
Lemma video_handler_ignores_headers (ev : Event) (h : option (gmap string string)) :
  VideoThumbnail.handler (with_headers h ev) = VideoThumbnail.handler ev.
Proof. reflexivity. Qed.

(** C2, at the failing input: the video-thumbnail handler never looks at
    the [x-origin-verify] header.  A request that carries no header at all
    is served: the source video is fetched, a frame is decoded, and the
    answer is 200. *)
Theorem C2_video_handler_serves_untrusted :
  let ev := proxy_event None "geerly/clips/a.mp4" [] in
  let res := run (S3.world (S3.setup "jpeg")) (VideoThumbnail.handler ev)
                 (store_with "clips/a.mp4") in
  headers ev = None
  /\ ImageOptimization.origin_rejected ev = true
  /\ status res = Some 200
  /\ existsb is_store (trace res) = true
  /\ existsb is_transform (trace res) = true.
Proof. vm_compute. repeat split; reflexivity. Qed.

End TrustHeader.

(* ===================================================================== *)
(** * Malformed paths *)
(* ===================================================================== *)

Section MalformedPath.
Import Lambda Samples.
Local Open Scope string_scope.

(** C7, as stated, fails: a request without the trusted marker whose path
    has no segment after the project is answered 403 by the image
    handler, and the video-thumbnail handler answers 404 to such a
    path. *)
Lemma C7_counterexample :
  Spec.decompose "geerly" = None
  /\ status (run (S3.world (S3.setup "jpeg"))
                 (ImageOptimization.handler no_env (proxy_event None "geerly" []))
                 ∅) = Some 403
  /\ status (run (S3.world (S3.setup "jpeg"))
                 (VideoThumbnail.handler (proxy_event (Some trusted) "geerly" []))
                 ∅) = Some 404.
Proof. vm_compute. repeat split; reflexivity. Qed.

(** C7, amended: the image handler answers 400 to every request that
    carries the trusted marker and whose path does not decompose into a
    project identifier and a non-empty remainder; it does so without any
    call, so before any store access. *)
Theorem C7_malformed_path_400 (env : ProcessEnv) (ev : Event) :
  ImageOptimization.origin_rejected ev = false ->
  Spec.decompose (ImageOptimization.proxy_path ev) = None ->
  forall (W : Type) (o : Oracle W) (w : W),
    run o (ImageOptimization.handler env ev) w =
    (Returned (error_response 400 "Invalid request format"), [], w).
Proof.
  intros Ho Hd W o w. apply run_ret.
  unfold ImageOptimization.handler.
  now rewrite Ho, parseRequest_decompose, Hd.
Qed.

(** A trusted request for [geerly], which has no segment after the project. *)
Lemma C7_malformed_path_400_witness :
  run (S3.world (S3.setup "jpeg"))
      (ImageOptimization.handler no_env (proxy_event (Some trusted) "geerly" []))
      (store_with "photos/a.png") =
  (Returned (error_response 400 "Invalid request format"), [],
   store_with "photos/a.png").
Proof.
  apply (C7_malformed_path_400 no_env (proxy_event (Some trusted) "geerly" []));
    vm_compute; reflexivity.
Defined.

End MalformedPath.

(* ===================================================================== *)
(** * Numeric parameters *)
(* ===================================================================== *)

Section NumericParameters.
Import Lambda Samples.
Local Open Scope string_scope.

Lemma query_int_non_numeric (q : gmap string string) (k v : string) :
  q !! k = Some v -> Spec.non_numeric v = true ->
  ImageOptimization.query_int q k = Some Js.NaN
  /\ ImageRouter.query_int q k = Some Js.NaN.
Proof.
  intros Hk Hv. unfold ImageOptimization.query_int, ImageRouter.query_int.
  rewrite Hk. destruct (parseInt_non_numeric v Hv) as [-> ->].
  destruct v; [discriminate|]. now cbn.
Qed.

(** A given value is stored as the integer read from it. *)
Lemma query_int_given (q : gmap string string) (k v : string) :
  q !! k = Some v -> v <> EmptyString ->
  ImageOptimization.query_int q k = Some (Js.parseInt v)
  /\ ImageRouter.query_int q k = Some (Js.parseInt10 v).
Proof.
  intros Hk Hv. unfold ImageOptimization.query_int, ImageRouter.query_int.
  rewrite Hk. destruct v; [congruence|]. now cbn.
Qed.

(** C9, as stated, fails: with [w=abc] the parser returns a request, whose
    width is [NaN], and the handler answers 200; with [quality=abc] the
    other parser does the same. *)
Lemma C9_counterexample :
  Spec.non_numeric "abc" = true
  /\ option_map ImageOptimization.width
       (ImageOptimization.parseRequest
          (proxy_event (Some trusted) "geerly/photos/a.png" [("w", "abc")]))
     = Some (Some Js.NaN)
  /\ status (run (S3.world (S3.setup "jpeg"))
                 (ImageOptimization.handler no_env
                    (proxy_event (Some trusted) "geerly/photos/a.png" [("w", "abc")]))
                 (store_with "photos/a.png")) = Some 200
  /\ option_map (fun r => ImageRouter.quality (ImageRouter.params r))
       (ImageRouter.parseRequest
          (url_event None "GET" "/geerly/photos/a.png" [("quality", "abc")]))
     = Some (Some Js.NaN).
Proof. vm_compute. repeat split; reflexivity. Qed.

(** C9, amended: no value of a numeric parameter makes a parser fail.  For
    every request whose path decomposes the image parser returns a
    request, in which each given (non-empty) value [v] of [w], [h] and [q]
    is stored as [parseInt(v)]; a value that is plainly not a number is
    thus stored as [NaN], and a [NaN] quality is then replaced by the
    default 80.  The parser of the query-string handler accepts every
    non-empty raw path and stores [parseInt(v, 10)] likewise, [NaN]
    being replaced by the default quality. *)
Theorem C9_non_numeric_accepted :
  (forall (ev : Event) (p r : string),
      Spec.decompose (ImageOptimization.proxy_path ev) = Some (p, r) ->
      exists req,
        ImageOptimization.parseRequest ev = Some req
        /\ ImageOptimization.projectName req = p
        /\ ImageOptimization.imagePath req = r
        /\ (forall v, v <> EmptyString ->
              let q := default ∅ (queryStringParameters ev) in
              (q !! "w" = Some v ->
               ImageOptimization.width req = Some (Js.parseInt v))
              /\ (q !! "h" = Some v ->
                  ImageOptimization.height req = Some (Js.parseInt v))
              /\ (q !! "q" = Some v ->
                  ImageOptimization.quality req = Some (Js.parseInt v)))
        /\ forall v, Spec.non_numeric v = true ->
             let q := default ∅ (queryStringParameters ev) in
             Js.parseInt v = Js.NaN
             /\ (q !! "w" = Some v -> ImageOptimization.width req = Some Js.NaN)
             /\ (q !! "h" = Some v -> ImageOptimization.height req = Some Js.NaN)
             /\ (q !! "q" = Some v ->
                 ImageOptimization.quality req = Some Js.NaN
                 /\ ImageOptimization.output_quality (ImageOptimization.quality req)
                    = Js.Num 80))
  /\ (forall (ev : Event) (raw : string) (q : gmap string string),
         rawPath ev = Some raw -> raw <> EmptyString ->
         queryStringParameters ev = Some q ->
         exists req,
           ImageRouter.parseRequest ev = Some req
           /\ (forall v, v <> EmptyString ->
                 (q !! "width" = Some v ->
                  ImageRouter.width (ImageRouter.params req) = Some (Js.parseInt10 v))
                 /\ (q !! "height" = Some v ->
                     ImageRouter.height (ImageRouter.params req)
                     = Some (Js.parseInt10 v))
                 /\ (q !! "quality" = Some v ->
                     ImageRouter.quality (ImageRouter.params req)
                     = Some (Js.parseInt10 v)))
           /\ forall v, Spec.non_numeric v = true ->
                Js.parseInt10 v = Js.NaN
                /\ (q !! "width" = Some v ->
                    ImageRouter.width (ImageRouter.params req) = Some Js.NaN)
                /\ (q !! "height" = Some v ->
                    ImageRouter.height (ImageRouter.params req) = Some Js.NaN)
                /\ (q !! "quality" = Some v ->
                    ImageRouter.quality (ImageRouter.params req) = Some Js.NaN
                    /\ ImageRouter.output_quality
                         (ImageRouter.quality (ImageRouter.params req))
                       = Js.Num Config.DEFAULT_QUALITY)).
Proof.
  split.
  - intros ev p r Hd. rewrite parseRequest_decompose, Hd.
    eexists. split; [reflexivity|]. cbn.
    split; [reflexivity|]. split; [reflexivity|]. split.
    + intros v Hv. cbv zeta.
      repeat split; intros Hk; now apply (query_int_given _ _ _ Hk).
    + intros v Hv. cbv zeta.
      split; [now apply parseInt_non_numeric|].
      split; [intros Hk; now apply (query_int_non_numeric _ _ _ Hk)|].
      split; [intros Hk; now apply (query_int_non_numeric _ _ _ Hk)|].
      intros Hk. destruct (query_int_non_numeric _ _ _ Hk Hv) as [-> _].
      split; reflexivity.
  - intros ev raw q Hraw Hne Hq. unfold ImageRouter.parseRequest.
    rewrite Hraw, Hq. destruct raw as [|c raw]; [congruence|]. cbn [Js.truthy negb].
    eexists. split; [reflexivity|]. cbn. split.
    + intros v Hv.
      repeat split; intros Hk; now apply (query_int_given _ _ _ Hk).
    + intros v Hv.
      split; [now apply parseInt_non_numeric|].
      split; [intros Hk; now apply (query_int_non_numeric _ _ _ Hk)|].
      split; [intros Hk; now apply (query_int_non_numeric _ _ _ Hk)|].
      intros Hk. destruct (query_int_non_numeric _ _ _ Hk Hv) as [_ ->].
      split; reflexivity.
Qed.

(** The request [geerly/photos/a.png?q=abc]. *)
Lemma C9_non_numeric_accepted_witness :
  exists req,
    ImageOptimization.parseRequest
      (proxy_event (Some trusted) "geerly/photos/a.png" [("q", "abc")]) = Some req
    /\ ImageOptimization.projectName req = "geerly"
    /\ ImageOptimization.imagePath req = "photos/a.png"
    /\ ImageOptimization.quality req = Some (Js.parseInt "abc")
    /\ ImageOptimization.quality req = Some Js.NaN
    /\ ImageOptimization.output_quality (ImageOptimization.quality req) = Js.Num 80.
Proof.
  destruct (proj1 C9_non_numeric_accepted
              (proxy_event (Some trusted) "geerly/photos/a.png" [("q", "abc")])
              "geerly" "photos/a.png") as [req (Hreq & Hp & Hr & Hs & Hv)].
  - vm_compute. reflexivity.
  - exists req. repeat split; try assumption.
    + apply (Hs "abc"); [discriminate | vm_compute; reflexivity].
    + apply (Hv "abc"); vm_compute; reflexivity.
    + apply (Hv "abc"); vm_compute; reflexivity.
Defined.

End NumericParameters.

(* ===================================================================== *)
(** * The error taxonomy of the source fetcher *)
(* ===================================================================== *)

Section FetchErrors.
Import Lambda Samples.
Local Open Scope string_scope.

(** C3, as stated, fails: a store fault that is none of the four named
    ones is answered 403, not 500, when its message is the text the
    handler uses for its own access-denied kind. *)
Lemma C3_counterexample :
  let res := run (S3.world (S3.with_get_fault foreign_fault (S3.setup "jpeg")))
                 (ImageOptimization.handler no_env
                    (proxy_event (Some trusted) "geerly/photos/a.png" []))
                 (store_with "photos/a.png") in
  fetch_fault (trace res) = Some foreign_fault
  /\ existsb (String.eqb (name foreign_fault)) Spec.known_names = false
  /\ status res = Some 403.
Proof. vm_compute. repeat split; reflexivity. Qed.

(** C3, amended: whatever the environment answers, a failure of the source
    fetch is answered with one fixed message and with status 404 for an
    absent object ([NoSuchKey], [NotFound]), 503 for an absent bucket
    ([NoSuchBucket]), 403 for [AccessDenied], and 500 for any other fault
    whose message is not one of the texts the handler uses as error
    kinds. *)
Theorem C3_fetch_error_mapping
        (W : Type) (o : Oracle W) (w : W) (env : ProcessEnv) (ev : Event)
        (e : JsError) :
  let res := run o (ImageOptimization.handler env ev) w in
  fetch_fault (trace res) = Some e ->
  exists code msg,
    outcome res = Returned (error_response code msg)
    /\ In msg Spec.client_messages
    /\ (name e = "NoSuchKey" \/ name e = "NotFound" -> code = 404)
    /\ (name e = "NoSuchBucket" -> code = 503)
    /\ (name e = "AccessDenied" -> code = 403)
    /\ (~ In (name e) Spec.known_names -> ~ In (message e) Spec.sentinels ->
        code = 500).
Proof.
  cbv zeta. revert e.
  apply (run_always o _
           (fun t out => forall e, fetch_fault t = Some e ->
              exists code msg,
                out = Returned (error_response code msg)
                /\ In msg Spec.client_messages
                /\ (name e = "NoSuchKey" \/ name e = "NotFound" -> code = 404)
                /\ (name e = "NoSuchBucket" -> code = 503)
                /\ (name e = "AccessDenied" -> code = 403)
                /\ (~ In (name e) Spec.known_names ->
                    ~ In (message e) Spec.sentinels -> code = 500))).
  unfold ImageOptimization.handler.
  destruct (ImageOptimization.origin_rejected ev); [cbn; discriminate|].
  destruct (ImageOptimization.parseRequest ev) as [req|]; [|cbn; discriminate].
  destruct (Config.project_bucket _) as [b|]; [|cbn; discriminate].
  explore; unfold ImageOptimization.error_switch; explore;
    match goal with
    | H : None = Some _ |- _ => discriminate H
    | H : Some _ = Some _ |- _ => injection H as <-
    end;
    eqb_facts;
    do 2 eexists; (split; [reflexivity|]);
    (split; [cbn; tauto|]);
    cbn [Spec.known_names Spec.sentinels In];
    repeat split; intros;
    repeat match goal with
      | H : _ \/ _ |- _ => destruct H
      end;
    eqb_facts; solve [reflexivity | congruence | intuition congruence].
Qed.

(** A store that answers every fetch with [NoSuchBucket]. *)
Lemma C3_fetch_error_mapping_witness :
  exists code msg,
    outcome (run (S3.world (S3.with_get_fault
                              {| name := "NoSuchBucket"; message := "gone" |}
                              (S3.setup "jpeg")))
                 (ImageOptimization.handler no_env
                    (proxy_event (Some trusted) "geerly/photos/a.png" []))
                 (store_with "photos/a.png"))
    = Returned (error_response code msg)
    /\ code = 503.
Proof.
  destruct (C3_fetch_error_mapping _
              (S3.world (S3.with_get_fault
                           {| name := "NoSuchBucket"; message := "gone" |}
                           (S3.setup "jpeg")))
              (store_with "photos/a.png") no_env
              (proxy_event (Some trusted) "geerly/photos/a.png" [])
              {| name := "NoSuchBucket"; message := "gone" |})
    as (code & msg & Hout & _ & _ & Hb & _).
  - vm_compute. reflexivity.
  - exists code, msg. split; [exact Hout | apply Hb; reflexivity].
Defined.

End FetchErrors.

(* ===================================================================== *)
(** * The quality parameter *)
(* ===================================================================== *)

Section Quality.
Import Lambda Samples.
Local Open Scope string_scope.

(** What [optimizeImage] does with an integer quality, once the codec has
    reported a source format: outside 1..100 it fails with
    [INVALID_QUALITY] before encoding, except for 0, which is taken as
    "not specified" and encoded like every quality in 1..100. *)
Lemma optimizeImage_quality
      (W : Type) (o : Oracle W) (w : W) (imageBuffer : Buffer)
      (width height : option Js.number) (q : Z) (fmt : string) :
  let res := run o (ImageOptimization.optimizeImage imageBuffer width height
                      (Some (Js.Num q))) w in
  reported_format (trace res) = Some fmt ->
  In fmt ImageOptimization.supported_source_formats ->
  (q <> 0 /\ (q < 1 \/ 100 < q) ->
   outcome res = Uncaught (Error "INVALID_QUALITY")
   /\ encode_requested (trace res) = None)
  /\ (q = 0 \/ 1 <= q <= 100 -> encode_requested (trace res) <> None).
Proof.
  cbv zeta. revert fmt.
  apply (run_always o _
           (fun t out => forall fmt, reported_format t = Some fmt ->
              In fmt ImageOptimization.supported_source_formats ->
              (q <> 0 /\ (q < 1 \/ 100 < q) ->
               out = Uncaught (Error "INVALID_QUALITY")
               /\ encode_requested t = None)
              /\ (q = 0 \/ 1 <= q <= 100 -> encode_requested t <> None))).
  unfold ImageOptimization.optimizeImage, ImageOptimization.output_quality,
    Js.truthy_num.
  destruct (q =? 0)%Z eqn:Hq0; cbn [negb];
    explore;
    try match goal with
      | H : None = Some _ |- _ => discriminate H
      end;
    eqb_facts;
    (split; [intros [? ?] | intros ?]);
    repeat match goal with
      | H : _ \/ _ |- _ => destruct H
      end;
    z_facts; try lia; try discriminate;
    try (split; reflexivity);
    match goal with
    | H : Some _ = Some _, U : (_ && _)%bool = false |- _ =>
        injection H as ?; subst; cbn in U; discriminate U
    end.
Qed.

(** C6, at the failing input: with [q=0] the image handler does not fail
    with [INVALID_QUALITY]; the quality 0 is replaced by 80, the image is
    encoded and the answer is 200.  With [q=101] the answer is 400, with
    [q=1] and [q=100] it is 200. *)
Theorem C6_quality_zero_accepted :
  let respond q :=
    run (S3.world (S3.setup "jpeg"))
        (ImageOptimization.handler no_env
           (proxy_event (Some trusted) "geerly/photos/a.png" [("q", q)]))
        (store_with "photos/a.png") in
  status (respond "0") = Some 200
  /\ option_map encoder (encode_requested (trace (respond "0")))
     = Some (Some (Jpeg (Js.Num 80)))
  /\ status (respond "101") = Some 400
  /\ status (respond "1") = Some 200
  /\ status (respond "100") = Some 200.
Proof. vm_compute. repeat split; reflexivity. Qed.

End Quality.

(* ===================================================================== *)
(** * The content type of the image handler *)
(* ===================================================================== *)

Section ContentType.
Import Lambda Samples.
Local Open Scope string_scope.

Lemma error_switch_not_200 (e : JsError) :
  statusCode (ImageOptimization.error_switch e) <> 200.
Proof.
  unfold ImageOptimization.error_switch.
  repeat match goal with
    | |- context [if ?b then _ else _] => destruct b
    end; cbn; discriminate.
Qed.

(** C10: every 200 answer of the image-optimization handler carries
    [Content-Type: image/jpeg], and its body is the output of the encoder
    of the format the codec reported for the source, which is any of
    jpeg, png, webp and gif. *)
Theorem C10_content_type_is_jpeg
        (W : Type) (o : Oracle W) (w : W) (env : ProcessEnv) (ev : Event)
        (r : Response) :
  let res := run o (ImageOptimization.handler env ev) w in
  outcome res = Returned r ->
  statusCode r = 200 ->
  header "Content-Type" (resp_headers r) = Some (HString "image/jpeg")
  /\ exists fmt p enc img,
       reported_format (trace res) = Some fmt
       /\ In fmt ["jpeg"; "png"; "webp"; "gif"]
       /\ artifact (trace res) = Some (p, img)
       /\ encoder p = Some enc
       /\ encoder_format enc = fmt
       /\ resp_body r = Some (Base64Body img).
Proof.
  cbv zeta. revert r.
  apply (run_always o _
           (fun t out => forall r, out = Returned r -> statusCode r = 200 ->
              header "Content-Type" (resp_headers r) = Some (HString "image/jpeg")
              /\ exists fmt p enc img,
                   reported_format t = Some fmt
                   /\ In fmt ["jpeg"; "png"; "webp"; "gif"]
                   /\ artifact t = Some (p, img)
                   /\ encoder p = Some enc
                   /\ encoder_format enc = fmt
                   /\ resp_body r = Some (Base64Body img))).
  unfold ImageOptimization.handler.
  destruct (ImageOptimization.origin_rejected ev); [cbn; now intros ? [= <-]|].
  destruct (ImageOptimization.parseRequest ev) as [req|]; [|cbn; now intros ? [= <-]].
  destruct (Config.project_bucket _) as [b|]; [|cbn; now intros ? [= <-]].
  unfold ImageOptimization.optimizeImage.
  explore;
    match goal with
    | H : Returned _ = Returned _ |- _ => injection H as <-
    end;
    match goal with
    | H : statusCode (ImageOptimization.error_switch _) = 200 |- _ =>
        now apply error_switch_not_200 in H
    | H : statusCode _ = 200 |- _ => cbn in H; try discriminate H
    end;
    eqb_facts; subst;
    (split; [reflexivity|]);
    do 4 eexists; cbn; repeat split; try eassumption; try reflexivity;
    cbn; tauto.
Qed.

(** A PNG source: the body comes from the PNG encoder, the header says JPEG. *)
Lemma C10_content_type_is_jpeg_witness :
  header "Content-Type"
         (resp_headers (ImageOptimization.success_response no_env
                          (bytes3 ++ [Byte.x02])%list))
  = Some (HString "image/jpeg")
  /\ exists fmt p enc img,
       reported_format
         (trace (run (S3.world (S3.setup "png"))
                     (ImageOptimization.handler no_env
                        (proxy_event (Some trusted) "geerly/photos/a.png" []))
                     (store_with "photos/a.png"))) = Some fmt
       /\ In fmt ["jpeg"; "png"; "webp"; "gif"]
       /\ artifact
            (trace (run (S3.world (S3.setup "png"))
                        (ImageOptimization.handler no_env
                           (proxy_event (Some trusted) "geerly/photos/a.png" []))
                        (store_with "photos/a.png"))) = Some (p, img)
       /\ encoder p = Some enc
       /\ encoder_format enc = fmt
       /\ resp_body (ImageOptimization.success_response no_env
                       (bytes3 ++ [Byte.x02])%list)
          = Some (Base64Body img).
Proof.
  apply (C10_content_type_is_jpeg _ (S3.world (S3.setup "png"))
           (store_with "photos/a.png") no_env
           (proxy_event (Some trusted) "geerly/photos/a.png" [])).
  - vm_compute. reflexivity.
  - reflexivity.
Defined.

End ContentType.

(* ===================================================================== *)
(** * The derivative key *)
(* ===================================================================== *)

Section DerivativeKey.
Import Lambda Samples.
Local Open Scope string_scope.

Lemma keys_snoc (o : Js.object) (k : string) (v : option string) (rest : list string) :
  (List.map fst (o ++ [(k, v)]) ++ rest)%list = (List.map fst o ++ k :: rest)%list.
Proof. rewrite List.map_app, <- List.app_assoc. reflexivity. Qed.

(** Setting a property whose name is new appends it. *)
Lemma set_prop_fresh (o : Js.object) (k : string) (v : option string)
      (rest : list string) :
  Spec.distinct (List.map fst o ++ k :: rest) = true ->
  Js.set_prop k v o = (o ++ [(k, v)])%list.
Proof.
  induction o as [|[k' v'] o IH]; [reflexivity|].
  cbn [List.map fst List.app Spec.distinct Js.set_prop].
  intros H. apply andb_true_iff in H as [Hk' Hd].
  apply negb_true_iff in Hk'. rewrite List.existsb_app in Hk'.
  apply orb_false_iff in Hk' as [_ Hk']. cbn [existsb] in Hk'.
  apply orb_false_iff in Hk' as [Hk' _].
  rewrite Hk', (IH Hd). reflexivity.
Qed.

(** Distinct properties are kept in the order in which they are set. *)
Lemma set_all_distinct (props : list (string * option string)) :
  forall o : Js.object,
    Spec.distinct (List.map fst o ++ List.map fst props) = true ->
    Js.set_all props o = (o ++ props)%list.
Proof.
  unfold Js.set_all.
  induction props as [|[k v] props IH]; intros o H; cbn [fold_left fst snd].
  - now rewrite List.app_nil_r.
  - cbn [List.map fst] in H.
    rewrite (set_prop_fresh o k v _ H).
    rewrite IH; [now rewrite <- List.app_assoc|].
    now rewrite keys_snoc.
Qed.

(** Without array-index names, [Object.entries] lists the properties in
    insertion order. *)
Lemma entries_plain (o : Js.object) :
  forallb (fun e => negb (Js.is_array_index (fst e))) o = true ->
  Js.entries o = o.
Proof.
  intros H.
  assert (Hsplit : Js.index_entries o = [] /\ Js.name_entries o = o).
  { unfold Js.name_entries.
    induction o as [|[k v] o IH]; [now split|].
    cbn [forallb fst] in H. apply andb_true_iff in H as [Hk Ho].
    destruct (IH Ho) as [Hi Hn].
    cbn [Js.index_entries List.filter fst].
    rewrite Hk, Hi, Hn. unfold Js.is_array_index in Hk.
    now destruct (Js.array_index k). }
  unfold Js.entries. destruct Hsplit as [-> ->]. reflexivity.
Qed.

Lemma entry_of_pair (p : list string) :
  length p = 2%nat ->
  fst (Js.entry_of p) = hd EmptyString p
  /\ fst (Js.entry_of p) +:+ "=" +:+ Js.show (snd (Js.entry_of p)) = Js.join "=" p.
Proof.
  destruct p as [|k [|v [|x p]]]; try discriminate. intros _. now cbn.
Qed.

(** The operations of a plain segment serialize to the segment itself. *)
Lemma serialize_parse (s : string) :
  Spec.plain_operations s = true ->
  ImageTransform.serialize (ImageTransform.parseOperations s) = s.
Proof.
  unfold Spec.plain_operations, ImageTransform.serialize,
    ImageTransform.parseOperations, Js.fromEntries.
  set (pairs := List.map (Js.split "=") (Js.split "," s)).
  intros H. apply andb_true_iff in H as [H Hidx].
  apply andb_true_iff in H as [Hlen Hdis].
  assert (Hkeys : List.map fst (List.map Js.entry_of pairs) = List.map (hd EmptyString) pairs).
  { rewrite List.map_map. apply List.map_ext_in. intros p Hp.
    apply entry_of_pair. rewrite List.forallb_forall in Hlen.
    now apply Nat.eqb_eq, Hlen. }
  rewrite set_all_distinct by (cbn [List.map List.app]; now rewrite Hkeys).
  cbn [List.app]. rewrite entries_plain.
  - rewrite List.map_map.
    rewrite (List.map_ext_in _ (Js.join "=")).
    + unfold pairs. rewrite List.map_map.
      rewrite (List.map_ext _ (fun x => x)) by (intros x; apply (join_split "=")).
      rewrite List.map_id. apply (join_split ",").
    + intros p Hp. apply entry_of_pair. rewrite List.forallb_forall in Hlen.
      now apply Nat.eqb_eq, Hlen.
  - rewrite List.forallb_forall in *. intros e He.
    apply List.in_map_iff in He as (p & <- & Hp).
    destruct (entry_of_pair p) as [-> _]; [now apply Nat.eqb_eq, Hlen|].
    now apply Hidx.
Qed.

Lemma append_inj (p s1 s2 : string) : p +:+ s1 = p +:+ s2 -> s1 = s2.
Proof. induction p as [|c p IH]; cbn; [trivial | intros [= H]; auto]. Qed.

(** C1, as stated, fails: the operations [width=300,format=webp] and
    [format=webp,width=300] are the same set of operations, and their
    derivative keys differ. *)
Lemma C1_counterexample :
  Permutation (ImageTransform.parseOperations "width=300,format=webp")
              (ImageTransform.parseOperations "format=webp,width=300")
  /\ ImageTransform.derivativeKey "photos/a.png"
       (ImageTransform.parseOperations "width=300,format=webp")
     <> ImageTransform.derivativeKey "photos/a.png"
          (ImageTransform.parseOperations "format=webp,width=300").
Proof.
  split.
  - vm_compute. apply perm_swap.
  - vm_compute. discriminate.
Qed.

(** C1, amended: the derivative key depends on the order of the operations
    in the request.  For every object path and every plain operations
    segment ([name=value] pairs with distinct names, none of which is an
    array index) the key is the object path, a [/], and the segment as it
    was sent; so two plain segments give the same key only when they are
    the same text.  Outside that class the key need not follow the
    request: names that are array indices come first, in ascending order,
    as in the segment [10=x,2=y]. *)
Theorem C1_key_follows_request_order :
  (forall imagePath s : string,
      Spec.plain_operations s = true ->
      ImageTransform.derivativeKey imagePath (ImageTransform.parseOperations s)
      = imagePath +:+ "/" +:+ s)
  /\ (forall imagePath s1 s2 : string,
         Spec.plain_operations s1 = true ->
         Spec.plain_operations s2 = true ->
         ImageTransform.derivativeKey imagePath (ImageTransform.parseOperations s1)
         = ImageTransform.derivativeKey imagePath (ImageTransform.parseOperations s2) ->
         s1 = s2)
  /\ (forall imagePath : string,
         ImageTransform.derivativeKey imagePath
           (ImageTransform.parseOperations "10=x,2=y")
         = imagePath +:+ "/2=y,10=x").
Proof.
  assert (Hkey : forall imagePath s : string,
             Spec.plain_operations s = true ->
             ImageTransform.derivativeKey imagePath (ImageTransform.parseOperations s)
             = imagePath +:+ "/" +:+ s).
  { intros imagePath s Hs. unfold ImageTransform.derivativeKey.
    now rewrite (serialize_parse s Hs). }
  split; [exact Hkey|]. split.
  - intros imagePath s1 s2 H1 H2. rewrite (Hkey _ _ H1), (Hkey _ _ H2).
    intros H. apply append_inj in H. now apply (append_inj "/").
  - intros imagePath. unfold ImageTransform.derivativeKey. f_equal.
Qed.

(** The key of [format=webp,width=300]. *)
Lemma C1_key_follows_request_order_witness :
  ImageTransform.derivativeKey "photos/a.png"
    (ImageTransform.parseOperations "format=webp,width=300")
  = "photos/a.png/format=webp,width=300".
Proof.
  apply (proj1 C1_key_follows_request_order "photos/a.png" "format=webp,width=300").
  vm_compute. reflexivity.
Defined.

End DerivativeKey.

(* ===================================================================== *)
(** * Write-back and delivery *)
(* ===================================================================== *)

Section Delivery.
Import Lambda Samples.
Local Open Scope string_scope.




(** C5, as stated, fails: when the computed artifact is bigger than the
    inline limit and the derivative write fails, the image handler
    answers the 403 "too big" error instead of the artifact; and a write
    failure in the caching video handler is answered 500. *)
Lemma C5_counterexample :
  let faulty := S3.world (S3.with_put_fault write_fault (S3.setup "png")) in
  let image := run faulty
                   (ImageTransform.handler (image_env "3")
                      (url_event (Some trusted) "GET"
                                 "/photos/a.png/width=300,format=webp" []))
                   (store_with "photos/a.png") in
  let video := run faulty
                   (VideoRedirect.handler
                      (url_event (Some trusted) "GET" "/geerly/clips/a.mp4" []))
                   (store_with "clips/a.mp4") in
  option_map snd (artifact (trace image)) = Some (bytes3 ++ [Byte.x06])%list
  /\ write_failed (trace image) = true
  /\ status image = Some 403
  /\ existsb is_transform (trace video) = true
  /\ write_failed (trace video) = true
  /\ status video = Some 500.
Proof. vm_compute. repeat split; reflexivity. Qed.

(** C5, amended: in the image handler, when the computed artifact is not
    bigger than the inline limit, a failure of the derivative write is
    logged and does not change the answer: it is the inline response,
    status 200 with the artifact as base64 body.  Moreover the write is
    the only call whose failure a 200 answer can follow. *)
Theorem C5_write_failure_swallowed :
  (forall (W : Type) (o : Oracle W) (w : W) (env : ProcessEnv) (ev : Event)
          (m : Z) (p : Pipeline) (img : Buffer),
      let res := run o (ImageTransform.handler env ev) w in
      ImageTransform.MAX_IMAGE_SIZE env = Js.Num m ->
      artifact (trace res) = Some (p, img) ->
      Z.of_nat (length img) <= m ->
      write_failed (trace res) = true ->
      (exists r contentType,
          outcome res = Returned r
          /\ r = ImageTransform.inline_response env img contentType ["img-download"]
          /\ statusCode r = 200
          /\ resp_body r = Some (Base64Body img)
          /\ isBase64Encoded r = true)
      /\ logged "APPLICATION ERROR:" "Could not upload transformed image to S3"
                (trace res) = true)
  /\ (forall (W : Type) (o : Oracle W) (w : W) (env : ProcessEnv) (ev : Event)
             (r : Response),
         let res := run o (ImageTransform.handler env ev) w in
         outcome res = Returned r ->
         statusCode r = 200 ->
         forallb (fun s => implb (failed s) (is_put s)) (trace res) = true).
Proof.
  split.
  - cbv zeta. intros W o w env ev m p img Hmax. revert p img.
    apply (run_always o _
      (fun t out => forall p img, artifact t = Some (p, img) ->
         Z.of_nat (length img) <= m ->
         write_failed t = true ->
         (exists r contentType,
             out = Returned r
             /\ r = ImageTransform.inline_response env img contentType
                      ["img-download"]
             /\ statusCode r = 200
             /\ resp_body r = Some (Base64Body img)
             /\ isBase64Encoded r = true)
         /\ logged "APPLICATION ERROR:" "Could not upload transformed image to S3" t
            = true)).
    unfold ImageTransform.handler, ImageTransform.deliver, ImageTransform.upload.
    set (limit := ImageTransform.MAX_IMAGE_SIZE env) in *.
    clearbody limit. subst limit.
    destruct (ImageTransform.is_get ev); [|explore; discriminate].
    destruct (ImageTransform.origin_rejected ev); [explore; discriminate|].
    destruct (ImageTransform.request_path ev) as [path|]; [|explore; discriminate].
    destruct (negb (Js.truthy path) || String.eqb path "/")%bool;
      [explore; discriminate|].
    destruct (ImageTransform.parse_path path) as [imagePath operations].
    destruct (Js.truthy imagePath); [|explore; discriminate].
    unfold ImageTransform.download, ImageTransform.transform.
    cbn [negb].
    explore;
      try match goal with
        | H : None = Some _ |- _ => discriminate H
        end;
      match goal with
      | H : Some _ = Some _ |- _ => injection H as <- <-
      end;
      z_facts; try lia; try discriminate;
      split; [do 2 eexists; repeat split; reflexivity | reflexivity].
  - cbv zeta. intros W o w env ev r. revert r.
    apply (run_always o _
      (fun t out => forall r, out = Returned r -> statusCode r = 200 ->
         forallb (fun s => implb (failed s) (is_put s)) t = true)).
    unfold ImageTransform.handler, ImageTransform.deliver, ImageTransform.upload.
    destruct (ImageTransform.is_get ev); [|explore; now subst].
    destruct (ImageTransform.origin_rejected ev); [explore; now subst|].
    destruct (ImageTransform.request_path ev) as [path|]; [|explore; now subst].
    destruct (negb (Js.truthy path) || String.eqb path "/")%bool;
      [explore; now subst|].
    destruct (ImageTransform.parse_path path) as [imagePath operations].
    destruct (Js.truthy imagePath); [|explore; now subst].
    unfold ImageTransform.download, ImageTransform.transform.
    cbn [negb].
    explore;
      match goal with
      | H : Returned _ = Returned _ |- _ => injection H as <-
      | H : Uncaught _ = Returned _ |- _ => discriminate H
      end;
      match goal with
      | H : statusCode _ = 200 |- _ => cbn in H; try discriminate H
      end;
      reflexivity.
Qed.

(** An artifact of four bytes at the limit 4, with a store that refuses writes. *)
Lemma C5_write_failure_swallowed_witness :
  exists r contentType,
    outcome (run (S3.world (S3.with_put_fault write_fault (S3.setup "png")))
                 (ImageTransform.handler (image_env "4")
                    (url_event (Some trusted) "GET"
                               "/photos/a.png/width=300,format=webp" []))
                 (store_with "photos/a.png")) = Returned r
    /\ r = ImageTransform.inline_response (image_env "4")
             (bytes3 ++ [Byte.x06])%list contentType ["img-download"]
    /\ statusCode r = 200
    /\ resp_body r = Some (Base64Body (bytes3 ++ [Byte.x06])%list)
    /\ isBase64Encoded r = true.
Proof.
  eapply (proj1 C5_write_failure_swallowed _
            (S3.world (S3.with_put_fault write_fault (S3.setup "png")))
            (store_with "photos/a.png") (image_env "4")
            (url_event (Some trusted) "GET"
                       "/photos/a.png/width=300,format=webp" []) 4).
  - vm_compute. reflexivity.
  - vm_compute. reflexivity.
  - vm_compute. discriminate.
  - vm_compute. reflexivity.
Defined.

End Delivery.

(* ===================================================================== *)
(** * The cache probe of the video handler *)
(* ===================================================================== *)

Section CacheProbe.
Import Lambda Samples.
Local Open Scope string_scope.

(** When the probe itself succeeds, the caching handler redirects to the
    derivative and neither fetches the source nor decodes it. *)
Lemma probe_hit_redirects
      (W : Type) (o : Oracle W) (w : W) (ev : Event) :
  let res := run o (VideoRedirect.handler ev) w in
  probe_hit (trace res) = true ->
  (exists location, outcome res = Returned (VideoRedirect.redirect_response location))
  /\ existsb is_fetch (trace res) = false
  /\ existsb is_transform (trace res) = false.
Proof.
  cbv zeta.
  apply (run_always o _
    (fun t out => probe_hit t = true ->
       (exists location, out = Returned (VideoRedirect.redirect_response location))
       /\ existsb is_fetch t = false
       /\ existsb is_transform t = false)).
  unfold VideoRedirect.handler.
  destruct (rawPath ev) as [raw|]; [|explore; discriminate].
  destruct (Config.project_bucket _) as [b|]; [|explore; discriminate].
  explore; try discriminate.
  repeat split; try reflexivity. eexists; reflexivity.
Qed.

Lemma length_append (s t : string) :
  String.length (s +:+ t) = (String.length s + String.length t)%nat.
Proof. induction s as [|c s IH]; simpl; [reflexivity | now f_equal]. Qed.

Lemma append_not_self (s t : string) : t <> EmptyString -> s +:+ t <> s.
Proof.
  intros Ht H. apply (f_equal String.length) in H.
  rewrite length_append in H.
  destruct t; [congruence | cbn in H; lia].
Qed.

(** In every run the probe looks at the derivative key with a second
    [.jpg] added, which is never the key the thumbnail is written to. *)
Lemma probe_misses_derivative_key
      (W : Type) (o : Oracle W) (w : W) (ev : Event) (probed : string) :
  let res := run o (VideoRedirect.handler ev) w in
  probed_key (trace res) = Some probed ->
  exists videoPath,
    probed = VideoRedirect.thumbnailKey videoPath +:+ ".jpg"
    /\ probed <> VideoRedirect.thumbnailKey videoPath
    /\ forall written, put_key (trace res) = Some written ->
                       written = VideoRedirect.thumbnailKey videoPath.
Proof.
  cbv zeta. revert probed.
  apply (run_always o _
    (fun t out => forall probed, probed_key t = Some probed ->
       exists videoPath,
         probed = VideoRedirect.thumbnailKey videoPath +:+ ".jpg"
         /\ probed <> VideoRedirect.thumbnailKey videoPath
         /\ forall written, put_key t = Some written ->
                            written = VideoRedirect.thumbnailKey videoPath)).
  unfold VideoRedirect.handler.
  destruct (rawPath ev) as [raw|]; [|explore; discriminate].
  destruct (Config.project_bucket _) as [b|]; [|explore; discriminate].
  unfold VideoRedirect.checkThumbnailExists.
  explore;
    match goal with
    | H : Some _ = Some _ |- _ => injection H as <-
    end;
    eexists; (split; [reflexivity|]);
    (split; [now apply append_not_self|]);
    intros written Hw; cbn in Hw; congruence.
Qed.

(** C8, at the failing input: a first request for [/geerly/clips/a.mp4]
    stores the thumbnail at the derivative key.  On the second request
    the derivative exists at that key, yet the probe misses it, and the
    source is fetched and decoded again before the 302 answer. *)
Theorem C8_cached_thumbnail_is_recomputed :
  let world := S3.world (S3.setup "jpeg") in
  let ev := url_event (Some trusted) "GET" "/geerly/clips/a.mp4" [] in
  let first := run world (VideoRedirect.handler ev) (store_with "clips/a.mp4") in
  let second := run world (VideoRedirect.handler ev) (final first) in
  put_key (trace first) = Some (VideoRedirect.thumbnailKey "clips/a.mp4")
  /\ option_map S3.content
       (final first !! ("geerly-cms-content", VideoRedirect.thumbnailKey "clips/a.mp4"))
     = Some [Byte.xff; Byte.xd8; Byte.xff; Byte.xd9]
  /\ probe_hit (trace second) = false
  /\ existsb is_fetch (trace second) = true
  /\ existsb is_transform (trace second) = true
  /\ status second = Some 302.
Proof. vm_compute. repeat split; reflexivity. Qed.

End CacheProbe.

(* ===================================================================== *)
(** * The image-optimization handler: guards, formats and failures *)
(* ===================================================================== *)

Section ImageOptimizationFacts.
Import Lambda Samples Observe Faults.
Local Open Scope string_scope.

(** The image-optimization handler always answers: no exception escapes
    it, and the status is one of 200, 400, 403, 404, 415, 500 and 503. *)
Theorem image_handler_always_answers
        (W : Type) (o : Oracle W) (w : W) (env : ProcessEnv) (ev : Event) :
  let res := run o (ImageOptimization.handler env ev) w in
  exists r,
    outcome res = Returned r
    /\ In (statusCode r) [200; 400; 403; 404; 415; 500; 503].
Proof.
  cbv zeta.
  apply (run_always o _
    (fun t out => exists r, out = Returned r
       /\ In (statusCode r) [200; 400; 403; 404; 415; 500; 503])).
  unfold ImageOptimization.handler.
  destruct (ImageOptimization.origin_rejected ev);
    [cbn; eexists; split; [reflexivity | cbn; tauto]|].
  destruct (ImageOptimization.parseRequest ev) as [req|];
    [|cbn; eexists; split; [reflexivity | cbn; tauto]].
  destruct (Config.project_bucket _) as [b|];
    [|cbn; eexists; split; [reflexivity | cbn; tauto]].
  unfold ImageOptimization.optimizeImage.
  explore; unfold ImageOptimization.error_switch; explore;
    eexists; (split; [reflexivity | cbn; tauto]).
Qed.

(** The image-optimization handler reaches the outside world only for a
    trusted request whose path decomposes and whose project resolves; its
    first call is then the fetch of the remainder of the path from the
    bucket of the project.  It reads the store at most once and never
    probes it or writes to it. *)
Theorem image_handler_guards
        (W : Type) (o : Oracle W) (w : W) (env : ProcessEnv) (ev : Event) :
  let res := run o (ImageOptimization.handler env ev) w in
  (trace res <> [] ->
   ImageOptimization.origin_rejected ev = false
   /\ exists p r b,
        Spec.decompose (ImageOptimization.proxy_path ev) = Some (p, r)
        /\ Config.project_bucket p = Some b
        /\ fetched (trace res) = Some (b, r)
        /\ store_calls (trace res) = 1%nat)
  /\ probed (trace res) = None
  /\ written (trace res) = None.
Proof.
  cbv zeta.
  apply (run_always o _
    (fun t out =>
       (t <> [] ->
        ImageOptimization.origin_rejected ev = false
        /\ exists p r b,
             Spec.decompose (ImageOptimization.proxy_path ev) = Some (p, r)
             /\ Config.project_bucket p = Some b
             /\ fetched t = Some (b, r)
             /\ store_calls t = 1%nat)
       /\ probed t = None /\ written t = None)).
  unfold ImageOptimization.handler. rewrite parseRequest_decompose.
  destruct (ImageOptimization.origin_rejected ev); [cbn; now repeat split|].
  destruct (Spec.decompose (ImageOptimization.proxy_path ev)) as [[p r]|];
    [|cbn; now repeat split].
  cbn [ImageOptimization.projectName ImageOptimization.imagePath].
  destruct (Config.project_bucket p) as [b|] eqn:Hb; [|cbn; now repeat split].
  unfold ImageOptimization.optimizeImage.
  explore; unfold ImageOptimization.error_switch; explore;
    (split; [intros _; split; [reflexivity|]; exists p, r, b; now repeat split
            | now split]).
Qed.

Lemma image_handler_guards_witness :
  exists p r b,
    Spec.decompose
      (ImageOptimization.proxy_path (proxy_event (Some trusted) "geerly/photos/a.png" []))
    = Some (p, r)
    /\ Config.project_bucket p = Some b
    /\ fetched (trace (run (S3.world (S3.setup "png"))
                           (ImageOptimization.handler no_env
                              (proxy_event (Some trusted) "geerly/photos/a.png" []))
                           (store_with "photos/a.png"))) = Some (b, r).
Proof.
  destruct (proj1 (image_handler_guards _ (S3.world (S3.setup "png"))
                     (store_with "photos/a.png") no_env
                     (proxy_event (Some trusted) "geerly/photos/a.png" []))
              ltac:(vm_compute; discriminate))
    as (_ & p & r & b & H1 & H2 & H3 & _).
  exists p, r, b. repeat split; assumption.
Defined.

(** A project name that is a member every object inherits ([constructor],
    [toString], ...) passes the project check: the handler goes on to the
    fetch, with the inherited member in the place of the bucket. *)
Theorem image_handler_inherited_project
        (W : Type) (o : Oracle W) (w : W) (env : ProcessEnv) (ev : Event)
        (p r : string) :
  let res := run o (ImageOptimization.handler env ev) w in
  ImageOptimization.origin_rejected ev = false ->
  Spec.decompose (ImageOptimization.proxy_path ev) = Some (p, r) ->
  In p Config.prototype_members ->
  fetched (trace res) = Some (BucketInherited p, r).
Proof.
  cbv zeta. intros Ho Hd Hin.
  assert (Hb : Config.project_bucket p = Some (BucketInherited p)).
  { cbn in Hin.
    repeat (destruct Hin as [<- | Hin]; [reflexivity|]). contradiction. }
  apply (run_always o _ (fun t out => fetched t = Some (BucketInherited p, r))).
  unfold ImageOptimization.handler.
  rewrite Ho, parseRequest_decompose, Hd.
  cbn [ImageOptimization.projectName ImageOptimization.imagePath].
  rewrite Hb. unfold ImageOptimization.optimizeImage.
  explore; unfold ImageOptimization.error_switch; explore; reflexivity.
Qed.

Lemma image_handler_inherited_project_witness :
  fetched (trace (run (S3.world (S3.setup "jpeg"))
                      (ImageOptimization.handler no_env
                         (proxy_event (Some trusted) "constructor/x.jpg" []))
                      (store_with "x.jpg")))
  = Some (BucketInherited "constructor", "x.jpg").
Proof.
  apply (image_handler_inherited_project _ (S3.world (S3.setup "jpeg"))
           (store_with "x.jpg") no_env
           (proxy_event (Some trusted) "constructor/x.jpg" [])).
  - vm_compute. reflexivity.
  - vm_compute. reflexivity.
  - cbn. tauto.
Defined.

(** A source whose format the codec does not report, or reports outside
    jpeg, png, webp and gif, is answered 415 and never encoded. *)
Theorem image_handler_unsupported_format
        (W : Type) (o : Oracle W) (w : W) (env : ProcessEnv) (ev : Event)
        (m : Metadata) :
  let res := run o (ImageOptimization.handler env ev) w in
  metadata_reported (trace res) = Some m ->
  listed (format m) ImageOptimization.supported_source_formats = false ->
  outcome res = Returned (error_response 415 "Unsupported image format")
  /\ encode_requested (trace res) = None.
Proof.
  cbv zeta. revert m.
  apply (run_always o _
    (fun t out => forall m, metadata_reported t = Some m ->
       listed (format m) ImageOptimization.supported_source_formats = false ->
       out = Returned (error_response 415 "Unsupported image format")
       /\ encode_requested t = None)).
  unfold ImageOptimization.handler.
  destruct (ImageOptimization.origin_rejected ev); [cbn; discriminate|].
  destruct (ImageOptimization.parseRequest ev) as [req|]; [|cbn; discriminate].
  destruct (Config.project_bucket _) as [b|]; [|cbn; discriminate].
  unfold ImageOptimization.optimizeImage.
  explore;
    try match goal with
      | H : None = Some _ |- _ => discriminate H
      end;
    match goal with
    | H : Some _ = Some _ |- _ => injection H as <-
    end;
    match goal with
    | H : format _ = _, L : listed _ _ = false |- _ => rewrite H in L; cbn in L
    end;
    split_ors; subst; try discriminate; try (now split); congruence.
Qed.

Lemma image_handler_unsupported_format_witness :
  outcome (run (S3.world (S3.setup "tiff"))
               (ImageOptimization.handler no_env
                  (proxy_event (Some trusted) "geerly/photos/a.png" []))
               (store_with "photos/a.png"))
  = Returned (error_response 415 "Unsupported image format")
  /\ encode_requested
       (trace (run (S3.world (S3.setup "tiff"))
                   (ImageOptimization.handler no_env
                      (proxy_event (Some trusted) "geerly/photos/a.png" []))
                   (store_with "photos/a.png"))) = None.
Proof.
  apply (image_handler_unsupported_format _ (S3.world (S3.setup "tiff"))
           (store_with "photos/a.png") no_env
           (proxy_event (Some trusted) "geerly/photos/a.png" [])
           {| format := Some "tiff"; orientation := None |});
    vm_compute; reflexivity.
Defined.

(** Whenever the image-optimization handler calls the encoder, the quality
    it passes is an integer between 1 and 100 (the GIF encoder takes
    none), and a resize, when there is one, fits inside the requested box
    and never enlarges. *)
Theorem image_handler_encoder_quality
        (W : Type) (o : Oracle W) (w : W) (env : ProcessEnv) (ev : Event)
        (p : Pipeline) :
  let res := run o (ImageOptimization.handler env ev) w in
  encode_requested (trace res) = Some p ->
  (exists e,
      encoder p = Some e
      /\ (e = Gif \/ exists q, encoder_quality e = Some (Js.Num q) /\ 1 <= q <= 100))
  /\ (forall ro, resize p = Some ro ->
                 fit_inside ro = true /\ withoutEnlargement ro = true).
Proof.
  cbv zeta. revert p.
  apply (run_always o _
    (fun t out => forall p, encode_requested t = Some p ->
       (exists e,
           encoder p = Some e
           /\ (e = Gif
               \/ exists q, encoder_quality e = Some (Js.Num q) /\ 1 <= q <= 100))
       /\ (forall ro, resize p = Some ro ->
                      fit_inside ro = true /\ withoutEnlargement ro = true))).
  unfold ImageOptimization.handler.
  destruct (ImageOptimization.origin_rejected ev); [cbn; discriminate|].
  destruct (ImageOptimization.parseRequest ev) as [req|]; [|cbn; discriminate].
  destruct (Config.project_bucket _) as [b|]; [|cbn; discriminate].
  unfold ImageOptimization.optimizeImage, ImageOptimization.output_quality,
    Js.truthy_num.
  destruct (ImageOptimization.quality req) as [[q|]|];
    [destruct (q =? 0)%Z eqn:Hq0 | | ]; cbn [negb];
    explore;
    try match goal with
      | H : None = Some _ |- _ => discriminate H
      end;
    match goal with
    | H : Some _ = Some _ |- _ => injection H as <-
    end;
    eqb_facts; z_facts;
    (split;
     [ eexists; split; [reflexivity|];
       first [left; reflexivity | right; eexists; split; [reflexivity | lia]]
     | intros ro;
       try match goal with
         | |- context [if ?c then _ else _] => destruct c
         end;
       cbn; intros Hro;
       first [discriminate Hro | injection Hro as <-; now split] ]).
Qed.

Lemma image_handler_encoder_quality_witness :
  exists e,
    encoder (with_encoder (Jpeg (Js.Num 100))
               (with_resize {| width := Some (Js.Num 300); height := None;
                               fit_inside := true; withoutEnlargement := true |}
                            (sharp bytes3 false))) = Some e
    /\ (e = Gif \/ exists q, encoder_quality e = Some (Js.Num q) /\ 1 <= q <= 100).
Proof.
  apply (image_handler_encoder_quality _ (S3.world (S3.setup "jpeg"))
           (store_with "photos/a.png") no_env
           (proxy_event (Some trusted) "geerly/photos/a.png"
                        [("q", "100"); ("w", "300")])).
  vm_compute. reflexivity.
Defined.

(** A failure of the codec is logged and answered 500 "Failed to optimize
    image", unless the message of the exception is one of the two texts
    [optimizeImage] rethrows as they are: then the answer is the one of that
    text, 415 or 400. *)
Theorem image_handler_codec_failure
        (W : Type) (o : Oracle W) (w : W) (env : ProcessEnv) (ev : Event)
        (e : JsError) :
  let res := run o (ImageOptimization.handler env ev) w in
  codec_fault (trace res) = Some e ->
  (message e <> "UNSUPPORTED_FORMAT" -> message e <> "INVALID_QUALITY" ->
   outcome res = Returned (error_response 500 "Failed to optimize image")
   /\ logged "Image optimization error:" (message e) (trace res) = true)
  /\ (message e = "UNSUPPORTED_FORMAT" ->
      outcome res = Returned (error_response 415 "Unsupported image format"))
  /\ (message e = "INVALID_QUALITY" ->
      outcome res
      = Returned (error_response 400
                    "Invalid quality parameter (must be between 1 and 100)")).
Proof.
  cbv zeta. revert e.
  apply (run_always o _
    (fun t out => forall e, codec_fault t = Some e ->
       (message e <> "UNSUPPORTED_FORMAT" -> message e <> "INVALID_QUALITY" ->
        out = Returned (error_response 500 "Failed to optimize image")
        /\ logged "Image optimization error:" (message e) t = true)
       /\ (message e = "UNSUPPORTED_FORMAT" ->
           out = Returned (error_response 415 "Unsupported image format"))
       /\ (message e = "INVALID_QUALITY" ->
           out = Returned (error_response 400
                             "Invalid quality parameter (must be between 1 and 100)")))).
  unfold ImageOptimization.handler.
  destruct (ImageOptimization.origin_rejected ev); [cbn; discriminate|].
  destruct (ImageOptimization.parseRequest ev) as [req|]; [|cbn; discriminate].
  destruct (Config.project_bucket _) as [b|]; [|cbn; discriminate].
  unfold ImageOptimization.optimizeImage.
  explore;
    try match goal with
      | H : None = Some _ |- _ => discriminate H
      end;
    match goal with
    | H : Some _ = Some _ |- _ => injection H as <-
    end;
    split_ors;
    repeat split; intros; try congruence;
    try (unfold ImageOptimization.error_switch;
         match goal with
         | H : message ?j = _ |- context [message ?j] => rewrite H
         end);
    try reflexivity;
    now rewrite String.eqb_refl.
Qed.

Lemma image_handler_codec_failure_witness :
  outcome (run (S3.world (broken_codec "jpeg" decode_error))
               (ImageOptimization.handler no_env
                  (proxy_event (Some trusted) "geerly/photos/a.png" []))
               (store_with "photos/a.png"))
  = Returned (error_response 500 "Failed to optimize image")
  /\ logged "Image optimization error:" (message decode_error)
            (trace (run (S3.world (broken_codec "jpeg" decode_error))
                        (ImageOptimization.handler no_env
                           (proxy_event (Some trusted) "geerly/photos/a.png" []))
                        (store_with "photos/a.png"))) = true.
Proof.
  apply (image_handler_codec_failure _ (S3.world (broken_codec "jpeg" decode_error))
           (store_with "photos/a.png") no_env
           (proxy_event (Some trusted) "geerly/photos/a.png" []) decode_error).
  - vm_compute. reflexivity.
  - vm_compute. discriminate.
  - vm_compute. discriminate.
Defined.

End ImageOptimizationFacts.

(* ===================================================================== *)
(** * The query-string image handler *)
(* ===================================================================== *)

Section ImageRouterFacts.
Import Lambda Samples Observe Faults Routes.
Local Open Scope string_scope.

Lemma extractProjectAndPath_cut (path : string) :
  ImageRouter.extractProjectAndPath path =
  match Spec.cut path with
  | Some (p, r) => (Some p, Some r)
  | None => (None, None)
  end.
Proof.
  unfold ImageRouter.extractProjectAndPath. rewrite length_split_cut.
  destruct (Spec.cut path) as [[p r]|] eqn:E; [|reflexivity].
  rewrite (split_cut_some _ _ _ E). cbn [hd Js.slice1 tl].
  now rewrite join_split.
Qed.

(** The query-string image handler answers 400 exactly when the event has
    no raw path, or the raw path without its first character does not
    decompose into a project and an object path; it then makes no call. *)
Theorem router_bad_request
        (W : Type) (o : Oracle W) (w : W) (ev : Event) :
  let res := run o (ImageRouter.handler ev) w in
  (status res = Some 400 <-> raw_route ev = None)
  /\ (raw_route ev = None -> trace res = []).
Proof.
  cbv zeta. unfold status.
  apply (run_always o _
    (fun t out =>
       (match out with
        | Returned resp => Some (statusCode resp)
        | Uncaught _ => None
        end = Some 400 <-> raw_route ev = None)
       /\ (raw_route ev = None -> t = []))).
  unfold raw_route, ImageRouter.handler, ImageRouter.parseRequest.
  destruct (rawPath ev) as [raw|]; [|cbn; now repeat split].
  destruct (Js.truthy raw); [|cbn; now repeat split].
  cbn [negb ImageRouter.path]. rewrite extractProjectAndPath_cut.
  unfold Spec.decompose.
  destruct (Spec.cut (Js.substring1 raw)) as [[p r]|]; [|cbn; now repeat split].
  destruct (Js.truthy p), (Js.truthy r); cbn [andb negb orb];
    try (cbn; now repeat split).
  destruct (Config.project_bucket p); [|cbn; now repeat split].
  unfold ImageRouter.transformImage.
  explore; (split; [split|]; discriminate).
Qed.

Lemma router_bad_request_witness :
  trace (run (S3.world (S3.setup "png"))
             (ImageRouter.handler (url_event None "GET" "/geerly" []))
             (store_with "photos/a.png")) = [].
Proof.
  apply (proj2 (router_bad_request _ (S3.world (S3.setup "png"))
                  (store_with "photos/a.png") (url_event None "GET" "/geerly" []))).
  reflexivity.
Defined.

(** The query-string image handler always answers, with one of the
    statuses 200, 400, 404 and 500; it reads the store at most once and
    never probes it or writes to it. *)
Theorem router_always_answers
        (W : Type) (o : Oracle W) (w : W) (ev : Event) :
  let res := run o (ImageRouter.handler ev) w in
  (exists r, outcome res = Returned r /\ In (statusCode r) [200; 400; 404; 500])
  /\ (store_calls (trace res) <= 1)%nat
  /\ probed (trace res) = None
  /\ written (trace res) = None.
Proof.
  cbv zeta.
  apply (run_always o _
    (fun t out =>
       (exists r, out = Returned r /\ In (statusCode r) [200; 400; 404; 500])
       /\ (store_calls t <= 1)%nat /\ probed t = None /\ written t = None)).
  unfold ImageRouter.handler.
  destruct (ImageRouter.parseRequest ev) as [req|];
    [|cbn; split; [eexists; split; [reflexivity | cbn; tauto] | repeat split; lia]].
  destruct (ImageRouter.extractProjectAndPath _) as [[p|] [r|]];
    try (cbn; split; [eexists; split; [reflexivity | cbn; tauto] | repeat split; lia]).
  destruct (negb (Js.truthy p) || negb (Js.truthy r))%bool;
    [cbn; split; [eexists; split; [reflexivity | cbn; tauto] | repeat split; lia]|].
  destruct (Config.project_bucket p);
    [|cbn; split; [eexists; split; [reflexivity | cbn; tauto] | repeat split; lia]].
  unfold ImageRouter.transformImage.
  explore;
    (split; [eexists; split; [reflexivity | cbn; tauto]
            | repeat split; cbn; lia]).
Qed.

(** Every failure of the source fetch, whatever its kind, is logged and
    answered 404 "Image not found" with the key that was asked for. *)
Theorem router_fetch_failure_is_404
        (W : Type) (o : Oracle W) (w : W) (ev : Event) (e : JsError) :
  let res := run o (ImageRouter.handler ev) w in
  fetch_fault (trace res) = Some e ->
  exists b key,
    fetched (trace res) = Some (b, key)
    /\ outcome res = Returned (error_response 404 ("Image not found: " +:+ key))
    /\ logged "Error fetching image from S3:" (message e) (trace res) = true.
Proof.
  cbv zeta. revert e.
  apply (run_always o _
    (fun t out => forall e, fetch_fault t = Some e ->
       exists b key,
         fetched t = Some (b, key)
         /\ out = Returned (error_response 404 ("Image not found: " +:+ key))
         /\ logged "Error fetching image from S3:" (message e) t = true)).
  unfold ImageRouter.handler.
  destruct (ImageRouter.parseRequest ev) as [req|]; [|cbn; discriminate].
  destruct (ImageRouter.extractProjectAndPath _) as [[p|] [r|]];
    try (cbn; discriminate).
  destruct (negb (Js.truthy p) || negb (Js.truthy r))%bool; [cbn; discriminate|].
  destruct (Config.project_bucket p) as [b|]; [|cbn; discriminate].
  unfold ImageRouter.transformImage.
  explore;
    try match goal with
      | H : None = Some _ |- _ => discriminate H
      end;
    match goal with
    | H : Some _ = Some _ |- _ => injection H as <-
    end;
    do 2 eexists; repeat split; cbn; now rewrite String.eqb_refl.
Qed.

Lemma router_fetch_failure_is_404_witness :
  exists b key,
    fetched (trace (run (S3.world (S3.with_get_fault access_denied (S3.setup "jpeg")))
                        (ImageRouter.handler
                           (url_event None "GET" "/geerly/photos/a.png" []))
                        (store_with "photos/a.png"))) = Some (b, key)
    /\ outcome (run (S3.world (S3.with_get_fault access_denied (S3.setup "jpeg")))
                    (ImageRouter.handler
                       (url_event None "GET" "/geerly/photos/a.png" []))
                    (store_with "photos/a.png"))
       = Returned (error_response 404 ("Image not found: " +:+ key))
    /\ logged "Error fetching image from S3:" (message access_denied)
              (trace (run (S3.world (S3.with_get_fault access_denied
                                       (S3.setup "jpeg")))
                          (ImageRouter.handler
                             (url_event None "GET" "/geerly/photos/a.png" []))
                          (store_with "photos/a.png"))) = true.
Proof.
  apply (router_fetch_failure_is_404 _
           (S3.world (S3.with_get_fault access_denied (S3.setup "jpeg")))
           (store_with "photos/a.png")
           (url_event None "GET" "/geerly/photos/a.png" []) access_denied).
  vm_compute. reflexivity.
Defined.

(** The content type of a 200 answer names the format that was asked for
    (jpeg when none was), whether or not the handler supports it; the
    encoder is the one of that format only when it is one of the supported
    formats, and the JPEG encoder otherwise. *)
Theorem router_content_type_follows_request
        (W : Type) (o : Oracle W) (w : W) (ev : Event)
        (req : ImageRouter.ImageRequest) (r : Response) :
  let res := run o (ImageRouter.handler ev) w in
  ImageRouter.parseRequest ev = Some req ->
  outcome res = Returned r ->
  statusCode r = 200 ->
  header "Content-Type" (resp_headers r)
  = Some (HString ("image/" +:+
                   Js.or_default (ImageRouter.format (ImageRouter.params req)) "jpeg"))
  /\ exists p e,
       encode_requested (trace res) = Some p
       /\ encoder p = Some e
       /\ encoder_format e
          = if listed (ImageRouter.format (ImageRouter.params req))
                      Config.SUPPORTED_FORMATS
            then Js.or_default (ImageRouter.format (ImageRouter.params req)) "jpeg"
            else "jpeg".
Proof.
  cbv zeta. intros Hreq. revert r.
  apply (run_always o _
    (fun t out => forall r, out = Returned r -> statusCode r = 200 ->
       header "Content-Type" (resp_headers r)
       = Some (HString ("image/" +:+
                        Js.or_default (ImageRouter.format (ImageRouter.params req))
                                      "jpeg"))
       /\ exists p e,
            encode_requested t = Some p
            /\ encoder p = Some e
            /\ encoder_format e
               = if listed (ImageRouter.format (ImageRouter.params req))
                           Config.SUPPORTED_FORMATS
                 then Js.or_default (ImageRouter.format (ImageRouter.params req))
                                    "jpeg"
                 else "jpeg")).
  unfold ImageRouter.handler. rewrite Hreq.
  destruct (ImageRouter.extractProjectAndPath _) as [[p|] [rest|]];
    try (cbn; now intros ? [= <-]).
  destruct (negb (Js.truthy p) || negb (Js.truthy rest))%bool;
    [cbn; now intros ? [= <-]|].
  destruct (Config.project_bucket p) as [b|]; [|cbn; now intros ? [= <-]].
  unfold ImageRouter.transformImage, ImageRouter.output_format, listed.
  destruct (ImageRouter.format (ImageRouter.params req)) as [f|];
    explore;
    match goal with
    | H : Returned _ = Returned _ |- _ => injection H as <-
    | H : Uncaught _ = Returned _ |- _ => discriminate H
    end;
    match goal with
    | H : statusCode _ = 200 |- _ => cbn in H; try discriminate H
    end;
    split_ors; subst; try discriminate; try congruence;
    (split; [reflexivity|]);
    do 2 eexists; (split; [reflexivity|]); (split; [reflexivity|]);
    cbn; try reflexivity;
    repeat match goal with
      | H : ?x <> ?y |- _ => rewrite (proj2 (String.eqb_neq x y) H)
      end; try reflexivity; try congruence.
Qed.

Lemma router_content_type_follows_request_witness :
  exists r p e,
    outcome (run (S3.world (S3.setup "png"))
                 (ImageRouter.handler
                    (url_event None "GET" "/geerly/photos/a.png" [("format", "GIF")]))
                 (store_with "photos/a.png")) = Returned r
    /\ header "Content-Type" (resp_headers r) = Some (HString "image/gif")
    /\ encode_requested
         (trace (run (S3.world (S3.setup "png"))
                     (ImageRouter.handler
                        (url_event None "GET" "/geerly/photos/a.png"
                                   [("format", "GIF")]))
                     (store_with "photos/a.png"))) = Some p
    /\ encoder p = Some e
    /\ encoder_format e = "jpeg".
Proof.
  pose (ev := url_event None "GET" "/geerly/photos/a.png" [("format", "GIF")]).
  pose (req := {| ImageRouter.path := "geerly/photos/a.png";
                  ImageRouter.params :=
                    {| ImageRouter.width := None; ImageRouter.height := None;
                       ImageRouter.quality := None;
                       ImageRouter.format := Some "gif" |} |}).
  pose (r := {| statusCode := 200;
                resp_headers := [ ("Content-Type", HString "image/gif");
                                  ("Cache-Control", HString Config.CACHE_TTL) ];
                resp_body := Some (Base64Body (bytes3 ++ [Byte.x01])%list);
                isBase64Encoded := true |}).
  assert (H1 : ImageRouter.parseRequest ev = Some req) by (vm_compute; reflexivity).
  assert (H2 : outcome (run (S3.world (S3.setup "png")) (ImageRouter.handler ev)
                            (store_with "photos/a.png")) = Returned r)
    by (vm_compute; reflexivity).
  destruct (router_content_type_follows_request _ (S3.world (S3.setup "png"))
              (store_with "photos/a.png") ev req r H1 H2 eq_refl)
    as (Hh & p & e & Hp & He & Hf).
  exists r, p, e. repeat split; assumption.
Defined.

(** The query-string image handler does not check the range of the
    quality: every non-zero integer quality reaches a lossy encoder
    unchanged. *)
Theorem router_quality_unchecked
        (W : Type) (o : Oracle W) (w : W) (ev : Event)
        (req : ImageRouter.ImageRequest) (q : Z) (p : Pipeline) (e : Encoder) :
  let res := run o (ImageRouter.handler ev) w in
  ImageRouter.parseRequest ev = Some req ->
  ImageRouter.quality (ImageRouter.params req) = Some (Js.Num q) ->
  q <> 0 ->
  encode_requested (trace res) = Some p ->
  encoder p = Some e ->
  encoder_format e <> "png" ->
  encoder_quality e = Some (Js.Num q).
Proof.
  cbv zeta. intros Hreq Hq Hq0. revert p e.
  apply (run_always o _
    (fun t out => forall p e, encode_requested t = Some p ->
       encoder p = Some e -> encoder_format e <> "png" ->
       encoder_quality e = Some (Js.Num q))).
  unfold ImageRouter.handler. rewrite Hreq.
  destruct (ImageRouter.extractProjectAndPath _) as [[pr|] [rest|]];
    try (cbn; discriminate).
  destruct (negb (Js.truthy pr) || negb (Js.truthy rest))%bool; [cbn; discriminate|].
  destruct (Config.project_bucket pr) as [b|]; [|cbn; discriminate].
  unfold ImageRouter.transformImage, ImageRouter.output_quality. rewrite Hq.
  cbn [Js.truthy_num]. apply Z.eqb_neq in Hq0. rewrite Hq0. cbn [negb].
  explore;
    try match goal with
      | H : None = Some _ |- _ => discriminate H
      end;
    match goal with
    | H : Some _ = Some _ |- _ => injection H as <-
    end;
    repeat match goal with
      | H : context [if ?c then _ else _] |- _ => destruct c eqn:?
      end;
    match goal with
    | H : encoder _ = Some _ |- _ => cbn in H; try discriminate H; injection H as <-
    end;
    cbn in *; congruence.
Qed.

Lemma router_quality_unchecked_witness :
  encoder_quality (Jpeg (Js.Num 1000)) = Some (Js.Num 1000).
Proof.
  apply (router_quality_unchecked _ (S3.world (S3.setup "png"))
           (store_with "photos/a.png")
           (url_event None "GET" "/geerly/photos/a.png" [("quality", "1000")])
           {| ImageRouter.path := "geerly/photos/a.png";
              ImageRouter.params :=
                {| ImageRouter.width := None; ImageRouter.height := None;
                   ImageRouter.quality := Some (Js.Num 1000);
                   ImageRouter.format := None |} |}
           1000
           (with_encoder (Jpeg (Js.Num 1000)) (sharp bytes3 false))).
  - vm_compute. reflexivity.
  - reflexivity.
  - discriminate.
  - vm_compute. reflexivity.
  - reflexivity.
  - cbn. discriminate.
Defined.

End ImageRouterFacts.

(* ===================================================================== *)
(** * The path-operations image handler *)
(* ===================================================================== *)

Section ImageTransformFacts.
Import Lambda Samples Observe Faults.
Local Open Scope string_scope.

(** A property of every trace and outcome holds of every run. *)
Lemma always_intro {A : Type} (P : list Step -> Outcome A -> Prop) (p : Prog A) :
  (forall t out, P t out) -> always P p.
Proof.
  revert P. induction p as [a | e | X ev k IH]; intros P H; cbn; auto.
Qed.

Lemma split_snoc (c : ascii) (s t : string) :
  Js.includes c t = false ->
  Js.split c (s +:+ String c t) = (Js.split c s ++ [t])%list.
Proof.
  intros Ht. induction s as [|a s IH].
  - simpl. rewrite Ascii.eqb_refl. f_equal.
    clear -Ht. induction t as [|d t IH]; [reflexivity|].
    simpl in *. apply orb_false_iff in Ht as [Hd Ht].
    rewrite Hd, (IH Ht). reflexivity.
  - simpl. rewrite IH. destruct (Ascii.eqb a c); [reflexivity|].
    pose proof (split_not_nil c s). destruct (Js.split c s); [congruence|].
    reflexivity.
Qed.

Lemma includes_part (c d : ascii) (s x : string) :
  In x (Js.split c s) -> Js.includes d x = true -> Js.includes d s = true.
Proof.
  revert x. induction s as [|a s IH]; intros x.
  - simpl. intros [<- | []]. discriminate.
  - simpl. destruct (Ascii.eqb a c) eqn:E.
    + intros [<- | Hin]; [discriminate|]. intros Hx.
      rewrite (IH x Hin Hx). apply orb_true_r.
    + pose proof (split_not_nil c s) as Hne.
      destruct (Js.split c s) as [|h l] eqn:Hs; [congruence|].
      intros [<- | Hin]; simpl.
      * intros Hx. apply orb_true_iff in Hx as [Hx | Hx].
        -- now rewrite Hx.
        -- rewrite (IH h (or_introl eq_refl) Hx). apply orb_true_r.
      * intros Hx. rewrite (IH x (or_intror Hin) Hx). apply orb_true_r.
Qed.

Lemma last_in (l : list string) : l <> [] -> In (List.last l EmptyString) l.
Proof.
  induction l as [|x l IH]; [congruence|]. intros _.
  destruct l as [|y l]; [now left|]. right. apply IH. discriminate.
Qed.

Lemma parse_path_plain (path : string) :
  Js.includes "=" path = false ->
  ImageTransform.parse_path path = (Js.substring1 path, []).
Proof.
  intros Hp. unfold ImageTransform.parse_path.
  destruct (Js.includes "=" (List.last (Js.split "/" (Js.substring1 path)) EmptyString))
    eqn:E.
  - exfalso.
    assert (H : Js.includes "=" (Js.substring1 path) = true).
    { eapply includes_part; [|exact E]. apply last_in, split_not_nil. }
    destruct path as [|a path]; [discriminate|]. simpl in *.
    rewrite H in Hp. now rewrite orb_true_r in Hp.
  - now rewrite join_split.
Qed.

Lemma parse_path_operations (c : ascii) (img ops : string) :
  Js.includes "/" ops = false ->
  Js.includes "=" ops = true ->
  ImageTransform.parse_path (String c (img +:+ String "/" ops))
  = (img, ImageTransform.parseOperations ops).
Proof.
  intros Hs He. unfold ImageTransform.parse_path.
  cbn [Js.substring1]. rewrite (split_snoc "/"%char img ops Hs).
  rewrite List.last_last, He, List.removelast_last. now rewrite join_split.
Qed.

(** How the path-operations handler reads a path.  A path with no [=]
    names an image and no operation; in a path whose last segment holds an
    [=], that segment is the operations and what precedes it (without the
    first character of the path) is the image. *)
Theorem parse_path_shape :
  (forall path : string,
      Js.includes "=" path = false ->
      ImageTransform.parse_path path = (Js.substring1 path, []))
  /\ (forall (c : ascii) (img ops : string),
         Js.includes "/" ops = false ->
         Js.includes "=" ops = true ->
         ImageTransform.parse_path (String c (img +:+ String "/" ops))
         = (img, ImageTransform.parseOperations ops)).
Proof. split; [exact parse_path_plain | exact parse_path_operations]. Qed.

Lemma parse_path_shape_witness :
  ImageTransform.parse_path "/photos/a.png/width=300,format=webp"
  = ("photos/a.png", ImageTransform.parseOperations "width=300,format=webp").
Proof.
  apply (proj2 parse_path_shape "/"%char "photos/a.png" "width=300,format=webp");
    reflexivity.
Defined.

(** The method is checked before the origin: a request that is not a GET
    is answered 400 whatever its headers, and a GET without the trusted
    marker 403; neither reaches the store or the codec. *)
Theorem transform_method_then_origin
        (W : Type) (o : Oracle W) (w : W) (env : ProcessEnv) (ev : Event) :
  let res := run o (ImageTransform.handler env ev) w in
  (ImageTransform.is_get ev = false ->
   status res = Some 400
   /\ store_calls (trace res) = 0%nat /\ transform_calls (trace res) = 0%nat)
  /\ (ImageTransform.is_get ev = true ->
      ImageTransform.origin_rejected ev = true ->
      status res = Some 403
      /\ store_calls (trace res) = 0%nat /\ transform_calls (trace res) = 0%nat).
Proof.
  cbv zeta. unfold status.
  apply (run_always o _
    (fun t out =>
       (ImageTransform.is_get ev = false ->
        match out with Returned r => Some (statusCode r) | Uncaught _ => None end
        = Some 400
        /\ store_calls t = 0%nat /\ transform_calls t = 0%nat)
       /\ (ImageTransform.is_get ev = true ->
           ImageTransform.origin_rejected ev = true ->
           match out with Returned r => Some (statusCode r) | Uncaught _ => None end
           = Some 403
           /\ store_calls t = 0%nat /\ transform_calls t = 0%nat))).
  unfold ImageTransform.handler.
  destruct (ImageTransform.is_get ev); cbn [negb];
    [|explore; split; [now repeat split | discriminate]].
  destruct (ImageTransform.origin_rejected ev);
    [explore; split; [discriminate | now repeat split]|].
  apply always_intro. intros t out. split; discriminate.
Qed.

Lemma transform_method_then_origin_witness :
  status (run (S3.world (S3.setup "png"))
              (ImageTransform.handler (image_env "4")
                 (url_event None "POST" "/photos/a.png" []))
              (store_with "photos/a.png")) = Some 400.
Proof.
  apply (proj1 (transform_method_then_origin _ (S3.world (S3.setup "png"))
                  (store_with "photos/a.png") (image_env "4")
                  (url_event None "POST" "/photos/a.png" []))).
  vm_compute. reflexivity.
Defined.

(** What the path-operations handler writes back is the artifact itself,
    to the derivative bucket, with the configured cache control; and a 200
    answer that follows carries the same bytes under the content type the
    derivative was stored with. *)
Theorem transform_writes_the_artifact
        (W : Type) (o : Oracle W) (w : W) (env : ProcessEnv) (ev : Event)
        (wr : Write) :
  let res := run o (ImageTransform.handler env ev) w in
  written (trace res) = Some wr ->
  exists p b,
    artifact (trace res) = Some (p, bytes wr)
    /\ ImageTransform.S3_TRANSFORMED_IMAGE_BUCKET env = Some b
    /\ to_bucket wr = BucketName b
    /\ cache_control wr = ImageTransform.TRANSFORMED_IMAGE_CACHE_TTL env
    /\ forall r, outcome res = Returned r -> statusCode r = 200 ->
                 resp_body r = Some (Base64Body (bytes wr))
                 /\ header "Content-Type" (resp_headers r)
                    = Some (of_option (as_type wr)).
Proof.
  cbv zeta. revert wr.
  apply (run_always o _
    (fun t out => forall wr, written t = Some wr ->
       exists p b,
         artifact t = Some (p, bytes wr)
         /\ ImageTransform.S3_TRANSFORMED_IMAGE_BUCKET env = Some b
         /\ to_bucket wr = BucketName b
         /\ cache_control wr = ImageTransform.TRANSFORMED_IMAGE_CACHE_TTL env
         /\ forall r, out = Returned r -> statusCode r = 200 ->
                      resp_body r = Some (Base64Body (bytes wr))
                      /\ header "Content-Type" (resp_headers r)
                         = Some (of_option (as_type wr)))).
  unfold ImageTransform.handler, ImageTransform.deliver, ImageTransform.upload.
  destruct (ImageTransform.is_get ev); [|explore; discriminate].
  destruct (ImageTransform.origin_rejected ev); [explore; discriminate|].
  destruct (ImageTransform.request_path ev) as [path|]; [|explore; discriminate].
  destruct (negb (Js.truthy path) || String.eqb path "/")%bool; [explore; discriminate|].
  destruct (ImageTransform.parse_path path) as [imagePath operations].
  destruct (Js.truthy imagePath); [|explore; discriminate].
  unfold ImageTransform.download, ImageTransform.transform.
  cbn [negb].
  destruct (ImageTransform.S3_TRANSFORMED_IMAGE_BUCKET env) as [tb|] eqn:Htb;
    explore;
    try match goal with
      | H : None = Some _ |- _ => discriminate H
      end;
    match goal with
    | H : Some _ = Some _ |- _ => injection H as <-
    end;
    do 2 eexists; repeat split; try reflexivity;
    match goal with
    | H : Returned _ = Returned _ |- _ => injection H as <-
    end;
    match goal with
    | H : statusCode _ = 200 |- _ => cbn in H; try discriminate H
    end;
    reflexivity.
Qed.

Lemma transform_writes_the_artifact_witness :
  exists p b,
    artifact (trace (run (S3.world (S3.setup "png"))
                         (ImageTransform.handler (image_env "4")
                            (url_event (Some trusted) "GET"
                                       "/photos/a.png/format=webp" []))
                         (store_with "photos/a.png")))
    = Some (p, (bytes3 ++ [Byte.x06])%list)
    /\ ImageTransform.S3_TRANSFORMED_IMAGE_BUCKET (image_env "4") = Some b.
Proof.
  destruct (transform_writes_the_artifact _ (S3.world (S3.setup "png"))
              (store_with "photos/a.png") (image_env "4")
              (url_event (Some trusted) "GET" "/photos/a.png/format=webp" [])
              {| to_bucket := BucketName "derivatives";
                 to_key := "photos/a.png/format=webp";
                 bytes := (bytes3 ++ [Byte.x06])%list;
                 as_type := Some "image/webp";
                 cache_control := Some "public, max-age=31536000" |}
              ltac:(vm_compute; reflexivity))
    as (p & b & Ha & Hb & _).
  exists p, b. split; assumption.
Defined.

(** The path-operations handler lets an exception escape exactly when the
    reading of the fetched body fails, when the constructor of the codec
    refuses the bytes (an empty body, for one), or when the codec cannot
    read the metadata of the image: the three steps that stand outside
    every [try].  Every other failure is turned into an answer. *)
Theorem transform_uncaught
        (W : Type) (o : Oracle W) (w : W) (env : ProcessEnv) (ev : Event)
        (e : JsError) :
  let res := run o (ImageTransform.handler env ev) w in
  outcome res = Uncaught e
  <-> stream_fault (trace res) = Some e
      \/ constructor_fault (trace res) = Some e
      \/ metadata_fault (trace res) = Some e.
Proof.
  cbv zeta. revert e.
  apply (run_always o _
    (fun t out => forall e,
       out = Uncaught e
       <-> stream_fault t = Some e \/ constructor_fault t = Some e
           \/ metadata_fault t = Some e)).
  unfold ImageTransform.handler, ImageTransform.deliver, ImageTransform.upload.
  destruct (ImageTransform.is_get ev);
    [|explore; split; [discriminate | intros [H | [H | H]]; discriminate H]].
  destruct (ImageTransform.origin_rejected ev);
    [explore; split; [discriminate | intros [H | [H | H]]; discriminate H]|].
  destruct (ImageTransform.request_path ev) as [path|];
    [|explore; split; [discriminate | intros [H | [H | H]]; discriminate H]].
  destruct (negb (Js.truthy path) || String.eqb path "/")%bool;
    [explore; split; [discriminate | intros [H | [H | H]]; discriminate H]|].
  destruct (ImageTransform.parse_path path) as [imagePath operations].
  destruct (Js.truthy imagePath);
    [|explore; split; [discriminate | intros [H | [H | H]]; discriminate H]].
  unfold ImageTransform.download, ImageTransform.transform.
  cbn [negb].
  explore;
    (split;
     [ intros H; first [discriminate H | injection H as <-; auto]
     | intros [H | [H | H]];
       first [discriminate H | injection H as <-; reflexivity] ]).
Qed.

(** An empty source object: the constructor refuses it and the exception
    escapes the handler. *)
Example transform_empty_source_escapes :
  outcome (run (S3.world (S3.setup "png"))
               (ImageTransform.handler (image_env "4")
                  (url_event (Some trusted) "GET" "/photos/a.png" []))
               (store_with_empty "photos/a.png"))
  = Uncaught (Error "Input Buffer is empty").
Proof. vm_compute. reflexivity. Qed.

Lemma eqb_slash (c : ascii) (img ops : string) :
  String.eqb (String c (img +:+ String "/" ops)) "/" = false.
Proof.
  apply String.eqb_neq. intros H. injection H as _ H.
  destruct img; discriminate H.
Qed.

(** For a request [/{image}/{operations}] with plain operations, the
    derivative is written under the request path itself (without its
    first character), and a redirection points at [/{image}?{operations}]. *)
Theorem transform_key_is_request_path
        (W : Type) (o : Oracle W) (w : W) (env : ProcessEnv) (ev : Event)
        (c : ascii) (img ops : string) :
  let res := run o (ImageTransform.handler env ev) w in
  ImageTransform.request_path ev = Some (String c (img +:+ String "/" ops)) ->
  Js.includes "/" ops = false ->
  Js.includes "=" ops = true ->
  Spec.plain_operations ops = true ->
  (forall wr, written (trace res) = Some wr -> to_key wr = img +:+ String "/" ops)
  /\ (forall r, outcome res = Returned r -> statusCode r = 302 ->
                header "Location" (resp_headers r)
                = Some (HString ("/" +:+ img +:+ "?" +:+ ops))).
Proof.
  cbv zeta. intros Hpath Hs He Hplain.
  apply (run_always o _
    (fun t out =>
       (forall wr, written t = Some wr -> to_key wr = img +:+ String "/" ops)
       /\ (forall r, out = Returned r -> statusCode r = 302 ->
                     header "Location" (resp_headers r)
                     = Some (HString ("/" +:+ img +:+ "?" +:+ ops))))).
  unfold ImageTransform.handler, ImageTransform.deliver, ImageTransform.upload,
    ImageTransform.redirect_response, ImageTransform.location,
    ImageTransform.derivativeKey.
  rewrite Hpath, (parse_path_operations c img ops Hs He).
  rewrite (serialize_parse ops Hplain).
  cbn [Js.truthy negb orb]. rewrite eqb_slash.
  destruct (ImageTransform.is_get ev);
    [|explore; split; [discriminate | now intros ? [= <-]]].
  destruct (ImageTransform.origin_rejected ev);
    [explore; split; [discriminate | now intros ? [= <-]]|].
  destruct (Js.truthy img); [|explore; split; [discriminate | now intros ? [= <-]]].
  unfold ImageTransform.download, ImageTransform.transform.
  cbn [negb].
  explore;
    (split;
     [ intros wr Hw; first [discriminate Hw | injection Hw as <-; reflexivity]
     | intros r Hr; first [discriminate Hr | injection Hr as <-];
       cbn; intros Hc; first [discriminate Hc | reflexivity] ]).
Qed.

Lemma transform_key_is_request_path_witness :
  exists wr,
    written (trace (run (S3.world (S3.setup "png"))
                        (ImageTransform.handler (image_env "3")
                           (url_event (Some trusted) "GET"
                                      "/photos/a.png/format=webp,width=300" []))
                        (store_with "photos/a.png"))) = Some wr
    /\ to_key wr = "photos/a.png/format=webp,width=300".
Proof.
  eexists. split; [vm_compute; reflexivity|].
  apply (proj1 (transform_key_is_request_path _ (S3.world (S3.setup "png"))
                  (store_with "photos/a.png") (image_env "3")
                  (url_event (Some trusted) "GET"
                             "/photos/a.png/format=webp,width=300" [])
                  "/"%char "photos/a.png" "format=webp,width=300"
                  ltac:(vm_compute; reflexivity) ltac:(vm_compute; reflexivity)
                  ltac:(vm_compute; reflexivity) ltac:(vm_compute; reflexivity))).
  vm_compute. reflexivity.
Defined.

(** When the store rejects the fetch, the answer is 404 and its body
    carries, besides "Image not found" and the key, the message of the
    store's own exception. *)
Theorem transform_fetch_rejection
        (W : Type) (o : Oracle W) (w : W) (env : ProcessEnv) (ev : Event)
        (e : JsError) :
  let res := run o (ImageTransform.handler env ev) w in
  get_rejection (trace res) = Some e ->
  Js.truthy (message e) = true ->
  exists b key,
    fetched (trace res) = Some (b, key)
    /\ outcome res
       = Returned {| statusCode := 404;
                     resp_headers := [];
                     resp_body :=
                       Some (JsonBody
                               [ ("message", JString ("Image not found: " +:+ key));
                                 ("error", JString (message e)) ]);
                     isBase64Encoded := false |}.
Proof.
  cbv zeta. revert e.
  apply (run_always o _
    (fun t out => forall e, get_rejection t = Some e ->
       Js.truthy (message e) = true ->
       exists b key,
         fetched t = Some (b, key)
         /\ out
            = Returned {| statusCode := 404;
                          resp_headers := [];
                          resp_body :=
                            Some (JsonBody
                                    [ ("message",
                                       JString ("Image not found: " +:+ key));
                                      ("error", JString (message e)) ]);
                          isBase64Encoded := false |})).
  unfold ImageTransform.handler, ImageTransform.deliver, ImageTransform.upload.
  destruct (ImageTransform.is_get ev); [|explore; discriminate].
  destruct (ImageTransform.origin_rejected ev); [explore; discriminate|].
  destruct (ImageTransform.request_path ev) as [path|]; [|explore; discriminate].
  destruct (negb (Js.truthy path) || String.eqb path "/")%bool; [explore; discriminate|].
  destruct (ImageTransform.parse_path path) as [imagePath operations].
  destruct (Js.truthy imagePath); [|explore; discriminate].
  unfold ImageTransform.download, ImageTransform.transform.
  cbn [negb].
  explore;
    try match goal with
      | H : None = Some _ |- _ => discriminate H
      end;
    match goal with
    | H : Some _ = Some _ |- _ => injection H as <-
    end;
    try match goal with
      | H : Js.truthy (_ +:+ _) = false |- _ => simpl in H; discriminate H
      end;
    try congruence;
    do 2 eexists; split; reflexivity.
Qed.

Lemma transform_fetch_rejection_witness :
  exists b key,
    fetched (trace (run (S3.world (S3.with_get_fault access_denied (S3.setup "png")))
                        (ImageTransform.handler (image_env "4")
                           (url_event (Some trusted) "GET" "/photos/a.png" []))
                        (store_with "photos/a.png"))) = Some (b, key)
    /\ outcome (run (S3.world (S3.with_get_fault access_denied (S3.setup "png")))
                    (ImageTransform.handler (image_env "4")
                       (url_event (Some trusted) "GET" "/photos/a.png" []))
                    (store_with "photos/a.png"))
       = Returned {| statusCode := 404;
                     resp_headers := [];
                     resp_body :=
                       Some (JsonBody
                               [ ("message", JString ("Image not found: " +:+ key));
                                 ("error", JString (message access_denied)) ]);
                     isBase64Encoded := false |}.
Proof.
  apply (transform_fetch_rejection _
           (S3.world (S3.with_get_fault access_denied (S3.setup "png")))
           (store_with "photos/a.png") (image_env "4")
           (url_event (Some trusted) "GET" "/photos/a.png" []) access_denied);
    vm_compute; reflexivity.
Defined.

(** The content type of a 200 answer of the path-operations handler.
    With a [format] operation it is [image/] followed by the format for
    jpeg, gif, webp, png and avif, and [image/jpeg] for every other
    format, although the encoder is asked for the format as given.
    Without one it is the content type the store reported for the source,
    with [image/svg+xml] replaced by [image/png]. *)
Theorem transform_content_type
        (W : Type) (o : Oracle W) (w : W) (env : ProcessEnv) (ev : Event)
        (path : string) (r : Response) :
  let res := run o (ImageTransform.handler env ev) w in
  ImageTransform.request_path ev = Some path ->
  outcome res = Returned r ->
  statusCode r = 200 ->
  match Js.get_truthy "format" (snd (ImageTransform.parse_path path)) with
  | Some f =>
      header "Content-Type" (resp_headers r)
      = Some (HString (if existsb (String.eqb f) ["jpeg"; "gif"; "webp"; "png"; "avif"]
                       then "image/" +:+ f else "image/jpeg"))
      /\ exists p q, encode_requested (trace res) = Some p
                     /\ encoder p = Some (ToFormat f q)
  | None =>
      exists out p,
        fetch_output (trace res) = Some out
        /\ header "Content-Type" (resp_headers r)
           = Some (match ContentType out with
                   | Some ct => HString (if String.eqb ct "image/svg+xml"
                                         then "image/png" else ct)
                   | None => HUndefined
                   end)
        /\ encode_requested (trace res) = Some p
        /\ encoder p = None
  end.
Proof.
  cbv zeta. intros Hpath. revert r.
  apply (run_always o _
    (fun t out => forall r, out = Returned r -> statusCode r = 200 ->
       match Js.get_truthy "format" (snd (ImageTransform.parse_path path)) with
       | Some f =>
           header "Content-Type" (resp_headers r)
           = Some (HString (if existsb (String.eqb f)
                                       ["jpeg"; "gif"; "webp"; "png"; "avif"]
                            then "image/" +:+ f else "image/jpeg"))
           /\ exists p q, encode_requested t = Some p
                          /\ encoder p = Some (ToFormat f q)
       | None =>
           exists out p,
             fetch_output t = Some out
             /\ header "Content-Type" (resp_headers r)
                = Some (match ContentType out with
                        | Some ct => HString (if String.eqb ct "image/svg+xml"
                                              then "image/png" else ct)
                        | None => HUndefined
                        end)
             /\ encode_requested t = Some p
             /\ encoder p = None
       end)).
  unfold ImageTransform.handler, ImageTransform.deliver, ImageTransform.upload.
  rewrite Hpath.
  destruct (ImageTransform.is_get ev); [|cbn; intros ? ? ? [= <-] Hs; discriminate Hs].
  destruct (ImageTransform.origin_rejected ev);
    [cbn; intros ? ? ? [= <-] Hs; discriminate Hs|].
  destruct (negb (Js.truthy path) || String.eqb path "/")%bool;
    [cbn; intros ? ? ? [= <-] Hs; discriminate Hs|].
  destruct (ImageTransform.parse_path path) as [imagePath operations].
  destruct (Js.truthy imagePath); [|cbn; intros ? ? ? [= <-] Hs; discriminate Hs].
  unfold ImageTransform.download, ImageTransform.transform,
    ImageTransform.build_pipeline, ImageTransform.format_info.
  cbn [negb snd].
  destruct (Js.get_truthy "format" operations) as [f|] eqn:Hf.
  - destruct (Js.get_truthy "quality" operations) as [q|];
      repeat match goal with
        | |- context [if String.eqb f ?s then _ else _] =>
            destruct (String.eqb f s) eqn:?
        end;
      explore;
      match goal with
      | H : Returned _ = Returned _ |- _ => injection H as <-
      | H : Uncaught _ = Returned _ |- _ => discriminate H
      end;
      match goal with
      | H : statusCode _ = 200 |- _ => cbn in H; try discriminate H
      end;
      (split; [|do 2 eexists; split; reflexivity]);
      split_ors; subst; solve [reflexivity | congruence].
  - explore;
      match goal with
      | H : Returned _ = Returned _ |- _ => injection H as <-
      | H : Uncaught _ = Returned _ |- _ => discriminate H
      end;
      match goal with
      | H : statusCode _ = 200 |- _ => cbn in H; try discriminate H
      end;
      do 2 eexists; repeat split; cbn;
      repeat match goal with
        | H : ContentType _ = _ |- _ => rewrite H
        | |- context [if ?c then _ else _] => destruct c
        end; reflexivity.
Qed.

Lemma transform_content_type_witness :
  header "Content-Type"
         (resp_headers
            {| statusCode := 200;
               resp_headers :=
                 [ ("Content-Type", HString "image/jpeg");
                   ("Cache-Control", HString "public, max-age=31536000");
                   ("Server-Timing", HTiming ["img-download"; "img-upload"]) ];
               resp_body := Some (Base64Body (bytes3 ++ [Byte.x06])%list);
               isBase64Encoded := true |})
  = Some (HString "image/jpeg")
  /\ exists p q,
       encode_requested
         (trace (run (S3.world (S3.setup "png"))
                     (ImageTransform.handler (image_env "4")
                        (url_event (Some trusted) "GET"
                                   "/photos/a.png/format=tiff" []))
                     (store_with "photos/a.png"))) = Some p
       /\ encoder p = Some (ToFormat "tiff" q).
Proof.
  apply (transform_content_type _ (S3.world (S3.setup "png"))
           (store_with "photos/a.png") (image_env "4")
           (url_event (Some trusted) "GET" "/photos/a.png/format=tiff" [])
           "/photos/a.png/format=tiff"
           {| statusCode := 200;
              resp_headers :=
                [ ("Content-Type", HString "image/jpeg");
                  ("Cache-Control", HString "public, max-age=31536000");
                  ("Server-Timing", HTiming ["img-download"; "img-upload"]) ];
              resp_body := Some (Base64Body (bytes3 ++ [Byte.x06])%list);
              isBase64Encoded := true |});
    vm_compute; reflexivity.
Defined.

(** What the path-operations handler hands to the encoder: the bytes it
    fetched from the original bucket under the image path, read
    tolerantly, always resized (also when no size is asked for), rotated
    exactly when the metadata report an orientation; and a quality
    reaches the encoder only for a format other than gif and png. *)
Theorem transform_pipeline
        (W : Type) (o : Oracle W) (w : W) (env : ProcessEnv) (ev : Event)
        (p : Pipeline) :
  let res := run o (ImageTransform.handler env ev) w in
  encode_requested (trace res) = Some p ->
  exists path out m,
    ImageTransform.request_path ev = Some path
    /\ fetched (trace res)
       = Some (ImageTransform.S3_ORIGINAL_IMAGE_BUCKET env,
               fst (ImageTransform.parse_path path))
    /\ fetch_output (trace res) = Some out
    /\ Body out = Some (inr (input p))
    /\ tolerant p = true
    /\ resize p <> None
    /\ metadata_reported (trace res) = Some m
    /\ rotate p = ImageTransform.truthy_orientation (orientation m)
    /\ forall enc q,
         encoder p = Some enc -> encoder_quality enc = Some q ->
         existsb (String.eqb (encoder_format enc)) ["gif"; "png"] = false.
Proof.
  cbv zeta. revert p.
  apply (run_always o _
    (fun t out0 => forall p, encode_requested t = Some p ->
       exists path out m,
         ImageTransform.request_path ev = Some path
         /\ fetched t
            = Some (ImageTransform.S3_ORIGINAL_IMAGE_BUCKET env,
                    fst (ImageTransform.parse_path path))
         /\ fetch_output t = Some out
         /\ Body out = Some (inr (input p))
         /\ tolerant p = true
         /\ resize p <> None
         /\ metadata_reported t = Some m
         /\ rotate p = ImageTransform.truthy_orientation (orientation m)
         /\ forall enc q,
              encoder p = Some enc -> encoder_quality enc = Some q ->
              existsb (String.eqb (encoder_format enc)) ["gif"; "png"] = false)).
  unfold ImageTransform.handler, ImageTransform.deliver, ImageTransform.upload.
  destruct (ImageTransform.is_get ev); [|explore; discriminate].
  destruct (ImageTransform.origin_rejected ev); [explore; discriminate|].
  destruct (ImageTransform.request_path ev) as [path|]; [|explore; discriminate].
  destruct (negb (Js.truthy path) || String.eqb path "/")%bool; [explore; discriminate|].
  destruct (ImageTransform.parse_path path) as [imagePath operations] eqn:Hpp.
  destruct (Js.truthy imagePath); [|explore; discriminate].
  unfold ImageTransform.download, ImageTransform.transform,
    ImageTransform.build_pipeline, ImageTransform.format_info.
  cbn [negb fst].
  destruct (Js.get_truthy "format" operations) as [f|];
    [destruct (Js.get_truthy "quality" operations) as [q|]|];
    repeat match goal with
      | |- context [if String.eqb f ?s then _ else _] =>
          destruct (String.eqb f s) eqn:?
      end;
    explore;
    try match goal with
      | H : None = Some _ |- _ => discriminate H
      end;
    match goal with
    | H : Some _ = Some _ |- _ => injection H as <-
    end;
    destruct (ImageTransform.truthy_orientation (orientation _)) eqn:Hrot;
    (do 3 eexists; split; [reflexivity|]; rewrite Hpp;
     do 7 (split; [first [reflexivity | eassumption | discriminate
                         | cbn; congruence]|]);
     cbn; intros enc0 q0 He Hq;
     first [discriminate He | injection He as <-];
     first [discriminate Hq
           | cbn;
             repeat match goal with
               | H : String.eqb ?a ?b = false |- _ => rewrite ?H; clear H
               end;
             eqb_facts; subst; reflexivity]).
Qed.

Lemma transform_pipeline_witness :
  exists path out m,
    ImageTransform.request_path
      (url_event (Some trusted) "GET" "/photos/a.png/format=png,quality=50" [])
    = Some path
    /\ fetched (trace (run (S3.world (S3.setup "png"))
                           (ImageTransform.handler (image_env "4")
                              (url_event (Some trusted) "GET"
                                         "/photos/a.png/format=png,quality=50" []))
                           (store_with "photos/a.png")))
       = Some (ImageTransform.S3_ORIGINAL_IMAGE_BUCKET (image_env "4"),
               fst (ImageTransform.parse_path path))
    /\ fetch_output (trace (run (S3.world (S3.setup "png"))
                                (ImageTransform.handler (image_env "4")
                                   (url_event (Some trusted) "GET"
                                              "/photos/a.png/format=png,quality=50" []))
                                (store_with "photos/a.png"))) = Some out
    /\ Body out = Some (inr bytes3)
    /\ metadata_reported (trace (run (S3.world (S3.setup "png"))
                                     (ImageTransform.handler (image_env "4")
                                        (url_event (Some trusted) "GET"
                                                   "/photos/a.png/format=png,quality=50" []))
                                     (store_with "photos/a.png"))) = Some m.
Proof.
  destruct (transform_pipeline _ (S3.world (S3.setup "png"))
              (store_with "photos/a.png") (image_env "4")
              (url_event (Some trusted) "GET"
                         "/photos/a.png/format=png,quality=50" [])
              {| input := bytes3; tolerant := true;
                 resize := Some {| width := None; height := None;
                                   fit_inside := false;
                                   withoutEnlargement := false |};
                 rotate := false;
                 encoder := Some (ToFormat "png" None) |}
              ltac:(vm_compute; reflexivity))
    as (path & out & m & H1 & H2 & H3 & H4 & _ & _ & H7 & _).
  exists path, out, m. repeat split; assumption.
Defined.

End ImageTransformFacts.

(* ===================================================================== *)
(** * The inline video handler *)
(* ===================================================================== *)

Section VideoThumbnailFacts.
Import Lambda Samples Observe Faults.
Local Open Scope string_scope.

(** The parser of the inline video handler accepts exactly the paths that
    decompose. *)
Lemma video_parseRequest_decompose (ev : Event) :
  VideoThumbnail.parseRequest ev =
  match Spec.decompose (VideoThumbnail.proxy_path ev) with
  | Some (p, r) =>
      Some {| VideoThumbnail.projectName := p; VideoThumbnail.videoPath := r |}
  | None => None
  end.
Proof.
  unfold VideoThumbnail.parseRequest, Spec.decompose.
  destruct (Js.truthy (VideoThumbnail.proxy_path ev)) eqn:Hp; cbn [negb].
  - rewrite length_split_cut.
    destruct (Spec.cut (VideoThumbnail.proxy_path ev)) as [[p r]|] eqn:E;
      [|reflexivity].
    rewrite (split_cut_some _ _ _ E). cbn [hd Js.slice1 tl].
    rewrite join_split.
    destruct (Js.truthy p), (Js.truthy r); reflexivity.
  - apply truthy_false in Hp. now rewrite Hp.
Qed.

(** The inline video handler always answers, with one of the statuses
    200, 403, 404, 500 and 503; it reads the store at most once, runs the
    decoder at most once, and never probes the store or writes to it. *)
Theorem video_handler_always_answers
        (W : Type) (o : Oracle W) (w : W) (ev : Event) :
  let res := run o (VideoThumbnail.handler ev) w in
  (exists r, outcome res = Returned r
             /\ In (statusCode r) [200; 403; 404; 500; 503])
  /\ (store_calls (trace res) <= 1)%nat
  /\ (transform_calls (trace res) <= 1)%nat
  /\ probed (trace res) = None
  /\ written (trace res) = None.
Proof.
  cbv zeta.
  apply (run_always o _
    (fun t out =>
       (exists r, out = Returned r /\ In (statusCode r) [200; 403; 404; 500; 503])
       /\ (store_calls t <= 1)%nat
       /\ (transform_calls t <= 1)%nat
       /\ probed t = None
       /\ written t = None)).
  unfold VideoThumbnail.handler.
  destruct (VideoThumbnail.parseRequest ev) as [req|];
    [|cbn; split; [eexists; split; [reflexivity | cbn; tauto]
                  | repeat split; cbn; lia]].
  destruct (Config.project_bucket _) as [b|];
    [|cbn; split; [eexists; split; [reflexivity | cbn; tauto]
                  | repeat split; cbn; lia]].
  unfold VideoThumbnail.getVideoFromS3, VideoThumbnail.generateThumbnail.
  explore;
    (split; [eexists; split; [reflexivity | cbn; tauto]
            | repeat split; cbn; lia]).
Qed.

(** The inline video handler reaches the outside world only for a path
    that decomposes into a project of the table and a video path; its
    first call is then the fetch of the video path from the bucket of the
    project. *)
Theorem video_handler_guards
        (W : Type) (o : Oracle W) (w : W) (ev : Event) :
  let res := run o (VideoThumbnail.handler ev) w in
  trace res <> [] ->
  exists p v b,
    Spec.decompose (VideoThumbnail.proxy_path ev) = Some (p, v)
    /\ Config.project_bucket p = Some b
    /\ fetched (trace res) = Some (b, v).
Proof.
  cbv zeta.
  apply (run_always o _
    (fun t out =>
       t <> [] ->
       exists p v b,
         Spec.decompose (VideoThumbnail.proxy_path ev) = Some (p, v)
         /\ Config.project_bucket p = Some b
         /\ fetched t = Some (b, v))).
  unfold VideoThumbnail.handler. rewrite video_parseRequest_decompose.
  destruct (Spec.decompose (VideoThumbnail.proxy_path ev)) as [[p v]|];
    [|cbn; congruence].
  cbn [VideoThumbnail.projectName VideoThumbnail.videoPath].
  destruct (Config.project_bucket p) as [b|] eqn:Hb; [|cbn; congruence].
  unfold VideoThumbnail.getVideoFromS3, VideoThumbnail.generateThumbnail.
  explore; exists p, v, b; now repeat split.
Qed.

Lemma video_handler_guards_witness :
  exists p v b,
    Spec.decompose (VideoThumbnail.proxy_path (proxy_event None "geerly/clips/a.mp4" []))
    = Some (p, v)
    /\ Config.project_bucket p = Some b
    /\ fetched (trace (run (S3.world (S3.setup "jpeg"))
                           (VideoThumbnail.handler
                              (proxy_event None "geerly/clips/a.mp4" []))
                           (store_with "clips/a.mp4"))) = Some (b, v).
Proof.
  apply (video_handler_guards _ (S3.world (S3.setup "jpeg"))
           (store_with "clips/a.mp4") (proxy_event None "geerly/clips/a.mp4" [])).
  vm_compute. discriminate.
Defined.

(** How the inline video handler answers a failure of the source fetch,
    by the name of the store's exception: object absent gives 404,
    bucket absent 503, access denied 403, and any other fault 500 unless
    its message is one of the two texts the handler uses as error kinds.
    The decoder is not run. *)
Theorem video_handler_fetch_errors
        (W : Type) (o : Oracle W) (w : W) (ev : Event) (e : JsError) :
  let res := run o (VideoThumbnail.handler ev) w in
  fetch_fault (trace res) = Some e ->
  transform_calls (trace res) = 0%nat
  /\ outcome res
     = Returned
         (if (String.eqb (name e) "NoSuchKey" || String.eqb (name e) "NotFound")%bool
          then error_response 404 "Video not found"
          else if String.eqb (name e) "NoSuchBucket"
          then error_response 503 "Service configuration error"
          else if String.eqb (name e) "AccessDenied"
          then error_response 403 "Access denied"
          else if String.eqb (message e) "Storage configuration error"
          then error_response 503 "Service configuration error"
          else if String.eqb (message e) "Access denied to video storage"
          then error_response 403 "Access denied"
          else error_response 500 "Internal server error").
Proof.
  cbv zeta. revert e.
  apply (run_always o _
    (fun t out => forall e, fetch_fault t = Some e ->
       transform_calls t = 0%nat
       /\ out
          = Returned
              (if (String.eqb (name e) "NoSuchKey"
                   || String.eqb (name e) "NotFound")%bool
               then error_response 404 "Video not found"
               else if String.eqb (name e) "NoSuchBucket"
               then error_response 503 "Service configuration error"
               else if String.eqb (name e) "AccessDenied"
               then error_response 403 "Access denied"
               else if String.eqb (message e) "Storage configuration error"
               then error_response 503 "Service configuration error"
               else if String.eqb (message e) "Access denied to video storage"
               then error_response 403 "Access denied"
               else error_response 500 "Internal server error"))).
  unfold VideoThumbnail.handler.
  destruct (VideoThumbnail.parseRequest ev) as [req|]; [|cbn; discriminate].
  destruct (Config.project_bucket _) as [b|]; [|cbn; discriminate].
  unfold VideoThumbnail.getVideoFromS3, VideoThumbnail.generateThumbnail.
  explore;
    try match goal with
      | H : None = Some _ |- _ => discriminate H
      end;
    try match goal with
      | H : Some _ = Some _ |- _ => injection H as <-
      end;
    try match goal with
      | H : fetch_fault _ = Some _ |- _ => cbn in H; try discriminate H
      end;
    try congruence;
    (split; [reflexivity|]);
    repeat match goal with
      | H : _ = true |- _ => rewrite H
      | H : _ = false |- _ => rewrite H
      end;
    reflexivity.
Qed.

Lemma video_handler_fetch_errors_witness :
  outcome (run (S3.world (S3.with_get_fault no_such_bucket (S3.setup "jpeg")))
               (VideoThumbnail.handler (proxy_event None "geerly/clips/a.mp4" []))
               (store_with "clips/a.mp4"))
  = Returned (error_response 503 "Service configuration error").
Proof.
  apply (proj2 (video_handler_fetch_errors _
                  (S3.world (S3.with_get_fault no_such_bucket (S3.setup "jpeg")))
                  (store_with "clips/a.mp4")
                  (proxy_event None "geerly/clips/a.mp4" []) no_such_bucket
                  ltac:(vm_compute; reflexivity))).
Defined.

(** A 200 answer of the inline video handler carries the thumbnail the
    decoder produced from the very bytes that were fetched, as a base64
    body typed [image/jpeg] (without the base64 flag), and no call
    failed on the way. *)
Theorem video_handler_success
        (W : Type) (o : Oracle W) (w : W) (ev : Event) (r : Response) :
  let res := run o (VideoThumbnail.handler ev) w in
  outcome res = Returned r ->
  statusCode r = 200 ->
  exists out video thumb,
    fetch_output (trace res) = Some out
    /\ Body out = Some (inr video)
    /\ decoded (trace res) = Some video
    /\ thumbnail (trace res) = Some thumb
    /\ clean (trace res) = true
    /\ resp_body r = Some (Base64Body thumb)
    /\ header "Content-Type" (resp_headers r) = Some (HString "image/jpeg")
    /\ header "Cache-Control" (resp_headers r)
       = Some (HString "public, max-age=31536000")
    /\ isBase64Encoded r = false.
Proof.
  cbv zeta. revert r.
  apply (run_always o _
    (fun t out0 => forall r, out0 = Returned r -> statusCode r = 200 ->
       exists out video thumb,
         fetch_output t = Some out
         /\ Body out = Some (inr video)
         /\ decoded t = Some video
         /\ thumbnail t = Some thumb
         /\ clean t = true
         /\ resp_body r = Some (Base64Body thumb)
         /\ header "Content-Type" (resp_headers r) = Some (HString "image/jpeg")
         /\ header "Cache-Control" (resp_headers r)
            = Some (HString "public, max-age=31536000")
         /\ isBase64Encoded r = false)).
  unfold VideoThumbnail.handler.
  destruct (VideoThumbnail.parseRequest ev) as [req|];
    [|cbn; intros ? [= <-] Hs; discriminate Hs].
  destruct (Config.project_bucket _) as [b|];
    [|cbn; intros ? [= <-] Hs; discriminate Hs].
  unfold VideoThumbnail.getVideoFromS3, VideoThumbnail.generateThumbnail.
  explore;
    match goal with
    | H : Returned _ = Returned _ |- _ => injection H as <-
    end;
    match goal with
    | H : statusCode _ = 200 |- _ => cbn in H; try discriminate H
    end;
    do 3 eexists; split; [reflexivity|]; split; [eassumption|];
    cbn; unfold clean; cbn;
    repeat match goal with
      | H : Body _ = _ |- _ => rewrite H
      end;
    repeat split.
Qed.

Lemma video_handler_success_witness :
  exists out video thumb,
    fetch_output (trace (run (S3.world (S3.setup "jpeg"))
                             (VideoThumbnail.handler
                                (proxy_event None "geerly/clips/a.mp4" []))
                             (store_with "clips/a.mp4"))) = Some out
    /\ Body out = Some (inr video)
    /\ decoded (trace (run (S3.world (S3.setup "jpeg"))
                           (VideoThumbnail.handler
                              (proxy_event None "geerly/clips/a.mp4" []))
                           (store_with "clips/a.mp4"))) = Some video
    /\ thumbnail (trace (run (S3.world (S3.setup "jpeg"))
                             (VideoThumbnail.handler
                                (proxy_event None "geerly/clips/a.mp4" []))
                             (store_with "clips/a.mp4"))) = Some thumb.
Proof.
  destruct (video_handler_success _ (S3.world (S3.setup "jpeg"))
              (store_with "clips/a.mp4")
              (proxy_event None "geerly/clips/a.mp4" [])
              {| statusCode := 200;
                 resp_headers :=
                   [ ("Content-Type", HString "image/jpeg");
                     ("Cache-Control", HString "public, max-age=31536000") ];
                 resp_body := Some (Base64Body [Byte.xff; Byte.xd8; Byte.xff; Byte.xd9]);
                 isBase64Encoded := false |}
              ltac:(vm_compute; reflexivity) ltac:(reflexivity))
    as (out & video & thumb & H1 & H2 & H3 & H4 & _).
  exists out, video, thumb. repeat split; assumption.
Defined.

(** A failure of the decoder is logged and answered 500 "Internal server
    error", unless the message of its exception is one of the two texts
    the handler uses as error kinds: it is then answered as if the store
    had failed, 503 or 403. *)
Theorem video_handler_decoder_failure
        (W : Type) (o : Oracle W) (w : W) (ev : Event) (e : JsError) :
  let res := run o (VideoThumbnail.handler ev) w in
  codec_fault (trace res) = Some e ->
  logged "Error processing request:" (message e) (trace res) = true
  /\ outcome res
     = Returned
         (if String.eqb (message e) "Storage configuration error"
          then error_response 503 "Service configuration error"
          else if String.eqb (message e) "Access denied to video storage"
          then error_response 403 "Access denied"
          else error_response 500 "Internal server error").
Proof.
  cbv zeta. revert e.
  apply (run_always o _
    (fun t out => forall e, codec_fault t = Some e ->
       logged "Error processing request:" (message e) t = true
       /\ out
          = Returned
              (if String.eqb (message e) "Storage configuration error"
               then error_response 503 "Service configuration error"
               else if String.eqb (message e) "Access denied to video storage"
               then error_response 403 "Access denied"
               else error_response 500 "Internal server error"))).
  unfold VideoThumbnail.handler.
  destruct (VideoThumbnail.parseRequest ev) as [req|]; [|cbn; discriminate].
  destruct (Config.project_bucket _) as [b|]; [|cbn; discriminate].
  unfold VideoThumbnail.getVideoFromS3, VideoThumbnail.generateThumbnail.
  explore;
    try match goal with
      | H : None = Some _ |- _ => discriminate H
      end;
    match goal with
    | H : Some _ = Some _ |- _ => injection H as <-
    end;
    try congruence;
    unfold logged; cbn; rewrite ?String.eqb_refl; cbn;
    rewrite ?Bool.orb_true_r;
    repeat match goal with
      | H : _ = true |- _ => rewrite H
      | H : _ = false |- _ => rewrite H
      end;
    split; reflexivity.
Qed.

Lemma video_handler_decoder_failure_witness :
  outcome (run (S3.world (broken_codec "jpeg" (Error "Access denied to video storage")))
               (VideoThumbnail.handler (proxy_event None "geerly/clips/a.mp4" []))
               (store_with "clips/a.mp4"))
  = Returned (error_response 403 "Access denied").
Proof.
  apply (proj2 (video_handler_decoder_failure _
                  (S3.world (broken_codec "jpeg" (Error "Access denied to video storage")))
                  (store_with "clips/a.mp4")
                  (proxy_event None "geerly/clips/a.mp4" [])
                  (Error "Access denied to video storage")
                  ltac:(vm_compute; reflexivity))).
Defined.

End VideoThumbnailFacts.

(* ===================================================================== *)
(** * The caching video handler *)
(* ===================================================================== *)

Section VideoRedirectFacts.
Import Lambda Samples Observe Faults Routes.
Local Open Scope string_scope.

(** The project and the video path the caching handler computes from a
    path are its two sides around the first [/]. *)
Lemma redirect_route_parts (path : string) :
  (hd EmptyString (Js.split "/" path),
   Js.join "/" (Js.slice1 (Js.split "/" path)))
  = match Spec.cut path with
    | Some (p, v) => (p, v)
    | None => (path, EmptyString)
    end.
Proof.
  destruct (Spec.cut path) as [[p v]|] eqn:E.
  - rewrite (split_cut_some _ _ _ E). cbn [hd Js.slice1 tl].
    now rewrite join_split.
  - now rewrite (split_cut_none _ E).
Qed.

Lemma string_append_assoc (a b c : string) : (a +:+ b) +:+ c = a +:+ (b +:+ c).
Proof.
  induction a as [|x a IH]; [reflexivity|].
  change (String x ((a +:+ b) +:+ c) = String x (a +:+ (b +:+ c))).
  now rewrite IH.
Qed.

Lemma redirect_handler_route (ev : Event) (p v : string) :
  video_route ev = Some (p, v) ->
  exists raw,
    rawPath ev = Some raw
    /\ hd EmptyString (Js.split "/" (Js.substring1 raw)) = p
    /\ Js.join "/" (Js.slice1 (Js.split "/" (Js.substring1 raw))) = v.
Proof.
  unfold video_route. destruct (rawPath ev) as [raw|]; [|discriminate].
  intros H. exists raw. split; [reflexivity|].
  pose proof (redirect_route_parts (Js.substring1 raw)) as Hr.
  destruct (Spec.cut (Js.substring1 raw)) as [[p' v']|];
    injection H as <- <-; injection Hr as -> ->; now split.
Qed.

(** The caching video handler always answers, with one of the statuses
    302, 404 and 500; it sends at most three commands to the store and
    runs the decoder at most once. *)
Theorem redirect_always_answers
        (W : Type) (o : Oracle W) (w : W) (ev : Event) :
  let res := run o (VideoRedirect.handler ev) w in
  (exists r, outcome res = Returned r /\ In (statusCode r) [302; 404; 500])
  /\ (store_calls (trace res) <= 3)%nat
  /\ (transform_calls (trace res) <= 1)%nat.
Proof.
  cbv zeta.
  apply (run_always o _
    (fun t out =>
       (exists r, out = Returned r /\ In (statusCode r) [302; 404; 500])
       /\ (store_calls t <= 3)%nat
       /\ (transform_calls t <= 1)%nat)).
  unfold VideoRedirect.handler.
  destruct (rawPath ev) as [raw|];
    [|explore; (split; [eexists; split; [reflexivity | cbn; tauto]
                       | split; cbn; lia])].
  destruct (Config.project_bucket _) as [b|];
    [|explore; (split; [eexists; split; [reflexivity | cbn; tauto]
                       | split; cbn; lia])].
  unfold VideoRedirect.checkThumbnailExists, VideoRedirect.getVideoFromS3,
    VideoRedirect.generateThumbnail.
  explore;
    (split; [eexists; split; [reflexivity | cbn; tauto]
            | split; cbn; lia]).
Qed.

(** For every path whose first segment is a project, the caching handler
    first probes the bucket of the project, and does so also when the
    path names no video; a fetch that follows reads the video path from
    the same bucket. *)
Theorem redirect_probes_project_bucket
        (W : Type) (o : Oracle W) (w : W) (ev : Event) (p v : string) (b : bucket) :
  let res := run o (VideoRedirect.handler ev) w in
  video_route ev = Some (p, v) ->
  Config.project_bucket p = Some b ->
  probed (trace res) = Some (b, "thumbnails/" +:+ v +:+ ".jpg.jpg")
  /\ (fetched (trace res) = None \/ fetched (trace res) = Some (b, v)).
Proof.
  cbv zeta. intros Hr Hp.
  destruct (redirect_handler_route ev p v Hr) as (raw & Hraw & Hp' & Hv').
  apply (run_always o _
    (fun t out =>
       probed t = Some (b, "thumbnails/" +:+ v +:+ ".jpg.jpg")
       /\ (fetched t = None \/ fetched t = Some (b, v)))).
  unfold VideoRedirect.handler. rewrite Hraw. cbv zeta.
  rewrite Hp', Hv', Hp.
  unfold VideoRedirect.checkThumbnailExists, VideoRedirect.getVideoFromS3,
    VideoRedirect.generateThumbnail, VideoRedirect.thumbnailKey.
  assert (Hk : ("thumbnails/" +:+ v +:+ ".jpg") +:+ ".jpg"
               = "thumbnails/" +:+ v +:+ ".jpg.jpg").
  { now rewrite !string_append_assoc. }
  rewrite Hk.
  explore; (split; [reflexivity | auto]).
Qed.

Lemma redirect_probes_project_bucket_witness :
  probed (trace (run (S3.world (S3.setup "jpeg"))
                     (VideoRedirect.handler (url_event None "GET" "/geerly" []))
                     (store_with "clips/a.mp4")))
  = Some (BucketName "geerly-cms-content", "thumbnails/.jpg.jpg").
Proof.
  exact (proj1 (redirect_probes_project_bucket _ (S3.world (S3.setup "jpeg"))
                  (store_with "clips/a.mp4") (url_event None "GET" "/geerly" [])
                  "geerly" EmptyString (BucketName "geerly-cms-content")
                  ltac:(reflexivity) ltac:(reflexivity))).
Defined.

(** A 302 answer is given only after the probe found an object or the
    thumbnail was written successfully; its location is the fixed host
    followed by the project, the derivative key and the query string of
    the request. *)
Theorem redirect_location
        (W : Type) (o : Oracle W) (w : W) (ev : Event) (r : Response) :
  let res := run o (VideoRedirect.handler ev) w in
  outcome res = Returned r ->
  statusCode r = 302 ->
  exists p v,
    video_route ev = Some (p, v)
    /\ (probe_hit (trace res) = true \/ write_succeeded (trace res) = true)
    /\ resp_body r = None
    /\ header "Cache-Control" (resp_headers r)
       = Some (HString "public, max-age=31536000")
    /\ header "Location" (resp_headers r)
       = Some (HString ("https://image.boilingkettle.co/" +:+ p +:+ "/"
                        +:+ VideoRedirect.thumbnailKey v
                        +:+ match rawQueryString ev with
                            | Some q => if Js.truthy q then "?" +:+ q else EmptyString
                            | None => EmptyString
                            end)).
Proof.
  cbv zeta. revert r.
  unfold video_route.
  apply (run_always o _
    (fun t out => forall r, out = Returned r -> statusCode r = 302 ->
       exists p v,
         match rawPath ev with
         | Some raw =>
             match Spec.cut (Js.substring1 raw) with
             | Some (p, v) => Some (p, v)
             | None => Some (Js.substring1 raw, EmptyString)
             end
         | None => None
         end = Some (p, v)
         /\ (probe_hit t = true \/ write_succeeded t = true)
         /\ resp_body r = None
         /\ header "Cache-Control" (resp_headers r)
            = Some (HString "public, max-age=31536000")
         /\ header "Location" (resp_headers r)
            = Some (HString ("https://image.boilingkettle.co/" +:+ p +:+ "/"
                             +:+ VideoRedirect.thumbnailKey v
                             +:+ match rawQueryString ev with
                                 | Some q => if Js.truthy q then "?" +:+ q
                                             else EmptyString
                                 | None => EmptyString
                                 end)))).
  unfold VideoRedirect.handler.
  destruct (rawPath ev) as [raw|];
    [|cbn; intros ? ? [= <-] Hs; discriminate Hs].
  cbv zeta.
  pose proof (redirect_route_parts (Js.substring1 raw)) as Hparts.
  set (pn := hd EmptyString (Js.split "/" (Js.substring1 raw))) in *.
  set (vp := Js.join "/" (Js.slice1 (Js.split "/" (Js.substring1 raw)))) in *.
  assert (Hroute : match Spec.cut (Js.substring1 raw) with
                   | Some (p, v) => Some (p, v)
                   | None => Some (Js.substring1 raw, EmptyString)
                   end = Some (pn, vp)).
  { destruct (Spec.cut (Js.substring1 raw)) as [[p' v']|];
      injection Hparts as -> ->; reflexivity. }
  rewrite Hroute. clearbody pn vp. clear Hparts Hroute.
  destruct (Config.project_bucket pn) as [b|];
    [|cbn; intros ? [= <-] Hs; discriminate Hs].
  unfold VideoRedirect.checkThumbnailExists, VideoRedirect.getVideoFromS3,
    VideoRedirect.generateThumbnail, VideoRedirect.redirectUrl.
  set (qs := match rawQueryString ev with
             | Some q => if Js.truthy q then "?" +:+ q else EmptyString
             | None => EmptyString
             end).
  clearbody qs.
  explore;
    match goal with
    | H : Returned _ = Returned _ |- _ => injection H as <-
    end;
    match goal with
    | H : statusCode _ = 302 |- _ => cbn in H; try discriminate H
    end;
    exists pn, vp; repeat split; auto.
Qed.

Lemma redirect_location_witness :
  exists p v,
    video_route (url_event None "GET" "/geerly/clips/a.mp4" []) = Some (p, v)
    /\ (probe_hit (trace (run (S3.world (S3.setup "jpeg"))
                              (VideoRedirect.handler
                                 (url_event None "GET" "/geerly/clips/a.mp4" []))
                              (store_with "clips/a.mp4"))) = true
        \/ write_succeeded (trace (run (S3.world (S3.setup "jpeg"))
                                       (VideoRedirect.handler
                                          (url_event None "GET" "/geerly/clips/a.mp4" []))
                                       (store_with "clips/a.mp4"))) = true).
Proof.
  destruct (redirect_location _ (S3.world (S3.setup "jpeg"))
              (store_with "clips/a.mp4")
              (url_event None "GET" "/geerly/clips/a.mp4" [])
              (VideoRedirect.redirect_response
                 "https://image.boilingkettle.co/geerly/thumbnails/clips/a.mp4.jpg")
              ltac:(vm_compute; reflexivity) ltac:(reflexivity))
    as (p & v & H1 & H2 & _).
  exists p, v. split; assumption.
Defined.

(** What the caching handler writes: the thumbnail the decoder made from
    the bytes fetched under the video path, to the bucket of the project,
    under [thumbnails/] followed by the video path and [.jpg], typed
    [image/jpeg] and without cache control; it writes only after the
    probe answered [NotFound]. *)
Theorem redirect_write
        (W : Type) (o : Oracle W) (w : W) (ev : Event) (wr : Write) :
  let res := run o (VideoRedirect.handler ev) w in
  written (trace res) = Some wr ->
  exists p v b out video e,
    video_route ev = Some (p, v)
    /\ Config.project_bucket p = Some b
    /\ probe_fault (trace res) = Some e /\ name e = "NotFound"
    /\ fetched (trace res) = Some (b, v)
    /\ fetch_output (trace res) = Some out
    /\ Body out = Some (inr video)
    /\ decoded (trace res) = Some video
    /\ thumbnail (trace res) = Some (bytes wr)
    /\ to_bucket wr = b
    /\ to_key wr = VideoRedirect.thumbnailKey v
    /\ as_type wr = Some "image/jpeg"
    /\ cache_control wr = None.
Proof.
  cbv zeta. revert wr.
  unfold video_route.
  apply (run_always o _
    (fun t out0 => forall wr, written t = Some wr ->
       exists p v b out video e,
         match rawPath ev with
         | Some raw =>
             match Spec.cut (Js.substring1 raw) with
             | Some (p, v) => Some (p, v)
             | None => Some (Js.substring1 raw, EmptyString)
             end
         | None => None
         end = Some (p, v)
         /\ Config.project_bucket p = Some b
         /\ probe_fault t = Some e /\ name e = "NotFound"
         /\ fetched t = Some (b, v)
         /\ fetch_output t = Some out
         /\ Body out = Some (inr video)
         /\ decoded t = Some video
         /\ thumbnail t = Some (bytes wr)
         /\ to_bucket wr = b
         /\ to_key wr = VideoRedirect.thumbnailKey v
         /\ as_type wr = Some "image/jpeg"
         /\ cache_control wr = None)).
  unfold VideoRedirect.handler.
  destruct (rawPath ev) as [raw|]; [|cbn; discriminate].
  cbv zeta.
  pose proof (redirect_route_parts (Js.substring1 raw)) as Hparts.
  set (pn := hd EmptyString (Js.split "/" (Js.substring1 raw))) in *.
  set (vp := Js.join "/" (Js.slice1 (Js.split "/" (Js.substring1 raw)))) in *.
  assert (Hroute : match Spec.cut (Js.substring1 raw) with
                   | Some (p, v) => Some (p, v)
                   | None => Some (Js.substring1 raw, EmptyString)
                   end = Some (pn, vp)).
  { destruct (Spec.cut (Js.substring1 raw)) as [[p' v']|];
      injection Hparts as -> ->; reflexivity. }
  rewrite Hroute. clearbody pn vp. clear Hparts Hroute.
  destruct (Config.project_bucket pn) as [b|] eqn:Hb; [|cbn; discriminate].
  unfold VideoRedirect.checkThumbnailExists, VideoRedirect.getVideoFromS3,
    VideoRedirect.generateThumbnail.
  explore;
    try match goal with
      | H : None = Some _ |- _ => discriminate H
      end;
    match goal with
    | H : Some _ = Some _ |- _ => injection H as <-
    end;
    eqb_facts;
    exists pn, vp, b; do 3 eexists;
    repeat split; try reflexivity; try eassumption.
Qed.

Lemma redirect_write_witness :
  exists p v b out video e,
    video_route (url_event None "GET" "/geerly/clips/a.mp4" []) = Some (p, v)
    /\ Config.project_bucket p = Some b
    /\ probe_fault (trace (run (S3.world (S3.setup "jpeg"))
                               (VideoRedirect.handler
                                  (url_event None "GET" "/geerly/clips/a.mp4" []))
                               (store_with "clips/a.mp4"))) = Some e
    /\ name e = "NotFound"
    /\ fetched (trace (run (S3.world (S3.setup "jpeg"))
                           (VideoRedirect.handler
                              (url_event None "GET" "/geerly/clips/a.mp4" []))
                           (store_with "clips/a.mp4"))) = Some (b, v)
    /\ fetch_output (trace (run (S3.world (S3.setup "jpeg"))
                                (VideoRedirect.handler
                                   (url_event None "GET" "/geerly/clips/a.mp4" []))
                                (store_with "clips/a.mp4"))) = Some out
    /\ Body out = Some (inr video).
Proof.
  destruct (redirect_write _ (S3.world (S3.setup "jpeg"))
              (store_with "clips/a.mp4")
              (url_event None "GET" "/geerly/clips/a.mp4" [])
              {| to_bucket := BucketName "geerly-cms-content";
                 to_key := "thumbnails/clips/a.mp4.jpg";
                 bytes := [Byte.xff; Byte.xd8; Byte.xff; Byte.xd9];
                 as_type := Some "image/jpeg";
                 cache_control := None |}
              ltac:(vm_compute; reflexivity))
    as (p & v & b & out & video & e & H1 & H2 & H3 & H4 & H5 & H6 & H7 & _).
  exists p, v, b, out, video, e. repeat split; assumption.
Defined.

(** A probe that fails otherwise than with [NotFound] ends the request:
    the failure is logged and answered 500, and the source is neither
    fetched nor decoded, nor is anything written. *)
Theorem redirect_probe_fault
        (W : Type) (o : Oracle W) (w : W) (ev : Event) (e : JsError) :
  let res := run o (VideoRedirect.handler ev) w in
  probe_fault (trace res) = Some e ->
  name e <> "NotFound" ->
  outcome res = Returned (error_response 500 "Error processing video")
  /\ logged "Error processing video:" (message e) (trace res) = true
  /\ fetched (trace res) = None
  /\ transform_calls (trace res) = 0%nat
  /\ written (trace res) = None.
Proof.
  cbv zeta. revert e.
  apply (run_always o _
    (fun t out => forall e, probe_fault t = Some e -> name e <> "NotFound" ->
       out = Returned (error_response 500 "Error processing video")
       /\ logged "Error processing video:" (message e) t = true
       /\ fetched t = None
       /\ transform_calls t = 0%nat
       /\ written t = None)).
  unfold VideoRedirect.handler.
  destruct (rawPath ev) as [raw|]; [|cbn; discriminate].
  destruct (Config.project_bucket _) as [b|]; [|cbn; discriminate].
  unfold VideoRedirect.checkThumbnailExists, VideoRedirect.getVideoFromS3,
    VideoRedirect.generateThumbnail.
  explore;
    try match goal with
      | H : None = Some _ |- _ => discriminate H
      end;
    match goal with
    | H : Some _ = Some _ |- _ => injection H as <-
    end;
    eqb_facts; try congruence;
    unfold logged; cbn; rewrite ?String.eqb_refl;
    repeat split; reflexivity.
Qed.

Lemma redirect_probe_fault_witness :
  outcome (run (probe_failing access_denied (S3.setup "jpeg"))
               (VideoRedirect.handler (url_event None "GET" "/geerly/clips/a.mp4" []))
               (store_with "clips/a.mp4"))
  = Returned (error_response 500 "Error processing video")
  /\ fetched (trace (run (probe_failing access_denied (S3.setup "jpeg"))
                         (VideoRedirect.handler
                            (url_event None "GET" "/geerly/clips/a.mp4" []))
                         (store_with "clips/a.mp4"))) = None.
Proof.
  destruct (redirect_probe_fault _ (probe_failing access_denied (S3.setup "jpeg"))
              (store_with "clips/a.mp4")
              (url_event None "GET" "/geerly/clips/a.mp4" []) access_denied
              ltac:(vm_compute; reflexivity) ltac:(vm_compute; discriminate))
    as (H1 & _ & H3 & _).
  split; assumption.
Defined.

(** How the caching handler answers a failure of the source fetch: only
    [NoSuchKey] is an absent video, answered 404 with the video path in
    the message; every other fault of the store, access denied and
    absent bucket included, is answered 500.  Nothing is decoded or
    written. *)
Theorem redirect_fetch_errors
        (W : Type) (o : Oracle W) (w : W) (ev : Event) (e : JsError) :
  let res := run o (VideoRedirect.handler ev) w in
  fetch_fault (trace res) = Some e ->
  exists b v,
    fetched (trace res) = Some (b, v)
    /\ transform_calls (trace res) = 0%nat
    /\ written (trace res) = None
    /\ outcome res
       = Returned (if String.eqb (name e) "NoSuchKey"
                   then error_response 404 ("Video not found: " +:+ v)
                   else error_response 500 "Error processing video").
Proof.
  cbv zeta. revert e.
  apply (run_always o _
    (fun t out => forall e, fetch_fault t = Some e ->
       exists b v,
         fetched t = Some (b, v)
         /\ transform_calls t = 0%nat
         /\ written t = None
         /\ out
            = Returned (if String.eqb (name e) "NoSuchKey"
                        then error_response 404 ("Video not found: " +:+ v)
                        else error_response 500 "Error processing video"))).
  unfold VideoRedirect.handler.
  destruct (rawPath ev) as [raw|]; [|cbn; discriminate].
  destruct (Config.project_bucket _) as [b|]; [|cbn; discriminate].
  unfold VideoRedirect.checkThumbnailExists, VideoRedirect.getVideoFromS3,
    VideoRedirect.generateThumbnail.
  explore;
    try match goal with
      | H : None = Some _ |- _ => discriminate H
      end;
    try match goal with
      | H : Some _ = Some _ |- _ => injection H as <-
      end;
    try match goal with
      | H : fetch_fault _ = Some _ |- _ => cbn in H; try discriminate H
      end;
    try congruence;
    do 2 eexists; (split; [reflexivity|]);
    repeat match goal with
      | H : String.eqb _ _ = _ |- _ => rewrite H
      end;
    repeat split; reflexivity.
Qed.

Lemma redirect_fetch_errors_witness :
  exists b v,
    fetched (trace (run (S3.world (S3.with_get_fault access_denied (S3.setup "jpeg")))
                        (VideoRedirect.handler
                           (url_event None "GET" "/geerly/clips/a.mp4" []))
                        (store_with "clips/a.mp4"))) = Some (b, v)
    /\ outcome (run (S3.world (S3.with_get_fault access_denied (S3.setup "jpeg")))
                    (VideoRedirect.handler
                       (url_event None "GET" "/geerly/clips/a.mp4" []))
                    (store_with "clips/a.mp4"))
       = Returned (if String.eqb (name access_denied) "NoSuchKey"
                   then error_response 404 ("Video not found: " +:+ v)
                   else error_response 500 "Error processing video").
Proof.
  destruct (redirect_fetch_errors _
              (S3.world (S3.with_get_fault access_denied (S3.setup "jpeg")))
              (store_with "clips/a.mp4")
              (url_event None "GET" "/geerly/clips/a.mp4" []) access_denied
              ltac:(vm_compute; reflexivity))
    as (b & v & H1 & _ & _ & H4).
  exists b, v. split; assumption.
Defined.

End VideoRedirectFacts.
